(** * SmartShop: the conversational tool-orchestration engine and its
      retrieval engine, embedded in Rocq

    The development follows the TypeScript sources of the API server:

    - [services/llm/types.ts]            the data model ([Message], [ToolCall],
                                         [StreamChunk], ...);
    - [services/llm/gemini-provider.ts]  the Gemini adapter and its retry policy;
    - [services/chat/tools.ts]           the local tool registry;
    - [services/chat/ChatService.ts]     the orchestrator over the local registry;
    - [services/mcp/MCPClient.ts]        the remote tool gateway;
    - [services/mcp/MCPChatService.ts]   the orchestrator over the gateway;
    - [services/rag/VectorStore.ts], [RAGQueryEngine.ts], [EmbeddingService.ts]
                                         the retrieval engine.

    Conventions of the embedding.

    - A JavaScript [number] is an IEEE 754 binary64 value: [spec_float] with
      precision 53 and maximal exponent 1024, with the rounding, the
      infinities and NaN of the standard written out by [SFadd], [SFmul],
      [SFdiv] and [SFsqrt].
    - A JavaScript string is a [string] whose characters are code units
      below 256.
    - Asynchronous code is sequential here: every [await] is a call that
      either returns or throws.  External collaborators (the model backend,
      the database, the remote tool servers, the clock) are functions of an
      explicit world state [W].
    - Effectful code lives in the monad [M W E]: world state, a log of events
      of type [E], and JavaScript exceptions.
    - A loop bounded by a counter runs on fuel equal to its bound; the
      theorems show that the fuel is never what stops it.

    Left out: console logging, the OpenAI adapter, the translation of tool
    descriptors to the vocabulary of the Gemini SDK, the SQL statements of
    the stores (their answers are those of the world), and the rendering of
    numbers as text. *)

From Stdlib Require Import ZArith List String Ascii Bool Arith Lia.
From Stdlib Require Import DecimalString DecimalNat DecimalN.
From Stdlib Require Import Floats.SpecFloat.
Import ListNotations.

Local Open Scope list_scope.
Local Open Scope nat_scope.

(* ===================================================================== *)
(** * JavaScript numbers *)
(* ===================================================================== *)

Module JSNum.

Definition num : Type := spec_float.

Definition prec : Z := 53.
Definition emax : Z := 1024.

Definition NaN : num := S754_nan.
Definition Infinity : num := S754_infinity false.
Definition zero : num := S754_zero false.

Definition add : num -> num -> num := SFadd prec emax.
Definition mul : num -> num -> num := SFmul prec emax.
Definition div : num -> num -> num := SFdiv prec emax.
Definition sub : num -> num -> num := SFsub prec emax.
Definition sqrt : num -> num := SFsqrt prec emax.

(** [x === y] on numbers: false on NaN, true on [+0 === -0]. *)
Definition strict_eq : num -> num -> bool := SFeqb.
(** [x >= y] and [x < y]: false as soon as one side is NaN. *)
Definition geb (x y : num) : bool := SFleb y x.
Definition ltb : num -> num -> bool := SFltb.

(** The number denoted by an integer literal. *)
Definition of_Z (z : Z) : num := binary_normalize prec emax z 0 false.

(** The correctly rounded quotient of two positive integers of any size;
    the value of a decimal literal [n / 10^k]. *)
Definition of_ratio (n d : positive) : num :=
  let '(q, e, l) := SFdiv_core_binary prec emax (Zpos n) 0 (Zpos d) 0 in
  binary_round_aux prec emax false q e l.

(** [Math.pow(2, n)] for a natural number [n]. *)
Definition pow2 (n : nat) : num :=
  binary_normalize prec emax 1 (Z.of_nat n) false.

(** [Math.ceil]. *)
Definition ceil (x : num) : num :=
  match x with
  | S754_finite s m e =>
      if (0 <=? e)%Z then x
      else
        let q := Z.shiftr (Zpos m) (- e) in
        let exact := (Z.shiftl q (- e) =? Zpos m)%Z in
        if s then binary_normalize prec emax (- q) 0 true
        else binary_normalize prec emax (if exact then q else q + 1) 0 false
  | _ => x
  end.


Definition is_finite (x : num) : bool :=
  match x with S754_zero _ | S754_finite _ _ _ => true | _ => false end.

Definition is_zero (x : num) : bool :=
  match x with S754_zero _ => true | _ => false end.

End JSNum.

Export JSNum(num).

(* ===================================================================== *)
(** * JavaScript strings *)
(* ===================================================================== *)

Module JSString.

Local Open Scope string_scope.

(** The code units below 256 that [toLowerCase] changes: A-Z, and the
    capital letters U+00C0 to U+00DE without the sign U+00D7. *)
Definition is_upper (c : ascii) : bool :=
  let n := nat_of_ascii c in
  Nat.leb 65 n && Nat.leb n 90
  || Nat.leb 192 n && Nat.leb n 222 && negb (Nat.eqb n 215).

Definition lower_char (c : ascii) : ascii :=
  if is_upper c then ascii_of_nat (nat_of_ascii c + 32) else c.

(** [s.toLowerCase()]. *)
Fixpoint toLowerCase (s : string) : string :=
  match s with
  | EmptyString => EmptyString
  | String c s' => String (lower_char c) (toLowerCase s')
  end.

(** [s.startsWith(p)]. *)
Fixpoint startsWith (s p : string) : bool :=
  match p with
  | EmptyString => true
  | String c p' =>
      match s with
      | EmptyString => false
      | String d s' => Ascii.eqb c d && startsWith s' p'
      end
  end.

(** [s.includes(p)]. *)
Fixpoint includes (s p : string) : bool :=
  startsWith s p ||
  match s with
  | EmptyString => false
  | String _ s' => includes s' p
  end.

(** [parts.join(sep)]. *)
Fixpoint join (sep : string) (parts : list string) : string :=
  match parts with
  | [] => EmptyString
  | [p] => p
  | p :: rest => p ++ sep ++ join sep rest
  end.

(** [String(n)] for a natural number: its decimal digits. *)
Definition of_N (n : N) : string := NilZero.string_of_uint (N.to_uint n).
Definition of_nat (n : nat) : string := NilZero.string_of_uint (Nat.to_uint n).

Definition quote_char : ascii := ascii_of_nat 34.
Definition backslash_char : ascii := ascii_of_nat 92.
Definition newline : string := String (ascii_of_nat 10) EmptyString.

Definition hex_digit (d : nat) : ascii :=
  if Nat.ltb d 10 then ascii_of_nat (48 + d) else ascii_of_nat (87 + d).

(** The escape [JSON.stringify] writes for one character of a string. *)
Definition json_escape_char (c : ascii) : string :=
  let n := nat_of_ascii c in
  if Nat.eqb n 34 then String backslash_char (String quote_char EmptyString)
  else if Nat.eqb n 92 then String backslash_char (String backslash_char EmptyString)
  else if Nat.eqb n 8 then String backslash_char "b"
  else if Nat.eqb n 9 then String backslash_char "t"
  else if Nat.eqb n 10 then String backslash_char "n"
  else if Nat.eqb n 12 then String backslash_char "f"
  else if Nat.eqb n 13 then String backslash_char "r"
  else if Nat.ltb n 32 then
    String backslash_char
      ("u00" ++ String (hex_digit (n / 16)) (String (hex_digit (n mod 16)) EmptyString))
  else String c EmptyString.

Fixpoint json_escape (s : string) : string :=
  match s with
  | EmptyString => EmptyString
  | String c s' => json_escape_char c ++ json_escape s'
  end.

(** [JSON.stringify(s)] for a string [s]. *)
Definition json_quote (s : string) : string :=
  String quote_char (json_escape s ++ String quote_char EmptyString).

End JSString.

(* ===================================================================== *)
(** * Untyped JavaScript values ([unknown], [any], [Record<string, unknown>]) *)
(* ===================================================================== *)

#[local] Set Warnings "-register-all".
Inductive Json : Type :=
| JUndefined
| JNull
| JBool (b : bool)
| JNumber (n : num)
| JString (s : string)
| JArray (items : list Json)
| JObject (fields : list (string * Json)).

Module JsonOps.

(** [obj.key]: [undefined] when the value is no object or lacks the key. *)
Fixpoint assoc (key : string) (fields : list (string * Json)) : option Json :=
  match fields with
  | [] => None
  | (k, v) :: rest => if String.eqb k key then Some v else assoc key rest
  end.

Definition prop (v : Json) (key : string) : Json :=
  match v with
  | JObject fields =>
      match assoc key fields with Some x => x | None => JUndefined end
  | _ => JUndefined
  end.

(** ['key' in v], for a value [v] that is already known to be an object. *)
Definition has_key (v : Json) (key : string) : bool :=
  match v with
  | JObject fields => match assoc key fields with Some _ => true | None => false end
  | _ => false
  end.

(** [typeof v === 'object'] ([null] and arrays included). *)
Definition typeof_object (v : Json) : bool :=
  match v with
  | JNull | JArray _ | JObject _ => true
  | _ => false
  end.

(** Truthiness of a value in a condition. *)
Definition truthy (v : Json) : bool :=
  match v with
  | JUndefined | JNull => false
  | JBool b => b
  | JNumber n =>
      match n with
      | S754_zero _ | S754_nan => false
      | _ => true
      end
  | JString s => negb (String.eqb s EmptyString)
  | JArray _ | JObject _ => true
  end.

End JsonOps.

(* ===================================================================== *)
(** * Exceptions and the effect monad *)
(* ===================================================================== *)

(** A thrown value.  [thrown_isError] is [e instanceof Error];
    [thrown_status] and [thrown_message] are [e?.status] and [e?.message]. *)
Record Thrown : Type := mkThrown {
  thrown_isError : bool;
  thrown_status : option Z;
  thrown_message : option string
}.

(** [new Error(msg)]. *)
Definition Error (msg : string) : Thrown :=
  {| thrown_isError := true; thrown_status := None; thrown_message := Some msg |}.

Inductive Outcome (A : Type) : Type :=
| Returned (a : A)
| Threw (e : Thrown).

Arguments Returned {A} a.
Arguments Threw {A} e.

(** A computation over the world [W] that logs events of type [E]. *)
Definition M (W E A : Type) : Type := W -> list E * W * Outcome A.

Section Monad.
Context {W E : Type}.

Definition ret {A} (a : A) : M W E A := fun w => ([], w, Returned a).

Definition bind {A B} (m : M W E A) (k : A -> M W E B) : M W E B :=
  fun w =>
    match m w with
    | (ev, w', Returned a) =>
        let '(ev', w'', o) := k a w' in (ev ++ ev', w'', o)
    | (ev, w', Threw e) => (ev, w', Threw e)
    end.

(** [throw e]. *)
Definition throw {A} (e : Thrown) : M W E A := fun w => ([], w, Threw e).

(** Log one event. *)
Definition emit (e : E) : M W E unit := fun w => ([e], w, Returned tt).

(** A call to an external collaborator. *)
Definition perform {A} (f : W -> W * (Thrown + A)) : M W E A :=
  fun w =>
    match f w with
    | (w', inl e) => ([], w', Threw e)
    | (w', inr a) => ([], w', Returned a)
    end.

(** [try { m } catch (e) { h e }]. *)
Definition try_catch {A} (m : M W E A) (h : Thrown -> M W E A) : M W E A :=
  fun w =>
    match m w with
    | (ev, w', Returned a) => (ev, w', Returned a)
    | (ev, w', Threw e) =>
        let '(ev', w'', o) := h e w' in (ev ++ ev', w'', o)
    end.

(** [for (const x of xs) { body }], threading the loop-carried state. *)
Fixpoint for_of {A S} (xs : list A) (body : A -> S -> M W E S) (s : S) : M W E S :=
  match xs with
  | [] => ret s
  | x :: xs' => bind (body x s) (for_of xs' body)
  end.

(** [for (let i = lo; i < hi; i++) { body }] for a body that does not
    assign [i]: the loop runs over the indices [lo, ..., hi - 1].  The body
    answers [inl s'] when it falls through or executes [continue], and
    [inr r] for a [return r] inside the loop. *)
Fixpoint for_range {S R} (indices : list nat)
    (body : nat -> S -> M W E (S + R)) (s : S) : M W E (S + R) :=
  match indices with
  | [] => ret (inl s)
  | i :: rest =>
      bind (body i s) (fun r =>
        match r with
        | inl s' => for_range rest body s'
        | inr r => ret (inr r)
        end)
  end.

(** Read the world without changing it. *)
Definition observe {A} (f : W -> A) : M W E A := fun w => ([], w, Returned (f w)).

(** [while (cond) { body }].  The body answers [inl s'] to go on with the
    state [s'] and [inr r] for a [return r] inside the loop.  The result is
    [None] when the fuel runs out before the loop ends. *)
Fixpoint while_ {S R} (fuel : nat) (cond : S -> bool)
    (body : S -> M W E (S + R)) (s : S) : M W E (option (S + R)) :=
  if cond s then
    match fuel with
    | O => ret None
    | S fuel' =>
        bind (body s) (fun r =>
          match r with
          | inl s' => while_ fuel' cond body s'
          | inr r => ret (Some (inr r))
          end)
    end
  else ret (Some (inl s)).

End Monad.

Declare Scope eff_scope.
Delimit Scope eff_scope with eff.
Notation "x <- m ;; k" := (bind m (fun x => k))
  (at level 61, m at next level, right associativity) : eff_scope.
Notation "' pat <- m ;; k" := (bind m (fun x => match x with pat => k end))
  (at level 61, pat pattern, m at next level, right associativity) : eff_scope.
Notation "m ;; k" := (bind m (fun _ => k))
  (at level 61, right associativity) : eff_scope.

(** Run [m], whose events are the chunks handed to a callback, and return
    them in order: [const chunks = []; r = await m(c => chunks.push(c))]. *)
Definition collecting {W C E A} (m : M W C A) : M W E (list C * A) :=
  fun w =>
    match m w with
    | (cs, w', Returned a) => ([], w', Returned (cs, a))
    | (_, w', Threw e) => ([], w', Threw e)
    end.

(** Run a computation that calls no callback. *)
Definition silent {W E A} (m : M W Empty_set A) : M W E A :=
  fun w => let '(_, w', o) := m w in ([], w', o).

Definition events {W E A} (r : list E * W * Outcome A) : list E := fst (fst r).
Definition world {W E A} (r : list E * W * Outcome A) : W := snd (fst r).
Definition outcome {W E A} (r : list E * W * Outcome A) : Outcome A := snd r.

(* ===================================================================== *)
(** * The data model ([services/llm/types.ts]) *)
(* ===================================================================== *)

Inductive Role : Type := system | user | assistant | tool.

Definition Role_eqb (a b : Role) : bool :=
  match a, b with
  | system, system | user, user | assistant, assistant | tool, tool => true
  | _, _ => false
  end.

Record ToolCall : Type := mkToolCall {
  tc_id : string;
  tc_name : string;
  tc_arguments : Json
}.

Record Message : Type := mkMessage {
  role : Role;
  content : string;
  toolCallId : option string;
  toolCalls : option (list ToolCall)
}.

Record Tool : Type := mkTool {
  tool_name : string;
  tool_description : string;
  tool_parameters : Json
}.

Inductive StreamChunk : Type :=
| text (content : string)
| tool_call (toolCall : ToolCall)
| tool_result (toolCall : ToolCall) (content : string)
| chart (descriptor : Json)
| done
| error (message : string).

Inductive UserRole : Type := customer | admin.

Record ChatContext : Type := mkChatContext {
  userId : Z;
  userRole : UserRole;
  userName : string
}.

Definition is_admin (r : UserRole) : bool :=
  match r with admin => true | customer => false end.

(** [{ role: 'system', content }], [{ role: 'user', content }] and
    [{ role: 'tool', content, toolCallId }]. *)
Definition system_message (c : string) : Message :=
  {| role := system; content := c; toolCallId := None; toolCalls := None |}.
Definition user_message (c : string) : Message :=
  {| role := user; content := c; toolCallId := None; toolCalls := None |}.
Definition tool_message (c : string) (id : string) : Message :=
  {| role := tool; content := c; toolCallId := Some id; toolCalls := None |}.

(** [response.toolCalls && response.toolCalls.length > 0]. *)
Definition requests_tools (response : Message) : bool :=
  match toolCalls response with
  | Some (_ :: _) => true
  | _ => false
  end.

(** The calls a [for (const toolCall of response.toolCalls)] runs over. *)
Definition requested (response : Message) : list ToolCall :=
  match toolCalls response with
  | Some tcs => tcs
  | None => []
  end.

(** The interface [LLMProvider].  [chatStream] hands its chunks to the
    callback [onChunk]: they are the events of the computation. *)
Module LLM.

Record LLMProvider (W : Type) : Type := mkLLMProvider {
  chat : list Message -> option (list Tool) -> M W Empty_set Message;
  chatStream : list Message -> option (list Tool) -> M W StreamChunk Message
}.

Arguments chat {W} _ _ _.
Arguments chatStream {W} _ _ _.

End LLM.

(* ===================================================================== *)
(** * The Gemini adapter ([services/llm/gemini-provider.ts]) *)
(* ===================================================================== *)

Module GeminiProvider.

Local Open Scope string_scope.

Definition MAX_RETRIES : nat := 3.
Definition INITIAL_RETRY_DELAY_MS : num := JSNum.of_Z 1000.

(** ** The pattern
    [/retry in (\d+(?:\.\d+)?)\s*(ms|s|m|h|seconds?|minutes?|hours?)?/i] *)

(** [\d] *)
Definition is_digit (c : ascii) : bool :=
  let n := nat_of_ascii c in Nat.leb 48 n && Nat.leb n 57.

(** [\s], on code units below 256 *)
Definition is_space (c : ascii) : bool :=
  let n := nat_of_ascii c in
  Nat.leb 9 n && Nat.leb n 13 || Nat.eqb n 32 || Nat.eqb n 160.

(** The longest prefix of [s] made of characters in the class [p], and
    the rest: a greedy [p*]. *)
Fixpoint span (p : ascii -> bool) (s : string) : string * string :=
  match s with
  | EmptyString => (EmptyString, EmptyString)
  | String c s' =>
      if p c then let (m, r) := span p s' in (String c m, r)
      else (EmptyString, s)
  end.

(** A literal of the pattern matched at the head of [s] under the flag [i]:
    the text matched and what follows it. *)
Fixpoint literal (lit s : string) : option (string * string) :=
  match lit with
  | EmptyString => Some (EmptyString, s)
  | String c lit' =>
      match s with
      | EmptyString => None
      | String d s' =>
          if Ascii.eqb (JSString.lower_char c) (JSString.lower_char d) then
            match literal lit' s' with
            | Some (m, r) => Some (String d m, r)
            | None => None
            end
          else None
      end
  end.

(** [lit] then a greedy optional [opt]: [seconds?] is [word "second" "s"]. *)
Definition word (lit opt s : string) : option (string * string) :=
  match literal lit s with
  | None => None
  | Some (m, r) =>
      match literal opt r with
      | Some (m', r') => Some (m ++ m', r')
      | None => Some (m, r)
      end
  end.

(** [ms|s|m|h|seconds?|minutes?|hours?], alternatives tried in this order. *)
Definition unit_alternatives : list (string -> option (string * string)) :=
  [ literal "ms"; literal "s"; literal "m"; literal "h";
    word "second" "s"; word "minute" "s"; word "hour" "s" ].

Fixpoint first_alternative (alts : list (string -> option (string * string)))
    (s : string) : option (string * string) :=
  match alts with
  | [] => None
  | alt :: rest =>
      match alt s with
      | Some m => Some m
      | None => first_alternative rest s
      end
  end.

(** The two capture groups of a match. *)
Record RetryMatch : Type := mkRetryMatch {
  group1 : string;
  group2 : option string
}.

Definition is_empty (s : string) : bool :=
  match s with EmptyString => true | _ => false end.

(** The pattern matched at the head of [s].  Every part after the first
    digit may match the empty string, so the greedy choices are final. *)
Definition match_here (s : string) : option RetryMatch :=
  match literal "retry in " s with
  | None => None
  | Some (_, r1) =>
      let (int_part, r2) := span is_digit r1 in
      if is_empty int_part then None
      else
        let (frac_part, r3) :=
          match r2 with
          | String "." r2' =>
              let (fd, r) := span is_digit r2' in
              if is_empty fd then (EmptyString, r2) else (String "." fd, r)
          | _ => (EmptyString, r2)
          end in
        let (_, r4) := span is_space r3 in
        Some {| group1 := int_part ++ frac_part;
                group2 := option_map fst (first_alternative unit_alternatives r4) |}
  end.

(** [message.match(pattern)]: the leftmost match. *)
Fixpoint retry_match (message : string) : option RetryMatch :=
  match match_here message with
  | Some m => Some m
  | None =>
      match message with
      | EmptyString => None
      | String _ rest => retry_match rest
      end
  end.

(** ** [parseFloat] on the text of the first capture group *)

Fixpoint digits_value (s : string) (acc : N) : N :=
  match s with
  | EmptyString => acc
  | String c s' => digits_value s' (acc * 10 + N.of_nat (nat_of_ascii c - 48))
  end.

Definition pow10 (k : nat) : positive := Nat.iter k (Pos.mul 10) 1%positive.

(** [parseFloat(s)] for [s] of the shape [\d+(?:\.\d+)?]: the decimal
    numeral rounded to the nearest number. *)
Definition parseFloat (s : string) : num :=
  let (int_part, rest) := span is_digit s in
  if is_empty int_part then JSNum.NaN
  else
    let frac_part :=
      match rest with
      | String "." r => fst (span is_digit r)
      | _ => EmptyString
      end in
    match digits_value (int_part ++ frac_part) 0 with
    | N0 => JSNum.zero
    | Npos p => JSNum.of_ratio p (pow10 (String.length frac_part))
    end.

(** ** The retry policy *)

(** The delay computed by the [catch] block of [withRetry] for the error
    [error] caught at attempt [attempt] (the variable [retryDelay]). *)
Definition retryDelay (error : Thrown) (attempt : nat) : num :=
  let fallback := JSNum.mul INITIAL_RETRY_DELAY_MS (JSNum.pow2 attempt) in
  match
    match thrown_message error with
    | Some message => retry_match message
    | None => None
    end
  with
  | None => fallback
  | Some retryMatch =>
      let value := parseFloat (group1 retryMatch) in
      let unit := option_map JSString.toLowerCase (group2 retryMatch) in
      let unit_startsWith (p : string) : bool :=
        match unit with Some u => JSString.startsWith u p | None => false end in
      let unit_is (p : string) : bool :=
        match unit with Some u => String.eqb u p | None => false end in
      let parsed :=
        if unit_startsWith "h" then
          JSNum.ceil (JSNum.mul (JSNum.mul (JSNum.mul value (JSNum.of_Z 60))
                                           (JSNum.of_Z 60)) (JSNum.of_Z 1000))
        else if unit_startsWith "m" && negb (unit_startsWith "ms") then
          JSNum.ceil (JSNum.mul (JSNum.mul value (JSNum.of_Z 60)) (JSNum.of_Z 1000))
        else if unit_is "ms" then
          JSNum.ceil value
        else
          JSNum.ceil (JSNum.mul value (JSNum.of_Z 1000)) in
      JSNum.add parsed (JSNum.of_Z 1000)
  end.

Definition message_includes (error : Thrown) (needle : string) : bool :=
  match thrown_message error with
  | Some message => JSString.includes message needle
  | None => false
  end.

(** The classification of a caught error as rate limited. *)
Definition isRateLimited (error : Thrown) : bool :=
  match thrown_status error with Some s => Z.eqb s 429 | None => false end
  || message_includes error "429"
  || message_includes error "Too Many Requests"
  || message_includes error "quota".

(** [throw lastError] when [lastError] is still [null]. *)
Definition null_thrown : Thrown :=
  {| thrown_isError := false; thrown_status := None; thrown_message := None |}.

(** ** The backend: the Gemini SDK, the clock and the timer *)

Record GeminiTurn : Type := mkGeminiTurn {
  turn_role : string;
  turn_text : string
}.

Record Request : Type := mkRequest {
  req_model : string;
  req_systemInstruction : option string;
  req_tools : option (list Tool);
  req_history : list GeminiTurn;
  req_message : string
}.

Record FunctionCall : Type := mkFunctionCall {
  fc_name : string;
  fc_args : Json
}.

Record RawResponse : Type := mkRawResponse {
  response_text : string;
  response_functionCalls : option (list FunctionCall)
}.

(** One chunk of [result.stream], with the value [Date.now()] has when the
    chunk is handled. *)
Record RawChunk : Type := mkRawChunk {
  chunk_text : string;
  chunk_functionCalls : option (list FunctionCall);
  chunk_time : N
}.

(** The chunks a stream delivers and the error that ends it, if any. *)
Record RawStream : Type := mkRawStream {
  stream_chunks : list RawChunk;
  stream_failure : option Thrown
}.

Record Backend (W : Type) : Type := mkBackend {
  sleep : num -> W -> W;
  now : W -> N;
  sendMessage : Request -> W -> W * (Thrown + RawResponse);
  sendMessageStream : Request -> W -> W * (Thrown + RawStream)
}.

Arguments sleep {W} _ _ _.
Arguments now {W} _ _.
Arguments sendMessage {W} _ _ _.
Arguments sendMessageStream {W} _ _ _.

Section Provider.
Context {W : Type}.
Variable backend : Backend W.
Variable model : string.

Local Open Scope eff_scope.

(** [withRetry(operation, operationName)]. *)
Definition withRetry {E A} (operation : M W E A) : M W E A :=
  r <- for_range (seq 0 MAX_RETRIES)
         (fun attempt (lastError : option Thrown) =>
            try_catch
              (a <- operation ;; ret (inr a))
              (fun error =>
                 if isRateLimited error && Nat.ltb attempt (MAX_RETRIES - 1) then
                   perform (fun w => (sleep backend (retryDelay error attempt) w, inr tt)) ;;
                   ret (inl (Some error))
                 else throw error))
         None ;;
  match r with
  | inr a => ret a
  | inl lastError =>
      throw (match lastError with Some e => e | None => null_thrown end)
  end.

Definition toGeminiHistory (messages : list Message) : list GeminiTurn :=
  map (fun msg =>
         {| turn_role := match role msg with assistant => "model" | _ => "user" end;
            turn_text := content msg |})
      (filter (fun msg => negb (Role_eqb (role msg) system)) messages).

(** [messages.slice(0, -1)]. *)
Definition drop_last (messages : list Message) : list Message :=
  removelast messages.

(** The request both operations build.  Reading [lastMessage.content] of an
    empty transcript throws a [TypeError]. *)
Definition build_request {E} (messages : list Message) (tools : option (list Tool))
    : M W E Request :=
  let systemMessage := find (fun m => Role_eqb (role m) system) messages in
  match last (map Some messages) None with
  | None =>
      throw (Error "Cannot read properties of undefined (reading 'content')")
  | Some lastMessage =>
      ret {| req_model := model;
             req_systemInstruction := option_map content systemMessage;
             req_tools := tools;
             req_history := toGeminiHistory (drop_last messages);
             req_message := content lastMessage |}
  end.

Definition gemini_id (time : N) (index : nat) : string :=
  "gemini_" ++ JSString.of_N time ++ "_" ++ JSString.of_nat index.

(** [functionCalls.map((fc, index) => ...)], from the index [index] on. *)
Fixpoint number_calls (time : N) (index : nat) (fcs : list FunctionCall) : list ToolCall :=
  match fcs with
  | [] => []
  | fc :: rest =>
      {| tc_id := gemini_id time index; tc_name := fc_name fc; tc_arguments := fc_args fc |}
      :: number_calls time (S index) rest
  end.

Definition chat (messages : list Message) (tools : option (list Tool))
    : M W Empty_set Message :=
  withRetry
    (request <- build_request messages tools ;;
     response <- perform (sendMessage backend request) ;;
     time <- observe (now backend) ;;
     ret {| role := assistant;
            content := response_text response;
            toolCallId := None;
            toolCalls :=
              match response_functionCalls response with
              | Some (fc :: fcs) => Some (number_calls time 0 (fc :: fcs))
              | _ => None
              end |}).

(** The body of [for await (const chunk of result.stream)]. *)
Definition handle_chunk (chunk : RawChunk) (acc : string * list ToolCall)
    : M W StreamChunk (string * list ToolCall) :=
  let (fullContent, calls) := acc in
  fullContent <-
    (if is_empty (chunk_text chunk) then ret fullContent
     else emit (text (chunk_text chunk)) ;; ret (fullContent ++ chunk_text chunk)) ;;
  calls <-
    match chunk_functionCalls chunk with
    | None => ret calls
    | Some functionCalls =>
        for_of functionCalls
          (fun fc calls =>
             let toolCall :=
               {| tc_id := gemini_id (chunk_time chunk) (List.length calls);
                  tc_name := fc_name fc;
                  tc_arguments := fc_args fc |} in
             emit (tool_call toolCall) ;;
             ret (calls ++ [toolCall])%list)
          calls
    end ;;
  ret (fullContent, calls).

Definition chatStream (messages : list Message) (tools : option (list Tool))
    : M W StreamChunk Message :=
  withRetry
    (request <- build_request messages tools ;;
     stream <- perform (sendMessageStream backend request) ;;
     acc <- for_of (stream_chunks stream) handle_chunk (EmptyString, []) ;;
     match stream_failure stream with
     | Some e => throw e
     | None =>
         emit done ;;
         ret {| role := assistant;
                content := fst acc;
                toolCallId := None;
                toolCalls := match snd acc with [] => None | calls => Some calls end |}
     end).

(** [new GeminiProvider(apiKey, model)] *)
Definition provider : LLM.LLMProvider W :=
  {| LLM.chat := chat; LLM.chatStream := chatStream |}.

End Provider.

End GeminiProvider.

(* ===================================================================== *)
(** * The local tool registry ([services/chat/tools.ts]) *)
(* ===================================================================== *)

Module Tools.

Local Open Scope string_scope.

(** [ExtendedToolResult]; an absent [chart] is [undefined]. *)
Record ExtendedToolResult : Type := mkExtendedToolResult {
  result_toolCallId : string;
  result_content : string;
  result_chart : Json
}.

(** The names of the tools of [customerTools], in order. *)
Definition customerToolNames : list string :=
  [ "semantic_search_products"; "search_products"; "get_product_details";
    "get_my_orders"; "get_order_details"; "get_my_cart"; "get_my_spending" ].

(** The names of the tools [adminTools] adds to [...customerTools]. *)
Definition adminOnlyToolNames : list string :=
  [ "get_sales_dashboard"; "get_sales_analytics"; "get_top_products";
    "get_inventory_status"; "get_revenue_by_category" ].

(** What the registry stands on: the description and the parameter schema
    written for each tool name, the handlers (queries against the relational
    store and the retrieval engine), the clock, and
    [JSON.stringify(result, null, 2)], whose rendering of numbers is not
    modelled. *)
Record Env (W : Type) : Type := mkEnv {
  describe : string -> string * Json;
  semanticSearchProducts : Json -> W -> W * (Thrown + Json);
  searchProducts : Json -> W -> W * (Thrown + Json);
  getProductDetails : Json -> W -> W * (Thrown + Json);
  getMyOrders : Z -> Json -> W -> W * (Thrown + Json);
  getOrderDetails : Z -> Json -> W -> W * (Thrown + Json);
  getMyCart : Z -> W -> W * (Thrown + Json);
  getMySpending : Z -> Json -> W -> W * (Thrown + Json);
  getSalesDashboard : W -> W * (Thrown + Json);
  getSalesAnalytics : Json -> Json -> W -> W * (Thrown + Json);
  getTopProducts : Json -> Json -> W -> W * (Thrown + Json);
  getInventoryStatus : Json -> W -> W * (Thrown + Json);
  getRevenueByCategory : Json -> W -> W * (Thrown + Json);
  now : W -> N;
  stringify_pretty : Json -> string
}.

Arguments describe {W} _ _.
Arguments semanticSearchProducts {W} _ _ _.
Arguments searchProducts {W} _ _ _.
Arguments getProductDetails {W} _ _ _.
Arguments getMyOrders {W} _ _ _ _.
Arguments getOrderDetails {W} _ _ _ _.
Arguments getMyCart {W} _ _ _.
Arguments getMySpending {W} _ _ _ _.
Arguments getSalesDashboard {W} _ _.
Arguments getSalesAnalytics {W} _ _ _ _.
Arguments getTopProducts {W} _ _ _ _.
Arguments getInventoryStatus {W} _ _ _.
Arguments getRevenueByCategory {W} _ _ _.
Arguments now {W} _ _.
Arguments stringify_pretty {W} _ _.

(** [JSON.stringify({ error: message })]: a property whose value is
    [undefined] is left out. *)
Definition stringify_error (message : option string) : string :=
  match message with
  | Some m => "{" ++ JSString.json_quote "error" ++ ":" ++ JSString.json_quote m ++ "}"
  | None => "{}"
  end.

Section Registry.
Context {W E : Type}.
Variable env : Env W.

Local Open Scope eff_scope.

Definition descriptor (name : string) : Tool :=
  {| tool_name := name;
     tool_description := fst (describe env name);
     tool_parameters := snd (describe env name) |}.

Definition customerTools : list Tool := map descriptor customerToolNames.

Definition adminTools : list Tool :=
  (customerTools ++ map descriptor adminOnlyToolNames)%list.

Definition getToolsForRole (r : UserRole) : list Tool :=
  match r with admin => adminTools | customer => customerTools end.

(** [if (context.userRole !== 'admin') throw new Error('Admin only')] *)
Definition admin_gate (context : ChatContext) (handler : M W E Json) : M W E Json :=
  if negb (is_admin (userRole context)) then throw (Error "Admin only")
  else handler.

Definition executeToolInternal (toolName : string) (args : Json) (context : ChatContext)
    : M W E Json :=
  if String.eqb toolName "semantic_search_products" then
    perform (semanticSearchProducts env args)
  else if String.eqb toolName "search_products" then
    perform (searchProducts env args)
  else if String.eqb toolName "get_product_details" then
    perform (getProductDetails env (JsonOps.prop args "productId"))
  else if String.eqb toolName "get_my_orders" then
    perform (getMyOrders env (userId context) args)
  else if String.eqb toolName "get_order_details" then
    perform (getOrderDetails env (userId context) (JsonOps.prop args "orderId"))
  else if String.eqb toolName "get_my_cart" then
    perform (getMyCart env (userId context))
  else if String.eqb toolName "get_my_spending" then
    perform (getMySpending env (userId context) (JsonOps.prop args "days"))
  else if String.eqb toolName "get_sales_dashboard" then
    admin_gate context (perform (getSalesDashboard env))
  else if String.eqb toolName "get_sales_analytics" then
    admin_gate context
      (perform (getSalesAnalytics env (JsonOps.prop args "days")
                                      (JsonOps.prop args "includeChart")))
  else if String.eqb toolName "get_top_products" then
    admin_gate context
      (perform (getTopProducts env (JsonOps.prop args "limit")
                                   (JsonOps.prop args "includeChart")))
  else if String.eqb toolName "get_inventory_status" then
    admin_gate context
      (perform (getInventoryStatus env (JsonOps.prop args "lowStockThreshold")))
  else if String.eqb toolName "get_revenue_by_category" then
    admin_gate context
      (perform (getRevenueByCategory env (JsonOps.prop args "includeChart")))
  else throw (Error ("Unknown tool: " ++ toolName)).

Definition executeTool (toolName : string) (args : Json) (context : ChatContext)
    : M W E ExtendedToolResult :=
  time <- observe (now env) ;;
  let toolCallId := "tool_" ++ JSString.of_N time in
  try_catch
    (result <- executeToolInternal toolName args context ;;
     let chart :=
       if JsonOps.truthy result && JsonOps.typeof_object result
          && JsonOps.has_key result "chart"
       then JsonOps.prop result "chart"
       else JUndefined in
     ret {| result_toolCallId := toolCallId;
            result_content := stringify_pretty env result;
            result_chart := chart |})
    (fun error =>
       ret {| result_toolCallId := toolCallId;
              result_content := stringify_error (thrown_message error);
              result_chart := JUndefined |}).

End Registry.

End Tools.

(* ===================================================================== *)
(** * The orchestrator over the local registry
      ([services/chat/ChatService.ts]) *)
(* ===================================================================== *)

(** What an orchestrator does, in order: a call to the language-model
    provider with the transcript it is handed ([LLMCall]), a chunk yielded
    to the caller ([Yield]), a message pushed on the working transcript
    ([Append]). *)
Inductive Event : Type :=
| LLMCall (transcript : list Message)
| Yield (chunk : StreamChunk)
| Append (message : Message).

Section OrchestratorOps.
Context {W : Type}.

Local Open Scope eff_scope.

(** [yield chunk] *)
Definition yield (chunk : StreamChunk) : M W Event unit := emit (Yield chunk).

(** [messages.push(message)] *)
Definition push (messages : list Message) (message : Message)
    : M W Event (list Message) :=
  emit (Append message) ;; ret (messages ++ [message]).

(** [await llm.chat(messages, tools)] *)
Definition call_chat (llm : LLM.LLMProvider W) (messages : list Message)
    (tools : list Tool) : M W Event Message :=
  emit (LLMCall messages) ;; silent (LLM.chat llm messages (Some tools)).

(** [chunks = []; await llm.chatStream(messages, tools, c => chunks.push(c))] *)
Definition call_chatStream (llm : LLM.LLMProvider W) (messages : list Message)
    (tools : list Tool) : M W Event (list StreamChunk * Message) :=
  emit (LLMCall messages) ;; collecting (LLM.chatStream llm messages (Some tools)).

End OrchestratorOps.

Module ChatService.

Definition MAX_TOOL_ITERATIONS : nat := 5.

(** The variables of the loop of [chat]. *)
Record ChatLoop : Type := mkChatLoop {
  cl_response : Message;
  cl_iterations : nat;
  cl_messages : list Message
}.

(** The variables of the loop of [chatStream]. *)
Record StreamLoop : Type := mkStreamLoop {
  sl_hasToolCalls : bool;
  sl_iterations : nat;
  sl_messages : list Message
}.

Definition is_text (chunk : StreamChunk) : bool :=
  match chunk with text _ => true | _ => false end.

Section Service.
Context {W : Type}.
Variable llm : LLM.LLMProvider W.
Variable env : Tools.Env W.
(** [getSystemPrompt(context)]: a template over the context and today's date. *)
Variable getSystemPrompt : ChatContext -> W -> string.

Local Open Scope eff_scope.

Definition initial_transcript (prompt userMessage : string)
    (conversationHistory : list Message) : list Message :=
  system_message prompt :: conversationHistory ++ [user_message userMessage].

(** The [for (const toolCall of response.toolCalls)] of [chat]. *)
Definition run_tools (context : ChatContext) (calls : list ToolCall)
    (messages : list Message) : M W Event (list Message) :=
  for_of calls
    (fun toolCall messages =>
       result <- Tools.executeTool env (tc_name toolCall) (tc_arguments toolCall) context ;;
       push messages (tool_message (Tools.result_content result) (tc_id toolCall)))
    messages.

Definition chat_cond (st : ChatLoop) : bool :=
  requests_tools (cl_response st) && Nat.ltb (cl_iterations st) MAX_TOOL_ITERATIONS.

Definition chat_body (context : ChatContext) (tools : list Tool) (st : ChatLoop)
    : M W Event (ChatLoop + Empty_set) :=
  let iterations := S (cl_iterations st) in
  messages <- push (cl_messages st) (cl_response st) ;;
  messages <- run_tools context (requested (cl_response st)) messages ;;
  response <- call_chat llm messages tools ;;
  ret (inl {| cl_response := response; cl_iterations := iterations; cl_messages := messages |}).

(** [chat(userMessage, context, conversationHistory)].  The answer is [None]
    when the loop is cut by the fuel, which is the bound of the loop. *)
Definition chat (userMessage : string) (context : ChatContext)
    (conversationHistory : list Message) : M W Event (option Message) :=
  prompt <- observe (getSystemPrompt context) ;;
  let messages := initial_transcript prompt userMessage conversationHistory in
  let tools := Tools.getToolsForRole env (userRole context) in
  response <- call_chat llm messages tools ;;
  r <- while_ MAX_TOOL_ITERATIONS chat_cond (chat_body context tools)
         {| cl_response := response; cl_iterations := 0; cl_messages := messages |} ;;
  match r with
  | Some (inl st) => ret (Some (cl_response st))
  | Some (inr impossible) => match impossible with end
  | None => ret None
  end.

(** The [for (const toolCall of response.toolCalls)] of [chatStream]. *)
Definition stream_tools (context : ChatContext) (calls : list ToolCall)
    (messages : list Message) : M W Event (list Message) :=
  for_of calls
    (fun toolCall messages =>
       yield (tool_call toolCall) ;;
       result <- Tools.executeTool env (tc_name toolCall) (tc_arguments toolCall) context ;;
       (if JsonOps.truthy (Tools.result_chart result)
        then yield (chart (Tools.result_chart result))
        else ret tt) ;;
       push messages (tool_message (Tools.result_content result) (tc_id toolCall)))
    messages.

(** [for (const chunk of chunks) if (chunk.type === 'text') yield chunk] *)
Definition yield_text_chunks (chunks : list StreamChunk) : M W Event unit :=
  for_of chunks (fun chunk _ => if is_text chunk then yield chunk else ret tt) tt.

Definition stream_cond (st : StreamLoop) : bool :=
  sl_hasToolCalls st && Nat.ltb (sl_iterations st) MAX_TOOL_ITERATIONS.

Definition stream_body (context : ChatContext) (tools : list Tool) (st : StreamLoop)
    : M W Event (StreamLoop + Empty_set) :=
  let iterations := S (sl_iterations st) in
  '(chunks, response) <- call_chatStream llm (sl_messages st) tools ;;
  yield_text_chunks chunks ;;
  if requests_tools response then
    messages <- push (sl_messages st) response ;;
    messages <- stream_tools context (requested response) messages ;;
    ret (inl {| sl_hasToolCalls := true; sl_iterations := iterations;
                sl_messages := messages |})
  else
    ret (inl {| sl_hasToolCalls := false; sl_iterations := iterations;
                sl_messages := sl_messages st |}).

(** [chatStream(userMessage, context, conversationHistory)]: the chunks of
    the generator are the [Yield] events.  The answer is [None] when the loop
    is cut by the fuel. *)
Definition chatStream (userMessage : string) (context : ChatContext)
    (conversationHistory : list Message) : M W Event (option unit) :=
  prompt <- observe (getSystemPrompt context) ;;
  let messages := initial_transcript prompt userMessage conversationHistory in
  let tools := Tools.getToolsForRole env (userRole context) in
  r <- while_ MAX_TOOL_ITERATIONS stream_cond (stream_body context tools)
         {| sl_hasToolCalls := true; sl_iterations := 0; sl_messages := messages |} ;;
  match r with
  | Some (inl _) => yield done ;; ret (Some tt)
  | Some (inr impossible) => match impossible with end
  | None => ret None
  end.

End Service.

End ChatService.

(* ===================================================================== *)
(** * The remote tool gateway ([services/mcp/MCPClient.ts]) *)
(* ===================================================================== *)

(** A JavaScript [Map] with string keys: the entries in insertion order. *)
Module JsMap.

Definition t (V : Type) : Type := list (string * V).

Definition empty {V} : t V := [].

Fixpoint get {V} (m : t V) (key : string) : option V :=
  match m with
  | [] => None
  | (k, v) :: rest => if String.eqb k key then Some v else get rest key
  end.

Definition has {V} (m : t V) (key : string) : bool :=
  match get m key with Some _ => true | None => false end.

(** [m.set(key, value)]: an existing key keeps its place. *)
Fixpoint set {V} (m : t V) (key : string) (value : V) : t V :=
  match m with
  | [] => [(key, value)]
  | (k, v) :: rest =>
      if String.eqb k key then (k, value) :: rest
      else (k, v) :: set rest key value
  end.

(** [m.clear()] *)
Definition clear {V} (m : t V) : t V := [].

End JsMap.

Module MCPManager.

Local Open Scope string_scope.

Record MCPServerConfig : Type := mkMCPServerConfig {
  config_name : string;
  config_command : string;
  config_args : list string;
  config_env : option (list (string * string));
  config_adminOnly : option bool
}.

(** A live connection: handles on the protocol client (with its transport)
    and on the spawned process. *)
Record MCPConnection : Type := mkMCPConnection {
  conn_client : N;
  conn_process : N;
  conn_config : MCPServerConfig
}.

(** A tool as a server lists it. *)
Record RemoteTool : Type := mkRemoteTool {
  rt_name : string;
  rt_description : option string;
  rt_inputSchema : Json
}.

Record ContentBlock : Type := mkContentBlock {
  block_type : string;
  block_text : option string
}.

(** The answer of a server to a call; [content] may be missing. *)
Record CallToolResult : Type := mkCallToolResult {
  call_content : option (list ContentBlock);
  call_rest : Json
}.

(** The state of an [MCPManager]. *)
Record Manager : Type := mkManager {
  configs : list MCPServerConfig;
  connections : JsMap.t MCPConnection;
  toolToServer : JsMap.t string
}.

(** The process table, the protocol SDK and the JSON codec. *)
Record Remote (W : Type) : Type := mkRemote {
  spawn : MCPServerConfig -> W -> W * (Thrown + N);
  client_connect : MCPServerConfig -> W -> W * (Thrown + N);
  client_listTools : N -> W -> W * (Thrown + list RemoteTool);
  client_callTool : N -> string -> Json -> W -> W * (Thrown + CallToolResult);
  client_close : N -> W -> W * (Thrown + unit);
  process_kill : N -> W -> W * (Thrown + unit);
  JSON_parse : string -> Thrown + Json;
  JSON_stringify : CallToolResult -> string
}.

Arguments spawn {W} _ _ _.
Arguments client_connect {W} _ _ _.
Arguments client_listTools {W} _ _ _.
Arguments client_callTool {W} _ _ _ _ _.
Arguments client_close {W} _ _ _.
Arguments process_kill {W} _ _ _.
Arguments JSON_parse {W} _ _.
Arguments JSON_stringify {W} _ _.

(** [new MCPManager(configs)] *)
Definition new (cfgs : list MCPServerConfig) : Manager :=
  {| configs := cfgs; connections := JsMap.empty; toolToServer := JsMap.empty |}.

(** [!serverName] for an optional string. *)
Definition falsy (s : option string) : bool :=
  match s with
  | None => true
  | Some EmptyString => true
  | Some _ => false
  end.

Section Gateway.
Context {W E : Type}.
Variable remote : Remote W.

Local Open Scope eff_scope.

(** [connect(config)].  The manager is an object the method mutates: its
    state is threaded next to the outcome, so that what was stored before an
    exception stays stored. *)
Definition connect (config : MCPServerConfig) (mgr : Manager) (w : W)
    : W * Manager * (Thrown + MCPConnection) :=
  match spawn remote config w with
  | (w1, inl e) => (w1, mgr, inl e)
  | (w1, inr proc) =>
      match client_connect remote config w1 with
      | (w2, inl e) => (w2, mgr, inl e)
      | (w2, inr client) =>
          let connection :=
            {| conn_client := client; conn_process := proc; conn_config := config |} in
          let mgr1 :=
            {| configs := configs mgr;
               connections := JsMap.set (connections mgr) (config_name config) connection;
               toolToServer := toolToServer mgr |} in
          match client_listTools remote client w2 with
          | (w3, inl e) => (w3, mgr1, inl e)
          | (w3, inr tools) =>
              let mgr2 :=
                {| configs := configs mgr1;
                   connections := connections mgr1;
                   toolToServer :=
                     fold_left (fun index t => JsMap.set index (rt_name t) (config_name config))
                               tools (toolToServer mgr1) |} in
              (w3, mgr2, inr connection)
          end
      end
  end.

(** [getAllTools(isAdmin)] *)
Definition getAllTools (mgr : Manager) (isAdmin : bool) : M W E (list Tool) :=
  for_of (connections mgr)
    (fun entry allTools =>
       let connection := snd entry in
       if match config_adminOnly (conn_config connection) with
          | Some b => b
          | None => false
          end && negb isAdmin
       then ret allTools
       else
         tools <- perform (client_listTools remote (conn_client connection)) ;;
         ret (allTools ++
              map (fun t =>
                     {| tool_name := rt_name t;
                        tool_description :=
                          match rt_description t with
                          | Some d => d
                          | None => EmptyString
                          end;
                        tool_parameters := rt_inputSchema t |})
                  tools)%list)
    [].

(** The first block [c] with [c.type === 'text'], when it has a [text]. *)
Definition first_text (blocks : list ContentBlock) : option string :=
  match find (fun c => String.eqb (block_type c) "text") blocks with
  | Some c => block_text c
  | None => None
  end.

(** [callTool(toolName, args)] *)
Definition callTool (mgr : Manager) (toolName : string) (args : Json) : M W E string :=
  let serverName := JsMap.get (toolToServer mgr) toolName in
  if falsy serverName then throw (Error ("Unknown tool: " ++ toolName))
  else
    let serverName := match serverName with Some s => s | None => EmptyString end in
    match JsMap.get (connections mgr) serverName with
    | None => throw (Error ("Server not connected: " ++ serverName))
    | Some connection =>
        result <- perform (client_callTool remote (conn_client connection) toolName args) ;;
        match
          match call_content result with
          | Some blocks => first_text blocks
          | None => None
          end
        with
        | Some t => ret t
        | None => ret (JSON_stringify remote result)
        end
    end.

(** [executeToolCall(toolCall)] *)
Definition executeToolCall (mgr : Manager) (toolCall : ToolCall) : M W E string :=
  try_catch
    (args <-
       match tc_arguments toolCall with
       | JString s =>
           match JSON_parse remote s with
           | inl e => throw e
           | inr v => ret v
           end
       | v => ret v
       end ;;
     callTool mgr (tc_name toolCall) args)
    (fun error =>
       let message :=
         if thrown_isError error then thrown_message error else Some "Unknown error" in
       ret (Tools.stringify_error message)).

Definition hasTool (mgr : Manager) (toolName : string) : bool :=
  JsMap.has (toolToServer mgr) toolName.

Definition getServerForTool (mgr : Manager) (toolName : string) : option string :=
  JsMap.get (toolToServer mgr) toolName.

(** [disconnectAll()]: the state of the manager afterwards. *)
Definition disconnectAll (mgr : Manager) : M W E Manager :=
  for_of (connections mgr)
    (fun entry (_ : unit) =>
       let connection := snd entry in
       try_catch
         (perform (client_close remote (conn_client connection)) ;;
          perform (process_kill remote (conn_process connection)))
         (fun _ => ret tt))
    tt ;;
  ret {| configs := configs mgr;
         connections := JsMap.clear (connections mgr);
         toolToServer := JsMap.clear (toolToServer mgr) |}.

End Gateway.

End MCPManager.

(* ===================================================================== *)
(** * The orchestrator over the gateway
      ([services/mcp/MCPChatService.ts]) *)
(* ===================================================================== *)

Module MCPChatService.

Local Open Scope string_scope.

Definition MAX_TOOL_ITERATIONS : nat := 5.

Definition apology : Message :=
  {| role := assistant;
     content := "I apologize, but I encountered an issue processing your request. Please try again with a simpler question.";
     toolCallId := None;
     toolCalls := None |}.

(** The variables of both loops. *)
Record Loop : Type := mkLoop {
  iterations : nat;
  currentMessages : list Message
}.

Section Service.
Context {W : Type}.
Variable llm : LLM.LLMProvider W.
Variable remote : MCPManager.Remote W.
(** The connected manager [ensureMCPConnected()] answers. *)
Variable mcp : MCPManager.Manager.
Variable getSystemPrompt : ChatContext -> W -> string.

Local Open Scope eff_scope.

Definition initial_transcript (prompt userMessage : string)
    (conversationHistory : list Message) : list Message :=
  system_message prompt :: conversationHistory ++ [user_message userMessage].

Definition cond (st : Loop) : bool := Nat.ltb (iterations st) MAX_TOOL_ITERATIONS.

(** The [for (const toolCall of response.toolCalls)] of [chat]. *)
Definition run_tools (calls : list ToolCall) (messages : list Message)
    : M W Event (list Message) :=
  for_of calls
    (fun toolCall messages =>
       result <- MCPManager.executeToolCall remote mcp toolCall ;;
       push messages (tool_message result (tc_id toolCall)))
    messages.

Definition chat_body (tools : list Tool) (st : Loop) : M W Event (Loop + Message) :=
  let iterations := S (iterations st) in
  response <- call_chat llm (currentMessages st) tools ;;
  if negb (requests_tools response) then ret (inr response)
  else
    messages <- push (currentMessages st) response ;;
    messages <- run_tools (requested response) messages ;;
    ret (inl {| iterations := iterations; currentMessages := messages |}).

(** [chat(userMessage, context, conversationHistory)] *)
Definition chat (userMessage : string) (context : ChatContext)
    (conversationHistory : list Message) : M W Event (option Message) :=
  tools <- MCPManager.getAllTools remote mcp (is_admin (userRole context)) ;;
  prompt <- observe (getSystemPrompt context) ;;
  let messages := initial_transcript prompt userMessage conversationHistory in
  r <- while_ MAX_TOOL_ITERATIONS cond (chat_body tools)
         {| iterations := 0; currentMessages := messages |} ;;
  match r with
  | Some (inr response) => ret (Some response)
  | Some (inl _) => ret (Some apology)
  | None => ret None
  end.

(** The [for (const toolCall of response.toolCalls)] of [chatStream]. *)
Definition stream_tools (calls : list ToolCall) (messages : list Message)
    : M W Event (list Message) :=
  for_of calls
    (fun toolCall messages =>
       result <- MCPManager.executeToolCall remote mcp toolCall ;;
       yield (tool_result toolCall result) ;;
       push messages (tool_message result (tc_id toolCall)))
    messages.

(** [for (const chunk of chunks) yield chunk] *)
Definition yield_chunks (chunks : list StreamChunk) : M W Event unit :=
  for_of chunks (fun chunk _ => yield chunk) tt.

Definition stream_body (tools : list Tool) (st : Loop) : M W Event (Loop + unit) :=
  let iterations := S (iterations st) in
  '(chunks, response) <- call_chatStream llm (currentMessages st) tools ;;
  yield_chunks chunks ;;
  if negb (requests_tools response) then
    yield done ;; ret (inr tt)
  else
    messages <- push (currentMessages st) response ;;
    messages <- stream_tools (requested response) messages ;;
    ret (inl {| iterations := iterations; currentMessages := messages |}).

(** [chatStream(userMessage, context, conversationHistory)] *)
Definition chatStream (userMessage : string) (context : ChatContext)
    (conversationHistory : list Message) : M W Event (option unit) :=
  tools <- MCPManager.getAllTools remote mcp (is_admin (userRole context)) ;;
  prompt <- observe (getSystemPrompt context) ;;
  let messages := initial_transcript prompt userMessage conversationHistory in
  r <- while_ MAX_TOOL_ITERATIONS cond (stream_body tools)
         {| iterations := 0; currentMessages := messages |} ;;
  match r with
  | Some (inr _) => ret (Some tt)
  | Some (inl _) => yield done ;; ret (Some tt)
  | None => ret None
  end.

End Service.

End MCPChatService.

(* ===================================================================== *)
(** * The retrieval engine ([services/rag]) *)
(* ===================================================================== *)

(** The loop shared by both cosine similarities:
    [for (let i = 0; i < a.length; i++) { dotProduct += a[i] * b[i]; ... }].
    Reading [b[i]] past the end of [b] gives [undefined], which is NaN in
    arithmetic. *)
Module Cosine.

Record Sums : Type := mkSums {
  dotProduct : num;
  normA : num;
  normB : num
}.

Definition start : Sums :=
  {| dotProduct := JSNum.zero; normA := JSNum.zero; normB := JSNum.zero |}.

Fixpoint accumulate (a b : list num) (acc : Sums) : Sums :=
  match a with
  | [] => acc
  | x :: a' =>
      let y := match b with y :: _ => y | [] => JSNum.NaN end in
      accumulate a' (tl b)
        {| dotProduct := JSNum.add (dotProduct acc) (JSNum.mul x y);
           normA := JSNum.add (normA acc) (JSNum.mul x x);
           normB := JSNum.add (normB acc) (JSNum.mul y y) |}
  end.

(** [Math.sqrt(normA) * Math.sqrt(normB)] *)
Definition denominator (s : Sums) : num :=
  JSNum.mul (JSNum.sqrt (normA s)) (JSNum.sqrt (normB s)).

End Cosine.

Module VectorStore.

Record VectorDocument : Type := mkVectorDocument {
  doc_id : string;
  doc_content : string;
  doc_embedding : list num;
  doc_metadata : Json;
  doc_createdAt : string
}.

Record SearchResult : Type := mkSearchResult {
  id : string;
  content : string;
  metadata : Json;
  score : num
}.

(** A row of the table, with its [embedding] and [metadata] columns parsed. *)
Record Row : Type := mkRow {
  row_id : string;
  row_content : string;
  row_embedding : list num;
  row_metadata : Json
}.

(** The table behind the store: the [SELECT] of [search], with the
    metadata filter it is given. *)
Record Table (W : Type) : Type := mkTable {
  select_rows : option (list (string * Json)) -> W -> W * (Thrown + list Row);
  select_by_id : string -> W -> W * (Thrown + option VectorDocument)
}.

Arguments select_rows {W} _ _ _.
Arguments select_by_id {W} _ _ _.

(** [cosineSimilarity(a, b)] *)
Definition cosineSimilarity (a b : list num) : num :=
  let (a, b) :=
    if negb (Nat.eqb (List.length a) (List.length b)) then
      let minLen := Nat.min (List.length a) (List.length b) in
      (firstn minLen a, firstn minLen b)
    else (a, b) in
  let sums := Cosine.accumulate a b Cosine.start in
  let denominator := Cosine.denominator sums in
  if JSNum.strict_eq denominator JSNum.zero then JSNum.zero
  else JSNum.div (Cosine.dotProduct sums) denominator.

(** The comparator [(a, b) => b.score - a.score]. *)
Definition by_score_desc (a b : SearchResult) : num :=
  JSNum.sub (score b) (score a).

(** The place of [x] in a list sorted by the comparator, for an [x] that
    stood before every element of the list: after the elements the
    comparator orders strictly before it. *)
Fixpoint insert_by_score (x : SearchResult) (sorted : list SearchResult)
    : list SearchResult :=
  match sorted with
  | [] => [x]
  | y :: rest =>
      if JSNum.ltb (by_score_desc y x) JSNum.zero
      then y :: insert_by_score x rest
      else x :: sorted
  end.

(** [results.sort((a, b) => b.score - a.score)]: a stable sort.  (With a NaN
    score the comparator is inconsistent and the order is up to the engine.) *)
Definition sort_by_score (results : list SearchResult) : list SearchResult :=
  fold_right insert_by_score [] results.

Section Store.
Context {W E : Type}.
Variable table : Table W.

Local Open Scope eff_scope.

(** [search(queryEmbedding, topK, filter)] *)
Definition search (queryEmbedding : list num) (topK : nat)
    (filter : option (list (string * Json))) : M W E (list SearchResult) :=
  rows <- perform (select_rows table
                     match filter with
                     | Some (f :: fs) => Some (f :: fs)
                     | _ => None
                     end) ;;
  let results :=
    map (fun row =>
           {| id := row_id row;
              content := row_content row;
              metadata := row_metadata row;
              score := cosineSimilarity queryEmbedding (row_embedding row) |})
        rows in
  ret (firstn topK (sort_by_score results)).

(** [get(id)] *)
Definition get (key : string) : M W E (option VectorDocument) :=
  perform (select_by_id table key).

End Store.

End VectorStore.

Module EmbeddingService.

Local Open Scope string_scope.

Inductive TaskType : Type :=
| RETRIEVAL_DOCUMENT
| RETRIEVAL_QUERY
| SEMANTIC_SIMILARITY
| CLASSIFICATION
| CLUSTERING.

(** [normalize(embedding)] *)
Definition normalize (embedding : list num) : list num :=
  let norm :=
    JSNum.sqrt (fold_left (fun sum val => JSNum.add sum (JSNum.mul val val))
                          embedding JSNum.zero) in
  map (fun val => JSNum.div val norm) embedding.

(** [cosineSimilarity(a, b)]: the number returned, or the error thrown. *)
Definition cosineSimilarity (a b : list num) : Thrown + num :=
  if negb (Nat.eqb (List.length a) (List.length b)) then
    inl (Error "Embeddings must have the same dimensions")
  else
    let sums := Cosine.accumulate a b Cosine.start in
    inr (JSNum.div (Cosine.dotProduct sums) (Cosine.denominator sums)).

Section Service.
Context {W E : Type}.
(** [model.embedContent({ content, taskType })] of the embedding backend. *)
Variable embedContent : string -> TaskType -> W -> W * (Thrown + list num).
Variable dimensions : nat.

Local Open Scope eff_scope.

(** [embed(text, taskType)] *)
Definition embed (t : string) (taskType : TaskType) : M W E (list num) :=
  values <- perform (embedContent t taskType) ;;
  if Nat.ltb dimensions (List.length values)
  then ret (normalize (firstn dimensions values))
  else ret values.

Definition embedQuery (query : string) : M W E (list num) :=
  embed query RETRIEVAL_QUERY.

Definition embedDocument (document : string) : M W E (list num) :=
  embed document RETRIEVAL_DOCUMENT.

End Service.

End EmbeddingService.

Module RAGQueryEngine.

Local Open Scope string_scope.

Record RAGResult : Type := mkRAGResult {
  query : string;
  results : list VectorStore.SearchResult;
  context : string
}.

(** The default of the constructor argument [minScore]: [0.5]. *)
Definition default_minScore : num := JSNum.of_ratio 1 2.

Definition quoted (s : string) : string :=
  String JSString.quote_char (s ++ String JSString.quote_char EmptyString).

Section Engine.
Context {W E : Type}.
Variable embedContent : string -> EmbeddingService.TaskType -> W -> W * (Thrown + list num).
Variable dimensions : nat.
Variable table : VectorStore.Table W.
Variable minScore : num.
(** The three lines [buildContext] writes for the result at index [i]; they
    render numbers with [toFixed], which is not modelled. *)
Variable product_lines : nat -> VectorStore.SearchResult -> string.

Local Open Scope eff_scope.

(** [results.map((r, i) => ...)], from the index [i] on. *)
Fixpoint map_indexed (i : nat) (rs : list VectorStore.SearchResult) : list string :=
  match rs with
  | [] => []
  | r :: rest => product_lines i r :: map_indexed (S i) rest
  end.

(** [buildContext(query, results)] *)
Definition buildContext (q : string) (rs : list VectorStore.SearchResult) : string :=
  match rs with
  | [] => "No relevant products found for: " ++ quoted q
  | _ =>
      let productList :=
        JSString.join (JSString.newline ++ JSString.newline) (map_indexed 0 rs) in
      "Found " ++ JSString.of_nat (List.length rs) ++ " relevant products for "
        ++ quoted q ++ ":" ++ JSString.newline ++ JSString.newline ++ productList
  end.

(** [search(query, topK, filter)] *)
Definition search (q : string) (topK : nat) (filter : option (list (string * Json)))
    : M W E RAGResult :=
  queryEmbedding <- EmbeddingService.embedQuery embedContent dimensions q ;;
  found <- VectorStore.search table queryEmbedding topK filter ;;
  let filteredResults :=
    List.filter (fun r => JSNum.geb (VectorStore.score r) minScore) found in
  ret {| query := q;
         results := filteredResults;
         context := buildContext q filteredResults |}.

Definition searchByCategory (q category : string) (topK : nat) : M W E RAGResult :=
  search q topK (Some [("category", JString category)]).

Definition searchInStock (q : string) (topK : nat) : M W E RAGResult :=
  search q topK (Some [("inStock", JBool true)]).


End Engine.

End RAGQueryEngine.

(* ===================================================================== *)
(** * The streaming routes ([routes/chat.ts]) *)
(* ===================================================================== *)

(** What [POST /chat/message] and [POST /chat/mcp/message] write on the
    response while they consume a generator: one server-sent event per chunk
    they handle, and the [error] event of their [catch] block when the
    generator throws.  The conversation store they update on [done] is left
    out. *)
Module ChatRoute.

(** [sendSSE(res, event, data)], by event type. *)
Inductive ServerEvent : Type :=
| sse_text (content : string)
| sse_tool (name : string) (args : Json)
| sse_tool_result (name : string) (result : string)
| sse_chart (descriptor : Json)
| sse_done
| sse_error (message : option string).


(** The [switch (chunk.type)] of [POST /chat/mcp/message]. *)
Definition mcp_message_event (chunk : StreamChunk) : list ServerEvent :=
  match chunk with
  | text c => [sse_text c]
  | tool_call tc => [sse_tool (tc_name tc) (tc_arguments tc)]
  | tool_result tc r => [sse_tool_result (tc_name tc) r]
  | done => [sse_done]
  | error m => [sse_error (Some m)]
  | chart _ => []
  end.

(** [try { for await (const chunk of generator) ... } catch (error) { sendSSE(res, 'error', { error: error.message }) }] *)
Definition respond {W A} (handle : StreamChunk -> list ServerEvent)
    (run : list Event * W * Outcome A) : list ServerEvent :=
  flat_map handle
    (flat_map (fun e => match e with Yield c => [c] | _ => [] end) (events run))
  ++ match outcome run with
     | Threw e => [sse_error (thrown_message e)]
     | Returned _ => []
     end.


End ChatRoute.

(* ===================================================================== *)
(** * Concrete collaborators, used to run the model *)
(* ===================================================================== *)

(** Scripted collaborators over the world [nat], which counts the requests
    the model backend has served. *)
Module Scenario.

Local Open Scope string_scope.

Definition customer_context : ChatContext :=
  {| userId := 7; userRole := customer; userName := "User" |}.

Definition admin_context : ChatContext :=
  {| userId := 1; userRole := admin; userName := "User" |}.

Definition prompt (c : ChatContext) (w : nat) : string := "You are SmartShop AI".

Definition clock : N := 1700000000000%N.

(** ** Providers *)

Definition cart_call : ToolCall :=
  {| tc_id := "call_1"; tc_name := "get_my_cart"; tc_arguments := JObject [] |}.

Definition asks_cart : Message :=
  {| role := assistant; content := EmptyString; toolCallId := None;
     toolCalls := Some [cart_call] |}.

Definition says (c : string) : Message :=
  {| role := assistant; content := c; toolCallId := None; toolCalls := None |}.

(** A model that requests the cart in every response, without any text. *)
Definition eager : LLM.LLMProvider nat :=
  {| LLM.chat := fun _ _ w => ([], S w, Returned asks_cart);
     LLM.chatStream := fun _ _ w => ([tool_call cart_call; done], S w, Returned asks_cart) |}.

(** A model that answers at once. *)
Definition plain : LLM.LLMProvider nat :=
  {| LLM.chat := fun _ _ w => ([], S w, Returned (says "Hello"));
     LLM.chatStream := fun _ _ w => ([text "Hello"; done], S w, Returned (says "Hello")) |}.

(** A backend that cannot be reached. *)
Definition unreachable : LLM.LLMProvider nat :=
  {| LLM.chat := fun _ _ w => ([], S w, Threw (Error "fetch failed"));
     LLM.chatStream := fun _ _ w => ([], S w, Threw (Error "fetch failed")) |}.

(** A Gemini backend that answers its requests from a script. *)
Definition scripted (script : list (Thrown + GeminiProvider.RawStream))
    : GeminiProvider.Backend nat :=
  {| GeminiProvider.sleep := fun _ w => w;
     GeminiProvider.now := fun _ => clock;
     GeminiProvider.sendMessage := fun _ w => (S w, inl (Error "not scripted"));
     GeminiProvider.sendMessageStream :=
       fun _ w => (S w, nth w script (inl (Error "script exhausted"))) |}.

Definition text_chunk (t : string) : GeminiProvider.RawChunk :=
  {| GeminiProvider.chunk_text := t;
     GeminiProvider.chunk_functionCalls := None;
     GeminiProvider.chunk_time := clock |}.

Definition call_chunk (name : string) (time : N) : GeminiProvider.RawChunk :=
  {| GeminiProvider.chunk_text := EmptyString;
     GeminiProvider.chunk_functionCalls :=
       Some [ {| GeminiProvider.fc_name := name; GeminiProvider.fc_args := JObject [] |} ];
     GeminiProvider.chunk_time := time |}.

(** Gemini answers "Hello" in one chunk. *)
Definition gemini_hello : LLM.LLMProvider nat :=
  GeminiProvider.provider
    (scripted [ inr {| GeminiProvider.stream_chunks := [text_chunk "Hello"];
                       GeminiProvider.stream_failure := None |} ])
    "gemini-2.5-flash".

(** The first stream announces a call to [search_products] and then breaks
    with a rate-limit error; the stream of the retry, a second and a half
    later, requests [get_my_cart] instead; the stream of the next provider
    call answers in text. *)
Definition gemini_interrupted : LLM.LLMProvider nat :=
  GeminiProvider.provider
    (scripted [ inr {| GeminiProvider.stream_chunks := [call_chunk "search_products" clock];
                       GeminiProvider.stream_failure := Some (Error "429 Too Many Requests") |};
                inr {| GeminiProvider.stream_chunks := [call_chunk "get_my_cart" (clock + 1500)];
                       GeminiProvider.stream_failure := None |};
                inr {| GeminiProvider.stream_chunks := [text_chunk "Your cart is empty."];
                       GeminiProvider.stream_failure := None |} ])
    "gemini-2.5-flash".

(** The call the broken stream announced, and the call the retry returned. *)
Definition abandoned_call : ToolCall :=
  {| tc_id := "gemini_1700000000000_0"; tc_name := "search_products";
     tc_arguments := JObject [] |}.

Definition returned_call : ToolCall :=
  {| tc_id := "gemini_1700000001500_0"; tc_name := "get_my_cart";
     tc_arguments := JObject [] |}.

(** ** The local registry *)

Definition env : Tools.Env nat :=
  {| Tools.describe := fun _ => (EmptyString, JObject []);
     Tools.semanticSearchProducts := fun _ w => (w, inr (JObject []));
     Tools.searchProducts := fun _ w => (w, inr (JObject []));
     Tools.getProductDetails := fun _ w => (w, inr (JObject []));
     Tools.getMyOrders := fun _ _ w => (w, inr (JObject []));
     Tools.getOrderDetails := fun _ _ w => (w, inr (JObject []));
     Tools.getMyCart := fun _ w => (w, inr (JObject []));
     Tools.getMySpending := fun _ _ w => (w, inr (JObject []));
     Tools.getSalesDashboard := fun w => (w, inr (JObject []));
     Tools.getSalesAnalytics := fun _ _ w => (w, inr (JObject []));
     Tools.getTopProducts := fun _ _ w => (w, inr (JObject []));
     Tools.getInventoryStatus := fun _ w => (w, inr (JObject []));
     Tools.getRevenueByCategory := fun _ w => (w, inr (JObject []));
     Tools.now := fun _ => clock;
     Tools.stringify_pretty := fun _ => "{}" |}.

(** ** The gateway *)

Definition products_config : MCPManager.MCPServerConfig :=
  {| MCPManager.config_name := "products";
     MCPManager.config_command := "bun";
     MCPManager.config_args := ["./mcp-servers/products/src/index.ts"];
     MCPManager.config_env := None;
     MCPManager.config_adminOnly := Some false |}.

Definition remote : MCPManager.Remote nat :=
  {| MCPManager.spawn := fun _ w => (w, inr 1%N);
     MCPManager.client_connect := fun _ w => (w, inr 1%N);
     MCPManager.client_listTools :=
       fun _ w => (w, inr [ {| MCPManager.rt_name := "search_products";
                               MCPManager.rt_description := None;
                               MCPManager.rt_inputSchema := JObject [] |};
                            {| MCPManager.rt_name := "get_my_cart";
                               MCPManager.rt_description := None;
                               MCPManager.rt_inputSchema := JObject [] |} ]);
     MCPManager.client_callTool :=
       fun _ _ _ w =>
         (w, inr {| MCPManager.call_content :=
                      Some [ {| MCPManager.block_type := "text";
                                MCPManager.block_text := Some "[]" |} ];
                    MCPManager.call_rest := JNull |});
     MCPManager.client_close := fun _ w => (w, inr tt);
     MCPManager.process_kill := fun _ w => (w, inr tt);
     MCPManager.JSON_parse := fun _ => inl (Error "Unexpected token");
     MCPManager.JSON_stringify := fun _ => "{}" |}.

(** The manager after [connect(products_config)]. *)
Definition connected : MCPManager.Manager :=
  snd (fst (MCPManager.connect remote products_config
              (MCPManager.new [products_config]) 0)).

(** The manager after [disconnectAll()]. *)
Definition disconnected : MCPManager.Manager :=
  match MCPManager.disconnectAll (E := Empty_set) remote connected 0 with
  | (_, _, Returned mgr) => mgr
  | (_, _, Threw _) => connected
  end.

(** ** The retrieval engine *)

Definition weak_match : VectorStore.Row :=
  {| VectorStore.row_id := "product-1";
     VectorStore.row_content := "Name: Desk lamp";
     VectorStore.row_embedding := [JSNum.of_Z 1; JSNum.of_Z 3];
     VectorStore.row_metadata := JObject [] |}.

Definition table : VectorStore.Table nat :=
  {| VectorStore.select_rows := fun _ w => (w, inr [weak_match]);
     VectorStore.select_by_id := fun _ w => (w, inr None) |}.

(** The embedding backend answers every text with the vector [(1, 0)]. *)
Definition embedContent (t : string) (k : EmbeddingService.TaskType) (w : nat)
    : nat * (Thrown + list num) :=
  (w, inr [JSNum.of_Z 1; JSNum.of_Z 0]).

Definition product_lines (i : nat) (r : VectorStore.SearchResult) : string :=
  JSString.of_nat (i + 1) ++ ". " ++ VectorStore.id r.

End Scenario.

(* ===================================================================== *)
(** * Observations on event logs *)
(* ===================================================================== *)

(** The chunks a generator yields, in order. *)
Definition yielded (evs : list Event) : list StreamChunk :=
  flat_map (fun e => match e with Yield c => [c] | _ => [] end) evs.

Definition is_LLMCall (e : Event) : bool :=
  match e with LLMCall _ => true | _ => false end.

(** The number of calls to the language-model provider. *)
Definition llm_calls (evs : list Event) : nat :=
  List.length (List.filter is_LLMCall evs).

(** [done] and [error] end a stream. *)
Definition is_terminal (c : StreamChunk) : bool :=
  match c with done | error _ => true | _ => false end.

(** An event that is not the yield of a terminal chunk. *)
Definition not_terminal_yield (e : Event) : Prop :=
  match e with Yield c => is_terminal c = false | _ => True end.

(** An event that is no call to the provider. *)
Definition not_a_call (e : Event) : Prop := is_LLMCall e = false.

(** Every event a computation logs satisfies [P], in every world. *)
Definition all_events {W E A} (P : E -> Prop) (m : M W E A) : Prop :=
  forall w, Forall P (events (m w)).

(** A computation that logs nothing. *)
Definition quiet {W E A} (m : M W E A) : Prop := forall w, events (m w) = [].

(** A computation that never throws. *)
Definition never_throws {W E A} (m : M W E A) : Prop :=
  forall w, exists a, outcome (m w) = Returned a.

(** A computation that logs at most [n] calls to the provider. *)
Definition calls_at_most {W A} (n : nat) (m : M W Event A) : Prop :=
  forall w, llm_calls (events (m w)) <= n.

(** Whatever a computation returns satisfies [Q]. *)
Definition returns {W E A} (Q : A -> Prop) (m : M W E A) : Prop :=
  forall w a, outcome (m w) = Returned a -> Q a.

(** A chunk that does not end a stream. *)
Definition open_chunk (c : StreamChunk) : Prop := is_terminal c = false.

(** A chunk sequence with exactly one terminal chunk, in last position. *)
Definition ends_with_single_terminal (cs : list StreamChunk) : Prop :=
  exists body t, cs = body ++ [t] /\ is_terminal t = true /\ Forall open_chunk body.

(** The pattern of the retry policy matches at no position of [pre] in the
    message [pre ++ rest]. *)
Fixpoint no_match_before (pre rest : string) : bool :=
  match pre with
  | EmptyString => true
  | String c pre' =>
      match GeminiProvider.match_here (String c pre' ++ rest) with
      | Some _ => false
      | None => no_match_before pre' rest
      end
  end.

(** The leftmost match of the pattern in [message] starts with the text
    [hint]. *)
Definition first_retry_hint (message hint : string) : Prop :=
  exists pre post,
    message = (pre ++ hint ++ post)%string
    /\ no_match_before pre (hint ++ post) = true.

(** The message of an error does not match the pattern of the retry policy. *)
Definition no_retry_hint (e : Thrown) : Prop :=
  match thrown_message e with
  | Some message => GeminiProvider.retry_match message = None
  | None => True
  end.

(** A call that failed with the condition "server not connected". *)
Definition server_not_connected (o : Outcome string) : Prop :=
  exists serverName, o = Threw (Error ("Server not connected: " ++ serverName)).

(** A vector whose components are all zero: a vector of L2 norm zero. *)
Definition zero_vector (v : list num) : Prop :=
  Forall (fun x => JSNum.strict_eq x JSNum.zero = true) v.

(** The events by which [ChatService.chatStream] announces and answers the
    call [tc]: the [tool_call] chunk, the [chart] chunk if there is one, and
    the tool message pushed on the transcript. *)
Definition answers (tc : ToolCall) (block : list Event) : Prop :=
  exists c,
    block = [Yield (tool_call tc); Append (tool_message c (tc_id tc))]
    \/ exists d,
         block = [Yield (tool_call tc); Yield (chart d);
                  Append (tool_message c (tc_id tc))].

(** The events by which [MCPChatService.chatStream] answers the call [tc]:
    the [tool_result] chunk and the tool message pushed on the transcript. *)
Definition mcp_answers (tc : ToolCall) (block : list Event) : Prop :=
  exists c, block = [Yield (tool_result tc c); Append (tool_message c (tc_id tc))].

(** An event that is no [tool_call] chunk. *)
Definition plain_event (e : Event) : Prop :=
  match e with Yield (tool_call _) => False | _ => True end.

(** A single event that is no [tool_call] chunk, or the block that announces
    and answers one call. *)
Definition segment_ok (seg : list Event) : Prop :=
  (exists e, seg = [e] /\ plain_event e) \/ (exists tc, answers tc seg).

(** A log in which every [tool_call] chunk is followed at once, or right
    after its chart, by the tool message that carries the id of the call:
    no provider call and no other [tool_call] chunk comes in between. *)
Definition well_answered (tr : list Event) : Prop :=
  exists segs, tr = List.concat segs /\ Forall segment_ok segs.

(** The log of a computation satisfies [Q], in every world. *)
Definition logs {W E A} (Q : list E -> Prop) (m : M W E A) : Prop :=
  forall w, Q (events (m w)).

(** A log without the transcripts its provider calls were handed. *)
Definition forget_transcripts (evs : list Event) : list Event :=
  map (fun e => match e with LLMCall _ => LLMCall [] | _ => e end) evs.

(** The tool messages a log pushes on the transcript. *)
Definition tool_messages (evs : list Event) : list Message :=
  flat_map (fun e => match e with
                     | Append m => if Role_eqb (role m) tool then [m] else []
                     | _ => []
                     end) evs.

(* ===================================================================== *)
(** * Further observations and collaborators *)
(* ===================================================================== *)

(** The same context with another role. *)
Definition with_role (r : UserRole) (context : ChatContext) : ChatContext :=
  {| userId := userId context; userRole := r; userName := userName context |}.

(** Whether a connection belongs to a server marked [adminOnly]. *)
Definition admin_only_connection (entry : string * MCPManager.MCPConnection) : bool :=
  match MCPManager.config_adminOnly (MCPManager.conn_config (snd entry)) with
  | Some b => b
  | None => false
  end.

(** A manager from which the connections to admin-only servers are gone. *)
Definition without_admin_servers (mgr : MCPManager.Manager) : MCPManager.Manager :=
  {| MCPManager.configs := MCPManager.configs mgr;
     MCPManager.connections :=
       List.filter (fun entry => negb (admin_only_connection entry))
                   (MCPManager.connections mgr);
     MCPManager.toolToServer := MCPManager.toolToServer mgr |}.

(** Calls whose ids are those of the Gemini adapter for the indices
    [base], [base + 1], ... in order. *)
Definition numbered_from (base : nat) (calls : list ToolCall) : Prop :=
  Forall2 (fun i tc => exists t, tc_id tc = GeminiProvider.gemini_id t i)
          (seq base (List.length calls)) calls.


Module Fixtures.

Local Open Scope string_scope.

(** An operation that fails with a rate-limit error on every attempt; the
    world counts the attempts. *)
Definition rate_limit_error : Thrown := Error "429 Too Many Requests".

Definition throttled : M nat Empty_set unit :=
  perform (fun w => (S w, inl rate_limit_error)).

(** An operation that fails with an error the retry policy does not know. *)
Definition broken : M nat Empty_set unit :=
  perform (fun w => (S w, inl (Error "API key not valid"))).

(** A Gemini backend whose answer requests two function calls. *)
Definition two_calls : GeminiProvider.Backend nat :=
  {| GeminiProvider.sleep := fun _ w => w;
     GeminiProvider.now := fun _ => Scenario.clock;
     GeminiProvider.sendMessage :=
       fun _ w =>
         (S w,
          inr {| GeminiProvider.response_text := EmptyString;
                 GeminiProvider.response_functionCalls :=
                   Some [ {| GeminiProvider.fc_name := "get_my_cart";
                             GeminiProvider.fc_args := JObject [] |};
                          {| GeminiProvider.fc_name := "get_my_orders";
                             GeminiProvider.fc_args := JObject [] |} ] |});
     GeminiProvider.sendMessageStream := fun _ w => (S w, inl (Error "not scripted")) |}.

Definition greeting : list Message := [user_message "hi"].

(** A manager connected to one admin-only server. *)
Definition analytics_config : MCPManager.MCPServerConfig :=
  {| MCPManager.config_name := "analytics";
     MCPManager.config_command := "bun";
     MCPManager.config_args := ["./mcp-servers/analytics/src/index.ts"];
     MCPManager.config_env := None;
     MCPManager.config_adminOnly := Some true |}.

(** A call to a tool that no server lists. *)
Definition stray_call : ToolCall :=
  {| tc_id := "call_9"; tc_name := "drop_database"; tc_arguments := JObject [] |}.




End Fixtures.

(* ===================================================================== *)
(** * Facts about the effect monad *)
(* ===================================================================== *)

Section MonadFacts.
Context {W E : Type}.

Lemma bind_returned {A B} (m : M W E A) (k : A -> M W E B) w ev w' a :
  m w = (ev, w', Returned a) ->
  bind m k w = (ev ++ events (k a w'), world (k a w'), outcome (k a w')).
Proof.
  intros H. unfold bind. rewrite H.
  destruct (k a w') as [[ev' w''] o]. reflexivity.
Qed.

Lemma bind_threw {A B} (m : M W E A) (k : A -> M W E B) w ev w' e :
  m w = (ev, w', Threw e) -> bind m k w = (ev, w', Threw e).
Proof. intros H. unfold bind. now rewrite H. Qed.

Lemma all_ret {A} P (a : A) : all_events P (ret (W := W) (E := E) a).
Proof. intros w. constructor. Qed.

Lemma all_throw {A} P e : all_events P (throw (W := W) (E := E) (A := A) e).
Proof. intros w. constructor. Qed.

Lemma all_emit (P : E -> Prop) e : P e -> all_events P (emit (W := W) e).
Proof. intros H w. cbn. auto. Qed.

Lemma all_perform {A} P (f : W -> W * (Thrown + A)) :
  all_events P (perform (E := E) f).
Proof.
  intros w. unfold perform. destruct (f w) as [w' [e | a]]; constructor.
Qed.

Lemma all_observe {A} P (f : W -> A) : all_events P (observe (E := E) f).
Proof. intros w. constructor. Qed.

Lemma all_bind {A B} P (m : M W E A) (k : A -> M W E B) :
  all_events P m -> (forall a, all_events P (k a)) -> all_events P (bind m k).
Proof.
  intros Hm Hk w. specialize (Hm w).
  destruct (m w) as [[ev w'] [a | e]] eqn:Hrun.
  - rewrite (bind_returned _ _ _ _ _ _ Hrun). cbn.
    apply Forall_app. split; [exact Hm | apply Hk].
  - rewrite (bind_threw _ _ _ _ _ _ Hrun). exact Hm.
Qed.

Lemma all_try_catch {A} P (m : M W E A) (h : Thrown -> M W E A) :
  all_events P m -> (forall e, all_events P (h e)) -> all_events P (try_catch m h).
Proof.
  intros Hm Hh w. specialize (Hm w). unfold try_catch.
  destruct (m w) as [[ev w'] [a | e]]; [exact Hm |].
  specialize (Hh e w'). destruct (h e w') as [[ev' w''] o].
  cbn in *. apply Forall_app. split; assumption.
Qed.

Lemma all_for_of {A S} P (body : A -> S -> M W E S) :
  (forall x s, all_events P (body x s)) ->
  forall xs s, all_events P (for_of xs body s).
Proof.
  intros Hb xs. induction xs as [| x xs IH]; intros s; cbn.
  - apply all_ret.
  - apply all_bind; [apply Hb | exact IH].
Qed.

Lemma all_for_range {S R} P (body : nat -> S -> M W E (S + R)) :
  (forall i s, all_events P (body i s)) ->
  forall indices s, all_events P (for_range indices body s).
Proof.
  intros Hb indices. induction indices as [| i rest IH]; intros s; cbn.
  - apply all_ret.
  - apply all_bind; [apply Hb |].
    intros [s' | r]; [apply IH | apply all_ret].
Qed.

Lemma all_while {S R} P (cond : S -> bool) (body : S -> M W E (S + R)) :
  (forall s, all_events P (body s)) ->
  forall fuel s, all_events P (while_ fuel cond body s).
Proof.
  intros Hb fuel. induction fuel as [| fuel IH]; intros s; cbn;
    destruct (cond s); try apply all_ret.
  apply all_bind; [apply Hb |].
  intros [s' | r]; [apply IH | apply all_ret].
Qed.

Lemma all_collecting {C A} P (m : M W C A) : all_events P (collecting (E := E) m).
Proof.
  intros w. unfold collecting. destruct (m w) as [[cs w'] [a | e]]; constructor.
Qed.

Lemma all_silent {A} P (m : M W Empty_set A) : all_events P (silent (E := E) m).
Proof.
  intros w. unfold silent. destruct (m w) as [[cs w'] o]. constructor.
Qed.

Lemma all_events_weaken {A} (P Q : E -> Prop) (m : M W E A) :
  (forall e, P e -> Q e) -> all_events P m -> all_events Q m.
Proof. intros HPQ Hm w. eapply Forall_impl; [exact HPQ | apply Hm]. Qed.

Lemma quiet_all {A} (m : M W E A) : all_events (fun _ => False) m -> quiet m.
Proof.
  intros H w. specialize (H w). destruct (events (m w)) as [| e evs]; [reflexivity |].
  inversion H; contradiction.
Qed.

Lemma quiet_all_events {A} P (m : M W E A) : quiet m -> all_events P m.
Proof. intros H w. rewrite H. constructor. Qed.

(** ** Loops bounded by a budget *)

Section Budget.
Context {S R : Type}.
Variable budget : S -> nat.
Variable cond : S -> bool.
Variable body : S -> M W E (S + R).
Hypothesis budget_positive : forall s, cond s = true -> 0 < budget s.
Hypothesis budget_decreases :
  forall s w s', cond s = true -> outcome (body s w) = Returned (inl s') ->
                 budget s' < budget s.

(** A loop whose budget fits in the fuel ends before the fuel does. *)
Lemma while_enough_fuel fuel s w :
  budget s <= fuel -> outcome (while_ fuel cond body s w) <> Returned None.
Proof.
  revert s w. induction fuel as [| fuel IH]; intros s w Hle; cbn;
    destruct (cond s) eqn:Hc; try discriminate.
  - apply budget_positive in Hc. lia.
  - destruct (body s w) as [[ev w'] [[s' | r] | e]] eqn:Hrun.
    + rewrite (bind_returned _ _ _ _ _ _ Hrun). cbn.
      apply IH.
      assert (budget s' < budget s).
      { apply (budget_decreases s w s' Hc). now rewrite Hrun. }
      lia.
    + rewrite (bind_returned _ _ _ _ _ _ Hrun). cbn. discriminate.
    + rewrite (bind_threw _ _ _ _ _ _ Hrun). cbn. discriminate.
Qed.

(** A loop that logs at most one event of the kind [c] in each pass logs at
    most as many as its budget. *)
Lemma while_count (c : E -> bool) :
  (forall s w, cond s = true ->
               List.length (List.filter c (events (body s w))) <= 1) ->
  forall fuel s w,
    List.length (List.filter c (events (while_ fuel cond body s w))) <= budget s.
Proof.
  intros Hone fuel. induction fuel as [| fuel IH]; intros s w; cbn;
    destruct (cond s) eqn:Hc; cbn; try lia.
  pose proof (budget_positive s Hc) as Hpos.
  pose proof (Hone s w Hc) as H1.
  destruct (body s w) as [[ev w'] [[s' | r] | e]] eqn:Hrun.
  - rewrite (bind_returned _ _ _ _ _ _ Hrun). cbn in *.
    rewrite List.filter_app, List.length_app.
    assert (budget s' < budget s).
    { apply (budget_decreases s w s' Hc). now rewrite Hrun. }
    specialize (IH s' w'). lia.
  - rewrite (bind_returned _ _ _ _ _ _ Hrun). cbn in *.
    rewrite app_nil_r. lia.
  - rewrite (bind_threw _ _ _ _ _ _ Hrun). cbn in *. lia.
Qed.

End Budget.

End MonadFacts.

Section MoreMonadFacts.
Context {W E : Type}.

Lemma returns_ret {A} (Q : A -> Prop) a : Q a -> returns Q (ret (W := W) (E := E) a).
Proof. intros H w b Hb. cbn in Hb. now inversion Hb; subst. Qed.

Lemma returns_throw {A} (Q : A -> Prop) e : returns Q (throw (W := W) (E := E) e).
Proof. intros w b Hb. discriminate. Qed.

Lemma returns_bind {A B} (Q : B -> Prop) (m : M W E A) (k : A -> M W E B) :
  (forall a, returns Q (k a)) -> returns Q (bind m k).
Proof.
  intros Hk w b.
  destruct (m w) as [[ev w'] [a | e]] eqn:Hrun.
  - rewrite (bind_returned _ _ _ _ _ _ Hrun). cbn. apply Hk.
  - rewrite (bind_threw _ _ _ _ _ _ Hrun). discriminate.
Qed.

Lemma never_throws_ret {A} (a : A) : never_throws (ret (W := W) (E := E) a).
Proof. intros w. now exists a. Qed.

Lemma never_throws_observe {A} (f : W -> A) : never_throws (observe (E := E) f).
Proof. intros w. now exists (f w). Qed.

Lemma never_throws_bind {A B} (m : M W E A) (k : A -> M W E B) :
  never_throws m -> (forall a, never_throws (k a)) -> never_throws (bind m k).
Proof.
  intros Hm Hk w. destruct (Hm w) as [a Ha].
  destruct (m w) as [[ev w'] o] eqn:Hrun. cbn in Ha. subst o.
  rewrite (bind_returned _ _ _ _ _ _ Hrun). cbn. apply Hk.
Qed.

Lemma never_throws_try_catch {A} (m : M W E A) (h : Thrown -> M W E A) :
  (forall e, never_throws (h e)) -> never_throws (try_catch m h).
Proof.
  intros Hh w. unfold try_catch.
  destruct (m w) as [[ev w'] [a | e]].
  - now exists a.
  - destruct (Hh e w') as [a Ha].
    destruct (h e w') as [[ev' w''] o]. cbn in *. now exists a.
Qed.

Lemma never_throws_for_of {A S} (body : A -> S -> M W E S) :
  (forall x s, never_throws (body x s)) ->
  forall xs s, never_throws (for_of xs body s).
Proof.
  intros Hb xs. induction xs as [| x xs IH]; intros s; cbn.
  - apply never_throws_ret.
  - apply never_throws_bind; [apply Hb | exact IH].
Qed.

Lemma never_throws_emit (e : E) : never_throws (emit (W := W) e).
Proof. intros w. now exists tt. Qed.

End MoreMonadFacts.

Section CallCounting.
Context {W : Type}.

Lemma llm_calls_app (xs ys : list Event) :
  llm_calls (xs ++ ys) = llm_calls xs + llm_calls ys.
Proof. unfold llm_calls. now rewrite List.filter_app, List.length_app. Qed.

Lemma no_calls_zero (evs : list Event) : Forall not_a_call evs -> llm_calls evs = 0.
Proof.
  induction 1 as [| e evs He _ IH]; [reflexivity |].
  unfold llm_calls in *. cbn. unfold not_a_call in He. now rewrite He.
Qed.

Lemma calls_at_most_quiet {A} (m : M W Event A) :
  all_events not_a_call m -> calls_at_most 0 m.
Proof. intros H w. now rewrite (no_calls_zero _ (H w)). Qed.

Lemma calls_at_most_bind {A B} n1 n2 (m : M W Event A) (k : A -> M W Event B) :
  calls_at_most n1 m -> (forall a, calls_at_most n2 (k a)) ->
  calls_at_most (n1 + n2) (bind m k).
Proof.
  intros Hm Hk w. specialize (Hm w).
  destruct (m w) as [[ev w'] [a | e]] eqn:Hrun.
  - rewrite (bind_returned _ _ _ _ _ _ Hrun).
    change (llm_calls (ev ++ events (k a w')) <= n1 + n2).
    change (llm_calls ev <= n1) in Hm.
    rewrite llm_calls_app. specialize (Hk a w'). lia.
  - rewrite (bind_threw _ _ _ _ _ _ Hrun).
    change (llm_calls ev <= n1) in Hm.
    change (llm_calls ev <= n1 + n2). lia.
Qed.

Lemma calls_at_most_weaken {A} n n' (m : M W Event A) :
  n <= n' -> calls_at_most n m -> calls_at_most n' m.
Proof. intros Hle Hm w. specialize (Hm w). lia. Qed.

Lemma call_chat_once llm messages tools :
  calls_at_most 1 (call_chat (W := W) llm messages tools).
Proof.
  intros w. unfold call_chat, bind, emit, silent.
  destruct (LLM.chat llm messages (Some tools) w) as [[cs w'] o]. reflexivity.
Qed.

Lemma call_chatStream_once llm messages tools :
  calls_at_most 1 (call_chatStream (W := W) llm messages tools).
Proof.
  intros w. unfold call_chatStream, bind, emit, collecting.
  destruct (LLM.chatStream llm messages (Some tools) w) as [[cs w'] [a | e]];
    reflexivity.
Qed.

Lemma call_chatStream_no_terminal llm messages tools :
  all_events not_terminal_yield (call_chatStream (W := W) llm messages tools).
Proof.
  apply all_bind; [apply all_emit; exact I | intros _; apply all_collecting].
Qed.

Lemma push_no_call messages m : all_events not_a_call (push (W := W) messages m).
Proof.
  apply all_bind; [apply all_emit; reflexivity | intros _; apply all_ret].
Qed.

Lemma push_no_terminal messages m :
  all_events not_terminal_yield (push (W := W) messages m).
Proof.
  apply all_bind; [apply all_emit; exact I | intros _; apply all_ret].
Qed.

End CallCounting.

(* ===================================================================== *)
(** * The local registry never throws and logs nothing *)
(* ===================================================================== *)

Section ToolsFacts.
Context {W E : Type}.
Variable env : Tools.Env W.

Lemma admin_gate_quiet P context (handler : M W E Json) :
  all_events P handler -> all_events P (Tools.admin_gate context handler).
Proof.
  intros H. unfold Tools.admin_gate.
  destruct (negb (is_admin (userRole context))); [apply all_throw | exact H].
Qed.

Lemma executeToolInternal_quiet P toolName args context :
  all_events P (Tools.executeToolInternal (E := E) env toolName args context).
Proof.
  unfold Tools.executeToolInternal.
  repeat match goal with
         | |- context [if String.eqb ?a ?b then _ else _] => destruct (String.eqb a b)
         end;
    try apply admin_gate_quiet; try apply all_perform; apply all_throw.
Qed.

Lemma executeTool_all P toolName args context :
  all_events P (Tools.executeTool (E := E) env toolName args context).
Proof.
  unfold Tools.executeTool.
  apply all_bind; [apply all_observe | intros time].
  apply all_try_catch.
  - apply all_bind; [apply executeToolInternal_quiet | intros r; apply all_ret].
  - intros e. apply all_ret.
Qed.

Lemma executeTool_quiet toolName args context :
  quiet (Tools.executeTool (E := E) env toolName args context).
Proof. apply quiet_all, executeTool_all. Qed.

(** No exception leaves [executeTool], whatever the tool and the caller. *)
Lemma executeTool_never_throws toolName args context :
  never_throws (Tools.executeTool (E := E) env toolName args context).
Proof.
  unfold Tools.executeTool.
  apply never_throws_bind; [apply never_throws_observe | intros time].
  apply never_throws_try_catch. intros e. apply never_throws_ret.
Qed.

End ToolsFacts.

(* ===================================================================== *)
(** * The orchestrator over the local registry *)
(* ===================================================================== *)

Section ChatServiceFacts.
Context {W : Type}.
Variable llm : LLM.LLMProvider W.
Variable env : Tools.Env W.
Variable getSystemPrompt : ChatContext -> W -> string.

Lemma run_tools_no_call context calls messages :
  all_events not_a_call (ChatService.run_tools env context calls messages).
Proof.
  apply all_for_of. intros toolCall ms.
  apply all_bind; [apply executeTool_all | intros r; apply push_no_call].
Qed.

Lemma stream_tools_all P context calls messages :
  (forall c, is_terminal c = false -> P (Yield c)) ->
  (forall m, P (Append m)) ->
  all_events P (ChatService.stream_tools env context calls messages).
Proof.
  intros HY HA. apply all_for_of. intros toolCall ms.
  apply all_bind; [apply all_emit, HY; reflexivity | intros _].
  apply all_bind; [apply executeTool_all | intros r].
  apply all_bind.
  - destruct (JsonOps.truthy (Tools.result_chart r));
      [apply all_emit, HY; reflexivity | apply all_ret].
  - intros _. apply all_bind; [apply all_emit, HA | intros _; apply all_ret].
Qed.

Lemma yield_text_chunks_all P chunks :
  (forall c, is_terminal c = false -> P (Yield c)) ->
  all_events P (ChatService.yield_text_chunks (W := W) chunks).
Proof.
  intros HY. apply all_for_of. intros chunk [].
  destruct chunk; cbn; try apply all_ret.
  apply all_emit, HY. reflexivity.
Qed.

(** What follows the provider call in a pass of the streaming loop. *)
Lemma stream_body_rest_all P context st chunks response :
  (forall c, is_terminal c = false -> P (Yield c)) ->
  (forall m, P (Append m)) ->
  all_events P
    (bind (ChatService.yield_text_chunks (W := W) chunks) (fun _ =>
       if requests_tools response then
         bind (push (ChatService.sl_messages st) response) (fun messages =>
         bind (ChatService.stream_tools env context (requested response) messages)
              (fun messages =>
         ret (inl (B := Empty_set)
                {| ChatService.sl_hasToolCalls := true;
                   ChatService.sl_iterations := S (ChatService.sl_iterations st);
                   ChatService.sl_messages := messages |})))
       else
         ret (inl {| ChatService.sl_hasToolCalls := false;
                     ChatService.sl_iterations := S (ChatService.sl_iterations st);
                     ChatService.sl_messages := ChatService.sl_messages st |}))).
Proof.
  intros HY HA.
  apply all_bind; [now apply yield_text_chunks_all | intros _].
  destruct (requests_tools response); [| apply all_ret].
  apply all_bind.
  { apply all_bind; [apply all_emit, HA | intros _; apply all_ret]. }
  intros ms. apply all_bind; [now apply stream_tools_all | intros ms'; apply all_ret].
Qed.

Lemma stream_body_no_terminal context tools st :
  all_events not_terminal_yield (ChatService.stream_body llm env context tools st).
Proof.
  unfold ChatService.stream_body.
  apply all_bind; [apply call_chatStream_no_terminal | intros [chunks response]].
  apply stream_body_rest_all; [intros c Hc; exact Hc | intros m; exact I].
Qed.

Lemma stream_body_calls context tools st :
  calls_at_most 1 (ChatService.stream_body llm env context tools st).
Proof.
  unfold ChatService.stream_body.
  apply (calls_at_most_bind 1 0); [apply call_chatStream_once | intros [chunks response]].
  apply calls_at_most_quiet.
  apply stream_body_rest_all; intros; reflexivity.
Qed.

Lemma stream_body_iterations context tools st :
  returns (fun r => match r with
                    | inl st' => ChatService.sl_iterations st' = S (ChatService.sl_iterations st)
                    | inr _ => True
                    end)
          (ChatService.stream_body llm env context tools st).
Proof.
  unfold ChatService.stream_body.
  apply returns_bind. intros [chunks response].
  apply returns_bind. intros _.
  destruct (requests_tools response).
  - apply returns_bind. intros ms. apply returns_bind. intros ms'.
    now apply returns_ret.
  - now apply returns_ret.
Qed.

Lemma chat_body_calls context tools st :
  calls_at_most 1 (ChatService.chat_body llm env context tools st).
Proof.
  unfold ChatService.chat_body.
  apply (calls_at_most_bind 0 1); [apply calls_at_most_quiet, push_no_call | intros ms].
  apply (calls_at_most_bind 0 1);
    [apply calls_at_most_quiet, run_tools_no_call | intros ms'].
  apply (calls_at_most_bind 1 0); [apply call_chat_once | intros response].
  apply calls_at_most_quiet, all_ret.
Qed.

Lemma chat_body_iterations context tools st :
  returns (fun r => match r with
                    | inl st' => ChatService.cl_iterations st' = S (ChatService.cl_iterations st)
                    | inr _ => True
                    end)
          (ChatService.chat_body llm env context tools st).
Proof.
  unfold ChatService.chat_body.
  apply returns_bind. intros ms. apply returns_bind. intros ms'.
  apply returns_bind. intros response. now apply returns_ret.
Qed.

(** The budget of both loops: the passes left before the cap. *)
Lemma stream_cond_budget st :
  ChatService.stream_cond st = true ->
  0 < ChatService.MAX_TOOL_ITERATIONS - ChatService.sl_iterations st.
Proof.
  unfold ChatService.stream_cond. intros H.
  apply andb_true_iff in H. destruct H as [_ H].
  apply Nat.ltb_lt in H. lia.
Qed.

Lemma stream_body_budget context tools st w st' :
  ChatService.stream_cond st = true ->
  outcome (ChatService.stream_body llm env context tools st w) = Returned (inl st') ->
  ChatService.MAX_TOOL_ITERATIONS - ChatService.sl_iterations st'
  < ChatService.MAX_TOOL_ITERATIONS - ChatService.sl_iterations st.
Proof.
  intros Hc Hr. apply stream_cond_budget in Hc.
  apply (stream_body_iterations context tools st w) in Hr. cbn in Hr. lia.
Qed.

Lemma chat_cond_budget st :
  ChatService.chat_cond st = true ->
  0 < ChatService.MAX_TOOL_ITERATIONS - ChatService.cl_iterations st.
Proof.
  unfold ChatService.chat_cond. intros H.
  apply andb_true_iff in H. destruct H as [_ H].
  apply Nat.ltb_lt in H. lia.
Qed.

Lemma chat_body_budget context tools st w st' :
  ChatService.chat_cond st = true ->
  outcome (ChatService.chat_body llm env context tools st w) = Returned (inl st') ->
  ChatService.MAX_TOOL_ITERATIONS - ChatService.cl_iterations st'
  < ChatService.MAX_TOOL_ITERATIONS - ChatService.cl_iterations st.
Proof.
  intros Hc Hr. apply chat_cond_budget in Hc.
  apply (chat_body_iterations context tools st w) in Hr. cbn in Hr. lia.
Qed.

(** The streaming loop issues at most five provider calls. *)
Lemma stream_loop_calls context tools st w :
  llm_calls (events (while_ ChatService.MAX_TOOL_ITERATIONS ChatService.stream_cond
                       (ChatService.stream_body llm env context tools) st w))
  <= ChatService.MAX_TOOL_ITERATIONS - ChatService.sl_iterations st.
Proof.
  apply (while_count
           (fun st => ChatService.MAX_TOOL_ITERATIONS - ChatService.sl_iterations st)
           ChatService.stream_cond (ChatService.stream_body llm env context tools)
           stream_cond_budget (stream_body_budget context tools) is_LLMCall).
  intros s w' _. apply stream_body_calls.
Qed.

Lemma chat_loop_calls context tools st w :
  llm_calls (events (while_ ChatService.MAX_TOOL_ITERATIONS ChatService.chat_cond
                       (ChatService.chat_body llm env context tools) st w))
  <= ChatService.MAX_TOOL_ITERATIONS - ChatService.cl_iterations st.
Proof.
  apply (while_count
           (fun st => ChatService.MAX_TOOL_ITERATIONS - ChatService.cl_iterations st)
           ChatService.chat_cond (ChatService.chat_body llm env context tools)
           chat_cond_budget (chat_body_budget context tools) is_LLMCall).
  intros s w' _. apply chat_body_calls.
Qed.

Lemma chatStream_calls userMessage context history :
  calls_at_most 5 (ChatService.chatStream llm env getSystemPrompt userMessage context history).
Proof.
  unfold ChatService.chatStream.
  apply (calls_at_most_bind 0 5);
    [apply calls_at_most_quiet, all_observe | intros prompt].
  apply (calls_at_most_bind 5 0).
  - intros w. apply stream_loop_calls.
  - intros [[st | []] |]; apply calls_at_most_quiet.
    + apply all_bind; [apply all_emit; reflexivity | intros _; apply all_ret].
    + apply all_ret.
Qed.

Lemma chat_calls userMessage context history :
  calls_at_most 6 (ChatService.chat llm env getSystemPrompt userMessage context history).
Proof.
  unfold ChatService.chat.
  apply (calls_at_most_bind 0 6);
    [apply calls_at_most_quiet, all_observe | intros prompt].
  apply (calls_at_most_bind 1 5); [apply call_chat_once | intros response].
  apply (calls_at_most_bind 5 0).
  - intros w. apply chat_loop_calls.
  - intros [[st | []] |]; apply calls_at_most_quiet, all_ret.
Qed.

End ChatServiceFacts.

(* ===================================================================== *)
(** * Termination of a streaming turn *)
(* ===================================================================== *)

Section StreamFacts.
Context {W : Type}.

Lemma yielded_app (xs ys : list Event) : yielded (xs ++ ys) = yielded xs ++ yielded ys.
Proof. unfold yielded. apply flat_map_app. Qed.

Lemma yielded_open (evs : list Event) :
  Forall not_terminal_yield evs -> Forall open_chunk (yielded evs).
Proof.
  induction 1 as [| e evs He _ IH]; [constructor |].
  destruct e; cbn; try exact IH. constructor; assumption.
Qed.

(** A loop left by a [return] ends its log with the last event of the pass
    that returned. *)
Lemma while_return_last {E S R} (e0 : E) (cond : S -> bool)
    (body : S -> M W E (S + R)) :
  (forall s w ev w' r, body s w = (ev, w', Returned (inr r)) ->
                       exists ev0, ev = ev0 ++ [e0]) ->
  forall fuel s w ev w' r,
    while_ fuel cond body s w = (ev, w', Returned (Some (inr r))) ->
    exists ev0, ev = ev0 ++ [e0].
Proof.
  intros Hb fuel. induction fuel as [| fuel IH]; intros s w ev w' r H; cbn in H;
    destruct (cond s); try discriminate.
  destruct (body s w) as [[ev1 w1] [[s' | r'] | e]] eqn:Hrun.
  - rewrite (bind_returned _ _ _ _ _ _ Hrun) in H.
    destruct (while_ fuel cond body s' w1) as [[ev2 w2] o2] eqn:Hloop.
    cbn in H. inversion H; subst.
    destruct (IH _ _ _ _ _ Hloop) as [ev0 ->].
    exists (ev1 ++ ev0). now rewrite app_assoc.
  - rewrite (bind_returned _ _ _ _ _ _ Hrun) in H. cbn in H.
    inversion H; subst. rewrite app_nil_r. eapply Hb; eassumption.
  - rewrite (bind_threw _ _ _ _ _ _ Hrun) in H. discriminate.
Qed.

End StreamFacts.

Section GatewayFacts.
Context {W E : Type}.
Variable remote : MCPManager.Remote W.

Lemma callTool_all P mgr toolName args :
  all_events P (MCPManager.callTool (E := E) remote mgr toolName args).
Proof.
  unfold MCPManager.callTool.
  destruct (MCPManager.falsy _); [apply all_throw |].
  destruct (JsMap.get (MCPManager.connections mgr) _); [| apply all_throw].
  apply all_bind; [apply all_perform | intros r].
  destruct (match MCPManager.call_content r with Some _ => _ | None => _ end);
    apply all_ret.
Qed.

Lemma executeToolCall_all P mgr toolCall :
  all_events P (MCPManager.executeToolCall (E := E) remote mgr toolCall).
Proof.
  unfold MCPManager.executeToolCall. apply all_try_catch.
  - apply all_bind; [| intros a; apply callTool_all].
    destruct (tc_arguments toolCall); try apply all_ret.
    destruct (MCPManager.JSON_parse remote s); [apply all_throw | apply all_ret].
  - intros e. apply all_ret.
Qed.

(** No exception leaves [executeToolCall]. *)
Lemma executeToolCall_never_throws mgr toolCall :
  never_throws (MCPManager.executeToolCall (E := E) remote mgr toolCall).
Proof.
  unfold MCPManager.executeToolCall.
  apply never_throws_try_catch. intros e. apply never_throws_ret.
Qed.

Lemma getAllTools_all P mgr isAdmin :
  all_events P (MCPManager.getAllTools (E := E) remote mgr isAdmin).
Proof.
  unfold MCPManager.getAllTools. apply all_for_of. intros entry acc.
  destruct (_ && _); [apply all_ret |].
  apply all_bind; [apply all_perform | intros ts; apply all_ret].
Qed.

End GatewayFacts.

Section MCPChatServiceFacts.
Context {W : Type}.
Variable llm : LLM.LLMProvider W.
Variable remote : MCPManager.Remote W.
Variable mcp : MCPManager.Manager.
Variable getSystemPrompt : ChatContext -> W -> string.

Lemma mcp_cond_budget st :
  MCPChatService.cond st = true ->
  0 < MCPChatService.MAX_TOOL_ITERATIONS - MCPChatService.iterations st.
Proof. unfold MCPChatService.cond. intros H. apply Nat.ltb_lt in H. lia. Qed.

Lemma mcp_stream_body_iterations tools st :
  returns (fun r => match r with
                    | inl st' =>
                        MCPChatService.iterations st' = S (MCPChatService.iterations st)
                    | inr _ => True
                    end)
          (MCPChatService.stream_body llm remote mcp tools st).
Proof.
  unfold MCPChatService.stream_body.
  apply returns_bind. intros [chunks response].
  apply returns_bind. intros _.
  destruct (negb (requests_tools response)).
  - apply returns_bind. intros _. now apply returns_ret.
  - apply returns_bind. intros ms. apply returns_bind. intros ms'.
    now apply returns_ret.
Qed.

Lemma mcp_stream_body_budget tools st w st' :
  MCPChatService.cond st = true ->
  outcome (MCPChatService.stream_body llm remote mcp tools st w) = Returned (inl st') ->
  MCPChatService.MAX_TOOL_ITERATIONS - MCPChatService.iterations st'
  < MCPChatService.MAX_TOOL_ITERATIONS - MCPChatService.iterations st.
Proof.
  intros Hc Hr. apply mcp_cond_budget in Hc.
  apply (mcp_stream_body_iterations tools st w) in Hr. cbn in Hr. lia.
Qed.

(** A pass of the streaming loop that returns has just yielded [done]. *)
Lemma mcp_stream_body_return tools st w ev w' r :
  MCPChatService.stream_body llm remote mcp tools st w = (ev, w', Returned (inr r)) ->
  exists ev0, ev = ev0 ++ [Yield done].
Proof.
  unfold MCPChatService.stream_body. intros H.
  destruct (call_chatStream llm (MCPChatService.currentMessages st) tools w)
    as [[ev1 w1] [[chunks response] | e]] eqn:Hcall.
  2:{ rewrite (bind_threw _ _ _ _ _ _ Hcall) in H. discriminate. }
  rewrite (bind_returned _ _ _ _ _ _ Hcall) in H.
  destruct (MCPChatService.yield_chunks chunks w1) as [[ev2 w2] [[] | e]] eqn:Hy.
  2:{ rewrite (bind_threw _ _ _ _ _ _ Hy) in H. discriminate. }
  rewrite (bind_returned _ _ _ _ _ _ Hy) in H.
  destruct (negb (requests_tools response)).
  - cbn in H. inversion H; subst.
    exists (ev1 ++ ev2). now rewrite <- !app_assoc.
  - exfalso.
    assert (Hret :
      returns (fun r : MCPChatService.Loop + unit =>
                 match r with inl _ => True | inr _ => False end)
        (bind (push (MCPChatService.currentMessages st) response) (fun messages =>
         bind (MCPChatService.stream_tools remote mcp (requested response) messages)
              (fun messages =>
         ret (inl {| MCPChatService.iterations := S (MCPChatService.iterations st);
                     MCPChatService.currentMessages := messages |}))))).
    { apply returns_bind. intros ms. apply returns_bind. intros ms'.
      now apply returns_ret. }
    apply (Hret w2 (inr r)).
    cbn in H. inversion H. reflexivity.
Qed.

End MCPChatServiceFacts.

Section StreamShapes.
Context {W : Type}.
Variable llm : LLM.LLMProvider W.
Variable getSystemPrompt : ChatContext -> W -> string.

(** [ChatService.chatStream]: a turn that returns has yielded open chunks and
    then [done]; a turn that throws has yielded open chunks only; the fuel is
    never the reason the loop stops. *)
Lemma chat_service_stream_shape (env : Tools.Env W) userMessage context history w :
  match outcome (ChatService.chatStream llm env getSystemPrompt
                   userMessage context history w) with
  | Returned (Some _) =>
      exists body,
        yielded (events (ChatService.chatStream llm env getSystemPrompt
                           userMessage context history w)) = body ++ [done]
        /\ Forall open_chunk body
  | Returned None => False
  | Threw _ =>
      Forall open_chunk
        (yielded (events (ChatService.chatStream llm env getSystemPrompt
                            userMessage context history w)))
  end.
Proof.
  unfold ChatService.chatStream.
  rewrite (bind_returned _ _ w [] w (getSystemPrompt context w) eq_refl).
  set (tools := Tools.getToolsForRole env (userRole context)).
  set (st0 := {| ChatService.sl_hasToolCalls := true;
                 ChatService.sl_iterations := 0;
                 ChatService.sl_messages := _ |}).
  pose proof (all_while not_terminal_yield ChatService.stream_cond
                (ChatService.stream_body llm env context tools)
                (stream_body_no_terminal llm env context tools)
                ChatService.MAX_TOOL_ITERATIONS st0 w) as Hopen.
  pose proof (while_enough_fuel
                (fun st => ChatService.MAX_TOOL_ITERATIONS - ChatService.sl_iterations st)
                ChatService.stream_cond (ChatService.stream_body llm env context tools)
                stream_cond_budget (stream_body_budget llm env context tools)
                ChatService.MAX_TOOL_ITERATIONS st0 w) as Hfuel.
  destruct (while_ ChatService.MAX_TOOL_ITERATIONS ChatService.stream_cond
              (ChatService.stream_body llm env context tools) st0 w)
    as [[evL wL] [[[st | []] |] | e]] eqn:Hloop.
  - rewrite (bind_returned _ _ _ _ _ _ Hloop). cbn.
    exists (yielded evL). split.
    + rewrite yielded_app. reflexivity.
    + apply yielded_open. exact Hopen.
  - exfalso. apply Hfuel; [vm_compute; lia | reflexivity].
  - rewrite (bind_threw _ _ _ _ _ _ Hloop). cbn.
    apply yielded_open. exact Hopen.
Qed.

(** [MCPChatService.chatStream]: a turn that returns has [done] as its last
    chunk; the fuel is never the reason the loop stops. *)
Lemma mcp_stream_shape (remote : MCPManager.Remote W) (mcp : MCPManager.Manager)
    userMessage context history w :
  match outcome (MCPChatService.chatStream llm remote mcp getSystemPrompt
                   userMessage context history w) with
  | Returned (Some _) =>
      exists body,
        yielded (events (MCPChatService.chatStream llm remote mcp getSystemPrompt
                           userMessage context history w)) = body ++ [done]
  | Returned None => False
  | Threw _ => True
  end.
Proof.
  unfold MCPChatService.chatStream.
  destruct (MCPManager.getAllTools (E := Event) remote mcp
              (is_admin (userRole context)) w)
    as [[evT wT] [tools | e]] eqn:Htools.
  2:{ rewrite (bind_threw _ _ _ _ _ _ Htools). exact I. }
  rewrite (bind_returned _ _ _ _ _ _ Htools).
  rewrite (bind_returned _ _ wT [] wT (getSystemPrompt context wT) eq_refl).
  set (st0 := {| MCPChatService.iterations := 0;
                 MCPChatService.currentMessages := _ |}).
  pose proof (while_enough_fuel
                (fun st => MCPChatService.MAX_TOOL_ITERATIONS - MCPChatService.iterations st)
                MCPChatService.cond (MCPChatService.stream_body llm remote mcp tools)
                mcp_cond_budget (mcp_stream_body_budget llm remote mcp tools)
                MCPChatService.MAX_TOOL_ITERATIONS st0 wT) as Hfuel.
  pose proof (while_return_last (Yield done) MCPChatService.cond
                (MCPChatService.stream_body llm remote mcp tools)
                (mcp_stream_body_return llm remote mcp tools)
                MCPChatService.MAX_TOOL_ITERATIONS st0 wT) as Hlast.
  destruct (while_ MCPChatService.MAX_TOOL_ITERATIONS MCPChatService.cond
              (MCPChatService.stream_body llm remote mcp tools) st0 wT)
    as [[evL wL] [[[st | []] |] | e]] eqn:Hloop.
  - rewrite (bind_returned _ _ _ _ _ _ Hloop). cbn.
    exists (yielded (evT ++ evL)).
    rewrite !yielded_app. cbn. now rewrite !app_assoc.
  - rewrite (bind_returned _ _ _ _ _ _ Hloop). cbn.
    destruct (Hlast _ _ _ eq_refl) as [ev0 ->].
    exists (yielded (evT ++ ev0)).
    rewrite !app_nil_r, !yielded_app. cbn. now rewrite !app_assoc.
  - exfalso. apply Hfuel; [vm_compute; lia | reflexivity].
  - rewrite (bind_threw _ _ _ _ _ _ Hloop). exact I.
Qed.

End StreamShapes.

(** C2 (as amended).  A streaming turn is a finite chunk sequence, and its
    loop always ends within the iteration cap.  When no call fails, the
    sequence of [ChatService.chatStream] is made of non-terminal chunks
    followed by one [done], and the sequence of [MCPChatService.chatStream]
    ends with [done].  When a provider call fails the generator throws: an
    orchestrator never yields an [error] chunk, and [ChatService.chatStream]
    has then yielded no terminal chunk at all. *)
Theorem streaming_turn_termination :
  forall (W : Type) (llm : LLM.LLMProvider W) (env : Tools.Env W)
         (remote : MCPManager.Remote W) (mcp : MCPManager.Manager)
         (getSystemPrompt : ChatContext -> W -> string)
         (userMessage : string) (context : ChatContext)
         (history : list Message) (w : W),
    match outcome (ChatService.chatStream llm env getSystemPrompt
                     userMessage context history w) with
    | Returned (Some _) =>
        exists body,
          yielded (events (ChatService.chatStream llm env getSystemPrompt
                             userMessage context history w)) = body ++ [done]
          /\ Forall open_chunk body
    | Returned None => False
    | Threw _ =>
        Forall open_chunk
          (yielded (events (ChatService.chatStream llm env getSystemPrompt
                              userMessage context history w)))
    end
    /\
    match outcome (MCPChatService.chatStream llm remote mcp getSystemPrompt
                     userMessage context history w) with
    | Returned (Some _) =>
        exists body,
          yielded (events (MCPChatService.chatStream llm remote mcp getSystemPrompt
                             userMessage context history w)) = body ++ [done]
    | Returned None => False
    | Threw _ => True
    end.
Proof.
  intros. split.
  - apply chat_service_stream_shape.
  - apply mcp_stream_shape.
Qed.

(** C2 as stated fails on the fatal path: when the backend cannot be reached,
    [chatStream] throws and its chunk sequence, which is empty, holds no
    terminal chunk. *)
Lemma failed_turn_has_no_terminal_chunk :
  outcome (ChatService.chatStream Scenario.unreachable Scenario.env Scenario.prompt
             "hi" Scenario.customer_context [] 0) = Threw (Error "fetch failed")
  /\ ~ ends_with_single_terminal
         (yielded (events (ChatService.chatStream Scenario.unreachable Scenario.env
                             Scenario.prompt "hi" Scenario.customer_context [] 0))).
Proof.
  split; [reflexivity |].
  intros (body & t & H & _). vm_compute in H.
  destruct body; discriminate.
Qed.

(** Over the Gemini adapter, [MCPChatService.chatStream] forwards the [done]
    chunk of the adapter and then yields its own: a turn that answers "Hello"
    carries two terminal chunks. *)
Lemma mcp_forwards_provider_done :
  yielded (events (MCPChatService.chatStream Scenario.gemini_hello Scenario.remote
                     Scenario.connected Scenario.prompt "hi"
                     Scenario.customer_context [] 0))
  = [text "Hello"; done; done].
Proof. vm_compute. reflexivity. Qed.

(* ===================================================================== *)
(** * The iteration cap *)
(* ===================================================================== *)

(** C3 at its failing input: a model that requests a tool in every response.
    Both streaming turns stop at the cap with a bare [done] after the last
    tool round and never yield a [text] chunk, while the non-streaming
    [MCPChatService.chat] answers the same model with its apology. *)
Theorem capped_stream_ends_without_apology :
  yielded (events (ChatService.chatStream Scenario.eager Scenario.env Scenario.prompt
                     "hi" Scenario.customer_context [] 0))
  = repeat (tool_call Scenario.cart_call) 5 ++ [done]
  /\ List.filter ChatService.is_text
       (yielded (events (MCPChatService.chatStream Scenario.eager Scenario.remote
                           Scenario.connected Scenario.prompt "hi"
                           Scenario.customer_context [] 0))) = []
  /\ last (yielded (events (MCPChatService.chatStream Scenario.eager Scenario.remote
                              Scenario.connected Scenario.prompt "hi"
                              Scenario.customer_context [] 0))) (text EmptyString)
     = done
  /\ outcome (MCPChatService.chat Scenario.eager Scenario.remote Scenario.connected
                Scenario.prompt "hi" Scenario.customer_context [] 0)
     = Returned (Some MCPChatService.apology).
Proof. vm_compute. repeat split; reflexivity. Qed.

(* ===================================================================== *)
(** * Admin-only tools *)
(* ===================================================================== *)

(** C6.  For each admin-gated tool name and every caller that is no admin,
    [executeTool] returns, in the same world and without any event, the
    result whose content is the JSON text of [{ error: 'Admin only' }]. *)
Theorem admin_only_tool_is_refused :
  forall (W E : Type) (env : Tools.Env W) (toolName : string) (args : Json)
         (context : ChatContext) (w : W),
    In toolName Tools.adminOnlyToolNames ->
    userRole context <> admin ->
    Tools.executeTool (E := E) env toolName args context w
    = ([], w,
       Returned
         {| Tools.result_toolCallId := ("tool_" ++ JSString.of_N (Tools.now env w))%string;
            Tools.result_content :=
              ("{" ++ JSString.json_quote "error" ++ ":"
                   ++ JSString.json_quote "Admin only" ++ "}")%string;
            Tools.result_chart := JUndefined |})
    /\ JSString.includes
         ("{" ++ JSString.json_quote "error" ++ ":"
              ++ JSString.json_quote "Admin only" ++ "}")%string
         "Admin only" = true.
Proof.
  intros W E env toolName args context w Hin Hrole.
  split; [| reflexivity].
  assert (Hgate : negb (is_admin (userRole context)) = true).
  { destruct (userRole context); [reflexivity | contradiction]. }
  unfold Tools.adminOnlyToolNames in Hin. cbn in Hin.
  destruct Hin as [<- | [<- | [<- | [<- | [<- | []]]]]];
    unfold Tools.executeTool, Tools.executeToolInternal, Tools.admin_gate;
    cbn; rewrite Hgate; reflexivity.
Qed.

Lemma admin_only_tool_is_refused_witness :
  Tools.executeTool (E := Empty_set) Scenario.env "get_sales_dashboard" (JObject [])
    Scenario.customer_context 0
  = ([], 0,
     Returned
       {| Tools.result_toolCallId := "tool_1700000000000";
          Tools.result_content :=
            ("{" ++ JSString.json_quote "error" ++ ":"
                 ++ JSString.json_quote "Admin only" ++ "}")%string;
          Tools.result_chart := JUndefined |}).
Proof.
  apply (admin_only_tool_is_refused nat Empty_set Scenario.env "get_sales_dashboard"
           (JObject []) Scenario.customer_context 0).
  - cbn. auto.
  - discriminate.
Defined.

(* ===================================================================== *)
(** * The gateway after [disconnectAll] *)
(* ===================================================================== *)

Section DisconnectFacts.
Context {W E : Type}.
Variable remote : MCPManager.Remote W.

Lemma disconnectAll_returns mgr w :
  outcome (MCPManager.disconnectAll (E := E) remote mgr w)
  = Returned {| MCPManager.configs := MCPManager.configs mgr;
                MCPManager.connections := [];
                MCPManager.toolToServer := [] |}.
Proof.
  unfold MCPManager.disconnectAll.
  match goal with
  | |- outcome (bind ?m ?k w) = _ =>
      assert (Hnt : never_throws m);
      [| destruct (Hnt w) as [[] Ha];
         destruct (m w) as [[ev w1] o] eqn:Hrun; cbn in Ha; subst o;
         rewrite (bind_returned _ _ _ _ _ _ Hrun); reflexivity ]
  end.
  apply never_throws_for_of. intros entry [].
  apply never_throws_try_catch. intros e. apply never_throws_ret.
Qed.

Lemma callTool_unknown mgr toolName args w :
  MCPManager.toolToServer mgr = [] ->
  MCPManager.callTool (E := E) remote mgr toolName args w
  = ([], w, Threw (Error ("Unknown tool: " ++ toolName))).
Proof. intros H. unfold MCPManager.callTool. rewrite H. reflexivity. Qed.

(** The condition "server not connected" needs a tool the index maps to a
    server that has no connection. *)
Lemma callTool_not_connected mgr toolName args w serverName :
  JsMap.get (MCPManager.toolToServer mgr) toolName = Some serverName ->
  serverName <> EmptyString ->
  JsMap.get (MCPManager.connections mgr) serverName = None ->
  MCPManager.callTool (E := E) remote mgr toolName args w
  = ([], w, Threw (Error ("Server not connected: " ++ serverName))).
Proof.
  intros Hi Hne Hc. unfold MCPManager.callTool. rewrite Hi.
  destruct serverName; [contradiction |]. cbn. rewrite Hc. reflexivity.
Qed.

End DisconnectFacts.

(** C7 (as amended).  [disconnectAll] always returns, and it leaves a manager
    on which every [callTool], whatever the tool name, fails with
    "Unknown tool: <name>" without reaching any server. *)
Theorem callTool_after_disconnectAll :
  forall (W E : Type) (remote : MCPManager.Remote W)
         (mgr : MCPManager.Manager) (w : W),
  exists mgr',
    outcome (MCPManager.disconnectAll (E := E) remote mgr w) = Returned mgr'
    /\ forall (toolName : string) (args : Json) (w' : W),
         MCPManager.callTool (E := E) remote mgr' toolName args w'
         = ([], w', Threw (Error ("Unknown tool: " ++ toolName))).
Proof.
  intros. eexists. split.
  - apply disconnectAll_returns.
  - intros. now apply callTool_unknown.
Qed.

(** C7 as stated fails: [search_products] is served before the gateway is
    disconnected, and calling it afterwards does not fail with "server not
    connected" but with "Unknown tool". *)
Lemma disconnected_tool_is_unknown :
  outcome (MCPManager.callTool (E := Empty_set) Scenario.remote Scenario.connected
             "search_products" (JObject []) 0) = Returned "[]"%string
  /\ outcome (MCPManager.callTool (E := Empty_set) Scenario.remote Scenario.disconnected
                "search_products" (JObject []) 0)
     = Threw (Error "Unknown tool: search_products")
  /\ ~ server_not_connected
         (outcome (MCPManager.callTool (E := Empty_set) Scenario.remote
                     Scenario.disconnected "search_products" (JObject []) 0)).
Proof.
  split; [reflexivity |]. split; [reflexivity |].
  intros [serverName H]. vm_compute in H. discriminate.
Qed.

(* ===================================================================== *)
(** * The delay of the retry policy *)
(* ===================================================================== *)

Section RetryFacts.

Local Open Scope string_scope.

(** The search for the leftmost match skips a prefix in which the pattern
    matches nowhere. *)
Lemma retry_match_skip pre rest :
  no_match_before pre rest = true ->
  GeminiProvider.retry_match (pre ++ rest) = GeminiProvider.retry_match rest.
Proof.
  induction pre as [| c pre IH]; intros H; [reflexivity |].
  cbn [no_match_before] in H.
  change (String c pre ++ rest) with (String c (pre ++ rest)) in *.
  cbn [GeminiProvider.retry_match].
  destruct (GeminiProvider.match_here (String c (pre ++ rest))); [discriminate |].
  now apply IH.
Qed.

Lemma retry_match_here s m :
  GeminiProvider.match_here s = Some m -> GeminiProvider.retry_match s = Some m.
Proof. intros H. destruct s; cbn [GeminiProvider.retry_match]; now rewrite H. Qed.

Lemma match_two_minutes post :
  GeminiProvider.match_here ("retry in 2 minutes" ++ post)
  = Some {| GeminiProvider.group1 := "2"; GeminiProvider.group2 := Some "m" |}.
Proof. reflexivity. Qed.

Lemma match_500ms post :
  GeminiProvider.match_here ("retry in 500ms" ++ post)
  = Some {| GeminiProvider.group1 := "500"; GeminiProvider.group2 := Some "ms" |}.
Proof. reflexivity. Qed.

Lemma retryDelay_two_minutes e message attempt :
  thrown_message e = Some message ->
  first_retry_hint message "retry in 2 minutes" ->
  GeminiProvider.retryDelay e attempt = JSNum.of_Z 121000.
Proof.
  intros Hm (pre & post & -> & Hpre).
  unfold GeminiProvider.retryDelay. rewrite Hm.
  rewrite (retry_match_skip _ _ Hpre).
  rewrite (retry_match_here _ _ (match_two_minutes post)).
  vm_compute. reflexivity.
Qed.

Lemma retryDelay_500ms e message attempt :
  thrown_message e = Some message ->
  first_retry_hint message "retry in 500ms" ->
  GeminiProvider.retryDelay e attempt = JSNum.of_Z 1500.
Proof.
  intros Hm (pre & post & -> & Hpre).
  unfold GeminiProvider.retryDelay. rewrite Hm.
  rewrite (retry_match_skip _ _ Hpre).
  rewrite (retry_match_here _ _ (match_500ms post)).
  vm_compute. reflexivity.
Qed.

Lemma retryDelay_fallback e attempt :
  attempt < GeminiProvider.MAX_RETRIES ->
  no_retry_hint e ->
  GeminiProvider.retryDelay e attempt = JSNum.of_Z (1000 * 2 ^ Z.of_nat attempt).
Proof.
  intros Hlt Hno. unfold GeminiProvider.retryDelay, no_retry_hint in *.
  assert (Hnone :
    match thrown_message e with
    | Some message => GeminiProvider.retry_match message
    | None => None
    end = None).
  { destruct (thrown_message e); [exact Hno | reflexivity]. }
  rewrite Hnone.
  unfold GeminiProvider.MAX_RETRIES in Hlt.
  destruct attempt as [| [| [| n]]]; [reflexivity | reflexivity | reflexivity | lia].
Qed.

End RetryFacts.

(** C4 (as amended).  For an error whose message has its first
    "retry in <number>" at the text "retry in 2 minutes", the delay is
    121000 ms; at the text "retry in 500ms" it is 1500 ms, the 500 ms of the
    message plus the buffer of 1000 ms; and for a message the pattern does
    not match, attempt number [attempt] (0, 1 or 2) has the delay
    [1000 * 2^attempt] ms. *)
Theorem retry_delay_cases :
  forall (e : Thrown) (attempt : nat),
    attempt < GeminiProvider.MAX_RETRIES ->
    (forall message,
        thrown_message e = Some message ->
        first_retry_hint message "retry in 2 minutes" ->
        GeminiProvider.retryDelay e attempt = JSNum.of_Z 121000)
    /\ (forall message,
           thrown_message e = Some message ->
           first_retry_hint message "retry in 500ms" ->
           GeminiProvider.retryDelay e attempt = JSNum.of_Z 1500)
    /\ (no_retry_hint e ->
        GeminiProvider.retryDelay e attempt = JSNum.of_Z (1000 * 2 ^ Z.of_nat attempt)).
Proof.
  intros e attempt Hlt. repeat split.
  - intros message Hm Hh. now apply (retryDelay_two_minutes e message).
  - intros message Hm Hh. now apply (retryDelay_500ms e message).
  - intros Hno. now apply retryDelay_fallback.
Qed.

Lemma retry_delay_cases_witness :
  GeminiProvider.retryDelay
    (Error "[429 Too Many Requests] Quota exceeded. Please retry in 2 minutes.") 0
  = JSNum.of_Z 121000
  /\ GeminiProvider.retryDelay
       (Error "[429 Too Many Requests] Please retry in 500ms") 1
     = JSNum.of_Z 1500
  /\ GeminiProvider.retryDelay (Error "[429 Too Many Requests] Quota exceeded") 1
     = JSNum.of_Z 2000.
Proof.
  split; [| split].
  - apply (proj1 (retry_delay_cases
                    (Error "[429 Too Many Requests] Quota exceeded. Please retry in 2 minutes.")
                    0 ltac:(vm_compute; lia))
                 "[429 Too Many Requests] Quota exceeded. Please retry in 2 minutes."%string
                 eq_refl).
    exists "[429 Too Many Requests] Quota exceeded. Please "%string, "."%string.
    split; reflexivity.
  - apply (proj1 (proj2 (retry_delay_cases
                    (Error "[429 Too Many Requests] Please retry in 500ms")
                    1 ltac:(vm_compute; lia)))
                 "[429 Too Many Requests] Please retry in 500ms"%string
                 eq_refl).
    exists "[429 Too Many Requests] Please "%string, EmptyString.
    split; reflexivity.
  - apply (proj2 (proj2 (retry_delay_cases
                    (Error "[429 Too Many Requests] Quota exceeded")
                    1 ltac:(vm_compute; lia)))).
    reflexivity.
Defined.

(** C4 as stated fails: a rate-limited error that says "retry in 500ms" at
    the first attempt gets the delay 1500 ms, not 501 ms. *)
Lemma retry_in_500ms_waits_1500 :
  GeminiProvider.isRateLimited
    (Error "[429 Too Many Requests] Please retry in 500ms") = true
  /\ GeminiProvider.retryDelay
       (Error "[429 Too Many Requests] Please retry in 500ms") 0
     = JSNum.of_Z 1500
  /\ GeminiProvider.retryDelay
       (Error "[429 Too Many Requests] Please retry in 500ms") 0
     <> JSNum.of_Z 501.
Proof.
  split; [reflexivity |]. split; [reflexivity |].
  vm_compute. discriminate.
Qed.

(* ===================================================================== *)
(** * Facts about JavaScript numbers *)
(* ===================================================================== *)

Section NumberFacts.

Lemma strict_eq_zero x : JSNum.strict_eq x JSNum.zero = JSNum.is_zero x.
Proof. destruct x as [s | s | | s m e]; try reflexivity; destruct s; reflexivity. Qed.

Lemma sqrt_zero x : JSNum.is_zero x = true -> JSNum.sqrt x = x.
Proof. destruct x; try discriminate. reflexivity. Qed.

(** A product with a zero factor is a zero, or NaN when the other factor is
    infinite or NaN. *)
Lemma mul_zero_l x y :
  JSNum.is_zero x = true ->
  JSNum.mul x y = (if JSNum.is_finite y then S754_zero (xorb (match x with S754_zero s => s | _ => false end)
                                               (match y with S754_zero s | S754_finite s _ _ => s | _ => false end))
                   else JSNum.NaN).
Proof.
  destruct x as [sx | | |]; try discriminate. intros _.
  destruct y as [sy | sy | | sy m e]; reflexivity.
Qed.

Lemma mul_zero_r x y :
  JSNum.is_zero y = true ->
  JSNum.mul x y = (if JSNum.is_finite x then S754_zero (xorb (match x with S754_zero s | S754_finite s _ _ => s | _ => false end)
                                               (match y with S754_zero s => s | _ => false end))
                   else JSNum.NaN).
Proof.
  destruct y as [sy | | |]; try discriminate. intros _.
  destruct x as [sx | sx | | sx m e]; reflexivity.
Qed.

(** A quotient whose divisor is a zero or NaN is NaN or an infinity. *)
Lemma div_by_zero_or_nan x d :
  JSNum.is_zero d = true \/ d = JSNum.NaN ->
  JSNum.is_finite (JSNum.div x d) = false.
Proof.
  intros [Hz | ->].
  - destruct d as [sd | | |]; try discriminate.
    destruct x as [sx | sx | | sx m e]; reflexivity.
  - destruct x; reflexivity.
Qed.

Lemma not_finite_not_zero x : JSNum.is_finite x = false -> JSNum.strict_eq x JSNum.zero = false.
Proof. rewrite strict_eq_zero. destruct x; try discriminate; reflexivity. Qed.

Lemma add_zeros x y :
  JSNum.is_zero x = true -> JSNum.is_zero y = true -> JSNum.is_zero (JSNum.add x y) = true.
Proof.
  destruct x as [sx | | |], y as [sy | | |]; try discriminate. intros _ _.
  destruct sx, sy; reflexivity.
Qed.

Lemma mul_zeros x : JSNum.is_zero x = true -> JSNum.is_zero (JSNum.mul x x) = true.
Proof. destruct x; try discriminate. reflexivity. Qed.

(** [x < y] excludes [x >= y]. *)
Lemma ltb_not_geb x y : JSNum.ltb x y = true -> JSNum.geb x y = false.
Proof.
  unfold JSNum.ltb, JSNum.geb, SFltb, SFleb.
  destruct x as [sx | sx | | sx mx ex], y as [sy | sy | | sy my ey]; cbn;
    try discriminate; try reflexivity;
    try (destruct sx; try discriminate; reflexivity);
    try (destruct sy; try discriminate; reflexivity);
    try (destruct sx, sy; try discriminate; reflexivity).
  assert (Hm : Pos.compare_cont Eq my mx = CompOpp (Pos.compare_cont Eq mx my)).
  { symmetry. apply (Pos.compare_cont_antisym mx my Eq). }
  destruct sx, sy; try discriminate; try reflexivity;
    rewrite (Z.compare_antisym ex ey);
    destruct (Z.compare ex ey) eqn:He; cbn; try discriminate; try reflexivity;
    rewrite Hm;
    destruct (Pos.compare_cont Eq mx my); cbn; try discriminate; reflexivity.
Qed.

End NumberFacts.

(* ===================================================================== *)
(** * Cosine similarity *)
(* ===================================================================== *)

Section CosineFacts.

Lemma accumulate_normA_zero a : forall b acc,
  zero_vector a ->
  JSNum.is_zero (Cosine.normA acc) = true ->
  JSNum.is_zero (Cosine.normA (Cosine.accumulate a b acc)) = true.
Proof.
  induction a as [| x a IH]; intros b acc Hz Hacc; [exact Hacc |].
  inversion Hz as [| ? ? Hx Ha]; subst. cbn [Cosine.accumulate].
  apply IH; [exact Ha |]. cbn [Cosine.normA].
  rewrite strict_eq_zero in Hx.
  apply add_zeros; [exact Hacc | now apply mul_zeros].
Qed.

Lemma accumulate_normB_zero a : forall b acc,
  List.length a = List.length b ->
  zero_vector b ->
  JSNum.is_zero (Cosine.normB acc) = true ->
  JSNum.is_zero (Cosine.normB (Cosine.accumulate a b acc)) = true.
Proof.
  induction a as [| x a IH]; intros b acc Hlen Hz Hacc; [exact Hacc |].
  destruct b as [| y b]; [discriminate |].
  inversion Hz as [| ? ? Hy Hb]; subst. cbn [Cosine.accumulate tl].
  apply IH; [now inversion Hlen | exact Hb |]. cbn [Cosine.normB].
  rewrite strict_eq_zero in Hy.
  apply add_zeros; [exact Hacc | now apply mul_zeros].
Qed.

(** With a zero among the two sums of squares, the denominator is a zero or
    NaN. *)
Lemma denominator_zero_or_nan s :
  JSNum.is_zero (Cosine.normA s) = true \/ JSNum.is_zero (Cosine.normB s) = true ->
  JSNum.is_zero (Cosine.denominator s) = true \/ Cosine.denominator s = JSNum.NaN.
Proof.
  unfold Cosine.denominator. intros [H | H].
  - rewrite (sqrt_zero _ H), (mul_zero_l _ _ H).
    destruct (JSNum.is_finite _); [left; reflexivity | right; reflexivity].
  - rewrite (sqrt_zero _ H), (mul_zero_r _ _ H).
    destruct (JSNum.is_finite _); [left; reflexivity | right; reflexivity].
Qed.

(** The guard of the Vector Store covers a zero sum of squares exactly when
    the square root of the other sum is finite. *)
Lemma denominator_zero s :
  (JSNum.is_zero (Cosine.normA s) = true
   /\ JSNum.is_finite (JSNum.sqrt (Cosine.normB s)) = true)
  \/ (JSNum.is_zero (Cosine.normB s) = true
      /\ JSNum.is_finite (JSNum.sqrt (Cosine.normA s)) = true) ->
  JSNum.strict_eq (Cosine.denominator s) JSNum.zero = true.
Proof.
  unfold Cosine.denominator. rewrite strict_eq_zero. intros [[H F] | [H F]].
  - rewrite (sqrt_zero _ H), (mul_zero_l _ _ H), F. reflexivity.
  - rewrite (sqrt_zero _ H), (mul_zero_r _ _ H), F. reflexivity.
Qed.

(** X4.  The Vector Store computes on the two vectors cut to the shorter
    length: the similarity of two vectors is that of their prefixes of the
    shorter length. *)
Lemma vector_cosine_truncates a b :
  VectorStore.cosineSimilarity a b
  = VectorStore.cosineSimilarity
      (firstn (Nat.min (List.length a) (List.length b)) a)
      (firstn (Nat.min (List.length a) (List.length b)) b).
Proof.
  unfold VectorStore.cosineSimilarity.
  set (n := Nat.min (List.length a) (List.length b)).
  assert (Hla : List.length (firstn n a) = n).
  { rewrite List.length_firstn. unfold n. lia. }
  assert (Hlb : List.length (firstn n b) = n).
  { rewrite List.length_firstn. unfold n. lia. }
  rewrite Hla, Hlb, Nat.eqb_refl. cbn [negb].
  destruct (Nat.eqb (List.length a) (List.length b)) eqn:Hlen; cbn [negb];
    [| reflexivity].
  apply Nat.eqb_eq in Hlen.
  assert (Hn : n = List.length a) by (unfold n; lia).
  assert (Ha : firstn n a = a) by (rewrite Hn; apply firstn_all).
  assert (Hb : firstn n b = b) by (rewrite Hn, Hlen; apply firstn_all).
  now rewrite Ha, Hb.
Qed.

(** On vectors of equal length the Vector Store returns 0 under its guard
    and the quotient otherwise. *)
Lemma vector_cosine_formula a b :
  List.length a = List.length b ->
  VectorStore.cosineSimilarity a b
  = if JSNum.strict_eq (Cosine.denominator (Cosine.accumulate a b Cosine.start)) JSNum.zero
    then JSNum.zero
    else JSNum.div (Cosine.dotProduct (Cosine.accumulate a b Cosine.start))
                   (Cosine.denominator (Cosine.accumulate a b Cosine.start)).
Proof.
  intros Hlen. unfold VectorStore.cosineSimilarity.
  apply Nat.eqb_eq in Hlen. now rewrite Hlen.
Qed.

(** A vector of norm zero gives the similarity 0 as long as the square root
    of the other sum of squares is finite. *)
Lemma vector_cosine_zero_norm a b :
  List.length a = List.length b ->
  (zero_vector a
   /\ JSNum.is_finite
        (JSNum.sqrt (Cosine.normB (Cosine.accumulate a b Cosine.start))) = true)
  \/ (zero_vector b
      /\ JSNum.is_finite
           (JSNum.sqrt (Cosine.normA (Cosine.accumulate a b Cosine.start))) = true) ->
  VectorStore.cosineSimilarity a b = JSNum.zero.
Proof.
  intros Hlen H. rewrite (vector_cosine_formula a b Hlen).
  rewrite denominator_zero; [reflexivity |].
  destruct H as [[Hz F] | [Hz F]]; [left | right]; split; try exact F.
  - now apply accumulate_normA_zero.
  - now apply accumulate_normB_zero.
Qed.

Lemma div_by_nan x : JSNum.div x JSNum.NaN = JSNum.NaN.
Proof. destruct x; reflexivity. Qed.

(** The case the guard misses: with a zero sum of squares on one side and a
    square root that is infinite or NaN on the other, the denominator is
    NaN and so is the similarity. *)
Lemma vector_cosine_zero_norm_unguarded a b :
  List.length a = List.length b ->
  (JSNum.is_zero (Cosine.normA (Cosine.accumulate a b Cosine.start)) = true
   /\ JSNum.is_finite
        (JSNum.sqrt (Cosine.normB (Cosine.accumulate a b Cosine.start))) = false)
  \/ (JSNum.is_zero (Cosine.normB (Cosine.accumulate a b Cosine.start)) = true
      /\ JSNum.is_finite
           (JSNum.sqrt (Cosine.normA (Cosine.accumulate a b Cosine.start))) = false) ->
  VectorStore.cosineSimilarity a b = JSNum.NaN.
Proof.
  intros Hlen H. rewrite (vector_cosine_formula a b Hlen).
  assert (Hd : Cosine.denominator (Cosine.accumulate a b Cosine.start) = JSNum.NaN).
  { unfold Cosine.denominator. destruct H as [[Hz F] | [Hz F]].
    - now rewrite (sqrt_zero _ Hz), (mul_zero_l _ _ Hz), F.
    - now rewrite (sqrt_zero _ Hz), (mul_zero_r _ _ Hz), F. }
  rewrite Hd. cbn. apply div_by_nan.
Qed.

End CosineFacts.

(** C9 at its failing input: the zero vector against a vector whose square
    overflows.  The sum of squares of [b] is [Infinity], the denominator
    [0 * Infinity] is NaN, the guard [denominator === 0] is false, and the
    similarity returned is NaN instead of 0. *)
Theorem zero_vector_against_overflow_is_nan :
  zero_vector [JSNum.of_Z 0]
  /\ Cosine.normB (Cosine.accumulate [JSNum.of_Z 0] [JSNum.pow2 700] Cosine.start)
     = JSNum.Infinity
  /\ Cosine.denominator (Cosine.accumulate [JSNum.of_Z 0] [JSNum.pow2 700] Cosine.start)
     = JSNum.NaN
  /\ VectorStore.cosineSimilarity [JSNum.of_Z 0] [JSNum.pow2 700] = JSNum.NaN.
Proof.
  split; [repeat constructor |].
  repeat split; vm_compute; reflexivity.
Qed.

(** C10.  [EmbeddingService.cosineSimilarity] throws on every pair of
    vectors of unequal length, and on vectors of equal length of which one
    has norm zero it returns a number that is not 0: NaN or an infinity. *)
Theorem embedding_cosine_is_partial :
  forall a b : list num,
    (List.length a <> List.length b ->
     EmbeddingService.cosineSimilarity a b
     = inl (Error "Embeddings must have the same dimensions"))
    /\ (List.length a = List.length b ->
        zero_vector a \/ zero_vector b ->
        exists r,
          EmbeddingService.cosineSimilarity a b = inr r
          /\ JSNum.strict_eq r JSNum.zero = false
          /\ JSNum.is_finite r = false).
Proof.
  intros a b. split.
  - intros Hne. unfold EmbeddingService.cosineSimilarity.
    apply Nat.eqb_neq in Hne. now rewrite Hne.
  - intros Hlen Hz. unfold EmbeddingService.cosineSimilarity.
    pose proof Hlen as Heq. apply Nat.eqb_eq in Heq. rewrite Heq. cbn [negb].
    eexists. split; [reflexivity |].
    assert (Hfin :
      JSNum.is_finite
        (JSNum.div (Cosine.dotProduct (Cosine.accumulate a b Cosine.start))
                   (Cosine.denominator (Cosine.accumulate a b Cosine.start))) = false).
    { apply div_by_zero_or_nan, denominator_zero_or_nan.
      destruct Hz as [Hz | Hz]; [left | right].
      - now apply accumulate_normA_zero.
      - now apply accumulate_normB_zero. }
    split; [now apply not_finite_not_zero | exact Hfin].
Qed.

Lemma embedding_cosine_is_partial_witness :
  EmbeddingService.cosineSimilarity [JSNum.of_Z 1; JSNum.of_Z 2] [JSNum.of_Z 1]
  = inl (Error "Embeddings must have the same dimensions")
  /\ exists r,
       EmbeddingService.cosineSimilarity [JSNum.of_Z 0; JSNum.of_Z 0]
                                         [JSNum.of_Z 1; JSNum.of_Z 2] = inr r
       /\ JSNum.strict_eq r JSNum.zero = false
       /\ JSNum.is_finite r = false.
Proof.
  split.
  - apply (proj1 (embedding_cosine_is_partial [JSNum.of_Z 1; JSNum.of_Z 2] [JSNum.of_Z 1])).
    cbn. lia.
  - apply (proj2 (embedding_cosine_is_partial [JSNum.of_Z 0; JSNum.of_Z 0]
                    [JSNum.of_Z 1; JSNum.of_Z 2])).
    + reflexivity.
    + left. repeat constructor.
Defined.

(* ===================================================================== *)
(** * The score threshold of the retrieval engine *)
(* ===================================================================== *)

Section RetrievalFacts.

Lemma filter_nothing {A} (f : A -> bool) (l : list A) :
  Forall (fun x => f x = false) l -> List.filter f l = [].
Proof.
  induction 1 as [| x l Hx _ IH]; [reflexivity |]. cbn. now rewrite Hx.
Qed.

Lemma filter_all_pass {A} (f : A -> bool) (l : list A) :
  Forall (fun x => f x = true) (List.filter f l).
Proof.
  apply Forall_forall. intros x Hin. apply filter_In in Hin. tauto.
Qed.

End RetrievalFacts.

(** C8.  When the query is embedded and the Vector Store answers [found],
    [RAGQueryEngine.search] returns the results of [found] whose score is at
    least [minScore]: every result returned has [score >= minScore], and when
    every row of [found] scores below [minScore] the results are empty and
    the context says that no relevant products were found, however many rows
    [found] holds. *)
Theorem rag_search_drops_low_scores :
  forall (W E : Type)
         (embedContent : string -> EmbeddingService.TaskType -> W -> W * (Thrown + list num))
         (dimensions : nat) (table : VectorStore.Table W) (minScore : num)
         (product_lines : nat -> VectorStore.SearchResult -> string)
         (q : string) (topK : nat) (filter : option (list (string * Json)))
         (w w1 w2 : W) (ev1 ev2 : list E) (queryEmbedding : list num)
         (found : list VectorStore.SearchResult),
    EmbeddingService.embedQuery embedContent dimensions q w
    = (ev1, w1, Returned queryEmbedding) ->
    VectorStore.search table queryEmbedding topK filter w1 = (ev2, w2, Returned found) ->
    exists r,
      RAGQueryEngine.search embedContent dimensions table minScore product_lines
        q topK filter w = (ev1 ++ ev2 ++ [], w2, Returned r)
      /\ RAGQueryEngine.query r = q
      /\ RAGQueryEngine.results r
         = List.filter (fun x => JSNum.geb (VectorStore.score x) minScore) found
      /\ Forall (fun x => JSNum.geb (VectorStore.score x) minScore = true)
                (RAGQueryEngine.results r)
      /\ (Forall (fun x => JSNum.ltb (VectorStore.score x) minScore = true) found ->
          RAGQueryEngine.results r = []
          /\ RAGQueryEngine.context r
             = ("No relevant products found for: " ++ RAGQueryEngine.quoted q)%string).
Proof.
  intros W E embedContent dimensions table minScore product_lines q topK filter
         w w1 w2 ev1 ev2 queryEmbedding found Hembed Hsearch.
  unfold RAGQueryEngine.search.
  rewrite (bind_returned _ _ _ _ _ _ Hembed).
  rewrite (bind_returned _ _ _ _ _ _ Hsearch).
  eexists. split; [reflexivity |]. cbn.
  split; [reflexivity |]. split; [reflexivity |].
  split; [apply (filter_all_pass (fun x => JSNum.geb (VectorStore.score x) minScore)) |].
  intros Hlow.
  assert (Hnone :
    List.filter (fun x => JSNum.geb (VectorStore.score x) minScore) found = []).
  { apply filter_nothing. eapply Forall_impl; [| exact Hlow].
    intros x Hx. now apply ltb_not_geb. }
  rewrite Hnone. split; reflexivity.
Qed.

Lemma rag_search_drops_low_scores_witness :
  exists row r,
    outcome (VectorStore.search (E := Empty_set) Scenario.table
               [JSNum.of_Z 1; JSNum.of_Z 0] 5 None 0) = Returned [row]
    /\ JSNum.ltb (VectorStore.score row) RAGQueryEngine.default_minScore = true
    /\ RAGQueryEngine.search (E := Empty_set) Scenario.embedContent 768 Scenario.table
         RAGQueryEngine.default_minScore Scenario.product_lines "lamp" 5 None 0
       = ([], 0, Returned r)
    /\ RAGQueryEngine.results r = []
    /\ RAGQueryEngine.context r
       = ("No relevant products found for: " ++ RAGQueryEngine.quoted "lamp")%string.
Proof.
  destruct (rag_search_drops_low_scores nat Empty_set Scenario.embedContent 768
              Scenario.table RAGQueryEngine.default_minScore Scenario.product_lines
              "lamp" 5 None 0 0 0 [] [] [JSNum.of_Z 1; JSNum.of_Z 0]
              [ {| VectorStore.id := "product-1";
                   VectorStore.content := "Name: Desk lamp";
                   VectorStore.metadata := JObject [];
                   VectorStore.score :=
                     VectorStore.cosineSimilarity [JSNum.of_Z 1; JSNum.of_Z 0]
                       [JSNum.of_Z 1; JSNum.of_Z 3] |} ]
              eq_refl eq_refl)
    as (r & Hrun & _ & _ & _ & Hlow).
  eexists. exists r.
  split; [reflexivity |].
  split; [vm_compute; reflexivity |].
  split; [exact Hrun |].
  apply Hlow. repeat constructor.
Defined.

(* ===================================================================== *)
(** * Tool calls and their tool messages *)
(* ===================================================================== *)

Section ToolCallFacts.
Context {W : Type}.
Variable env : Tools.Env W.

(** One pass of the tool loop of [ChatService.chatStream]: the chunk that
    announces the call, the chart if any, and the tool message. *)
Lemma stream_tool_step context toolCall messages w :
  exists block w' c,
    answers toolCall block
    /\ bind (yield (tool_call toolCall)) (fun _ =>
       bind (Tools.executeTool env (tc_name toolCall) (tc_arguments toolCall) context)
            (fun result =>
       bind (if JsonOps.truthy (Tools.result_chart result)
             then yield (chart (Tools.result_chart result))
             else ret tt) (fun _ =>
       push messages (tool_message (Tools.result_content result) (tc_id toolCall))))) w
       = (block, w', Returned (messages ++ [tool_message c (tc_id toolCall)])).
Proof.
  pose proof (executeTool_quiet (E := Event) env (tc_name toolCall)
                (tc_arguments toolCall) context w) as Hq.
  destruct (executeTool_never_throws (E := Event) env (tc_name toolCall)
              (tc_arguments toolCall) context w) as [result Hr].
  destruct (Tools.executeTool env (tc_name toolCall) (tc_arguments toolCall) context w)
    as [[evx wx] ox] eqn:Hx.
  cbn in Hq, Hr. subst evx ox.
  unfold bind at 1. unfold yield, emit.
  rewrite (bind_returned _ _ _ _ _ _ Hx).
  destruct (JsonOps.truthy (Tools.result_chart result)) eqn:Ht.
  - exists [Yield (tool_call toolCall); Yield (chart (Tools.result_chart result));
            Append (tool_message (Tools.result_content result) (tc_id toolCall))].
    exists wx, (Tools.result_content result). split.
    + exists (Tools.result_content result). right. eexists. reflexivity.
    + reflexivity.
  - exists [Yield (tool_call toolCall);
            Append (tool_message (Tools.result_content result) (tc_id toolCall))].
    exists wx, (Tools.result_content result). split.
    + exists (Tools.result_content result). left. reflexivity.
    + reflexivity.
Qed.

(** In [ChatService.chatStream] the tool loop never throws, and its log is
    made of one block per requested call, in call order: the [tool_call]
    chunk of the call, then the one tool message that carries its id. *)
Lemma stream_tools_answers context calls : forall messages w,
  exists blocks,
    events (ChatService.stream_tools env context calls messages w) = List.concat blocks
    /\ Forall2 answers calls blocks
    /\ exists messages',
         outcome (ChatService.stream_tools env context calls messages w)
         = Returned messages'.
Proof.
  unfold ChatService.stream_tools.
  induction calls as [| toolCall calls IH]; intros messages w.
  - exists []. cbn. repeat split; [constructor | now eexists].
  - cbn [for_of].
    destruct (stream_tool_step context toolCall messages w)
      as (block & w' & c & Hblock & Hstep).
    rewrite (bind_returned _ _ _ _ _ _ Hstep).
    destruct (IH (messages ++ [tool_message c (tc_id toolCall)]) w')
      as (blocks & Hev & Hall & messages' & Hout).
    exists (block :: blocks).
    unfold events, outcome in *. cbn [fst snd List.concat] in *.
    rewrite Hev. repeat split; [now constructor | now exists messages'].
Qed.

End ToolCallFacts.

Section GatewayToolCallFacts.
Context {W : Type}.
Variable remote : MCPManager.Remote W.
Variable mcp : MCPManager.Manager.

(** In [MCPChatService.chatStream] the tool loop never throws, and it
    answers each call of the returned assistant message once, in call order:
    a [tool_result] chunk, then the tool message that carries the id of the
    call.  It yields no [tool_call] chunk of its own. *)
Lemma mcp_stream_tools_answers calls : forall messages w,
  exists blocks,
    events (MCPChatService.stream_tools remote mcp calls messages w)
    = List.concat blocks
    /\ Forall2 mcp_answers calls blocks
    /\ exists messages',
         outcome (MCPChatService.stream_tools remote mcp calls messages w)
         = Returned messages'.
Proof.
  unfold MCPChatService.stream_tools.
  induction calls as [| toolCall calls IH]; intros messages w.
  - exists []. cbn. repeat split; [constructor | now eexists].
  - cbn [for_of].
    pose proof (quiet_all _ (executeToolCall_all (E := Event) remote
                               (fun _ => False) mcp toolCall) w) as Hq.
    destruct (executeToolCall_never_throws (E := Event) remote mcp toolCall w)
      as [result Hr].
    destruct (MCPManager.executeToolCall remote mcp toolCall w)
      as [[evx wx] ox] eqn:Hx.
    cbn in Hq, Hr. subst evx ox.
    assert (Hstep :
      bind (MCPManager.executeToolCall remote mcp toolCall) (fun result =>
      bind (yield (tool_result toolCall result)) (fun _ =>
      push messages (tool_message result (tc_id toolCall)))) w
      = ([Yield (tool_result toolCall result);
          Append (tool_message result (tc_id toolCall))],
         wx, Returned (messages ++ [tool_message result (tc_id toolCall)]))).
    { rewrite (bind_returned _ _ _ _ _ _ Hx). reflexivity. }
    rewrite (bind_returned _ _ _ _ _ _ Hstep).
    destruct (IH (messages ++ [tool_message result (tc_id toolCall)]) wx)
      as (blocks & Hev & Hall & messages' & Hout).
    exists ([Yield (tool_result toolCall result);
             Append (tool_message result (tc_id toolCall))] :: blocks).
    unfold events, outcome in *. cbn [fst snd List.concat] in *.
    rewrite Hev. repeat split; [| now exists messages'].
    constructor; [now exists result | exact Hall].
Qed.

End GatewayToolCallFacts.

(** C5 at its failing input: the Gemini adapter under
    [MCPChatService.chatStream], when its first stream announces a call to
    [search_products] and then breaks with a rate-limit error, and the
    retried stream requests [get_my_cart] instead.  The turn yields the
    [tool_call] chunk of the broken attempt, but the only tool message pushed
    before the second provider call answers the other call: no tool message
    ever carries the id of the abandoned one. *)
Theorem interrupted_stream_leaves_tool_call_unanswered :
  forget_transcripts
    (events (MCPChatService.chatStream Scenario.gemini_interrupted
               Scenario.remote Scenario.connected Scenario.prompt "hi"
               Scenario.customer_context [] 0))
  = [ LLMCall [];
      Yield (tool_call Scenario.abandoned_call);
      Yield (tool_call Scenario.returned_call);
      Yield done;
      Append {| role := assistant; content := EmptyString; toolCallId := None;
                toolCalls := Some [Scenario.returned_call] |};
      Yield (tool_result Scenario.returned_call "[]");
      Append (tool_message "[]" (tc_id Scenario.returned_call));
      LLMCall [];
      Yield (text "Your cart is empty.");
      Yield done;
      Yield done ]
  /\ tool_messages
       (events (MCPChatService.chatStream Scenario.gemini_interrupted
                  Scenario.remote Scenario.connected Scenario.prompt "hi"
                  Scenario.customer_context [] 0))
     = [tool_message "[]" (tc_id Scenario.returned_call)]
  /\ tc_id Scenario.abandoned_call <> tc_id Scenario.returned_call.
Proof. vm_compute. repeat split; try reflexivity. discriminate. Qed.

(* ===================================================================== *)
(** * Properties of logs closed under concatenation *)
(* ===================================================================== *)

Section LogFacts.
Context {W E : Type}.
Variable Q : list E -> Prop.
Hypothesis Q_nil : Q [].
Hypothesis Q_app : forall xs ys, Q xs -> Q ys -> Q (xs ++ ys).

Lemma logs_ret {A} (a : A) : logs Q (ret (W := W) a).
Proof. intros w. exact Q_nil. Qed.

Lemma logs_bind {A B} (m : M W E A) (k : A -> M W E B) :
  logs Q m -> (forall a, logs Q (k a)) -> logs Q (bind m k).
Proof.
  intros Hm Hk w. specialize (Hm w).
  destruct (m w) as [[ev w'] [a | e]] eqn:Hrun.
  - rewrite (bind_returned _ _ _ _ _ _ Hrun). cbn. apply Q_app; [exact Hm | apply Hk].
  - rewrite (bind_threw _ _ _ _ _ _ Hrun). exact Hm.
Qed.

Lemma logs_while {S R} (cond : S -> bool) (body : S -> M W E (S + R)) :
  (forall s, logs Q (body s)) ->
  forall fuel s, logs Q (while_ fuel cond body s).
Proof.
  intros Hb fuel. induction fuel as [| fuel IH]; intros s; cbn;
    destruct (cond s); try apply logs_ret.
  apply logs_bind; [apply Hb |].
  intros [s' | r]; [apply IH | apply logs_ret].
Qed.

Lemma logs_all {A} (P : E -> Prop) (m : M W E A) :
  (forall evs, Forall P evs -> Q evs) -> all_events P m -> logs Q m.
Proof. intros HP Hm w. apply HP, Hm. Qed.

End LogFacts.

Section WellAnswered.
Context {W : Type}.
Variable llm : LLM.LLMProvider W.
Variable env : Tools.Env W.
Variable getSystemPrompt : ChatContext -> W -> string.

Lemma well_answered_nil : well_answered [].
Proof. exists []. split; [reflexivity | constructor]. Qed.

Lemma well_answered_app xs ys :
  well_answered xs -> well_answered ys -> well_answered (xs ++ ys).
Proof.
  intros (sx & -> & Hx) (sy & -> & Hy). exists (sx ++ sy). split.
  - now rewrite List.concat_app.
  - apply Forall_app. now split.
Qed.

Lemma well_answered_plain evs : Forall plain_event evs -> well_answered evs.
Proof.
  induction 1 as [| e evs He _ IH]; [apply well_answered_nil |].
  change (e :: evs) with ([e] ++ evs). apply well_answered_app; [| exact IH].
  exists [[e]]. split; [reflexivity |].
  constructor; [| constructor]. left. now exists e.
Qed.

Lemma well_answered_blocks calls blocks :
  Forall2 answers calls blocks -> well_answered (List.concat blocks).
Proof.
  intros H. exists blocks. split; [reflexivity |].
  induction H as [| tc block calls blocks Hb _ IH]; constructor; [| exact IH].
  right. now exists tc.
Qed.

Lemma stream_body_well_answered context tools st :
  logs well_answered (ChatService.stream_body llm env context tools st).
Proof.
  unfold ChatService.stream_body.
  apply (logs_bind well_answered well_answered_app).
  { apply (logs_all well_answered plain_event _ well_answered_plain).
    apply all_bind; [apply all_emit; exact I | intros _; apply all_collecting]. }
  intros [chunks response].
  apply (logs_bind well_answered well_answered_app).
  { apply (logs_all well_answered plain_event _ well_answered_plain).
    apply all_for_of. intros chunk [].
    destruct chunk; cbn; try apply all_ret. apply all_emit. exact I. }
  intros _. destruct (requests_tools response);
    [| apply (logs_ret well_answered well_answered_nil)].
  apply (logs_bind well_answered well_answered_app).
  { apply (logs_all well_answered plain_event _ well_answered_plain).
    apply all_bind; [apply all_emit; exact I | intros _; apply all_ret]. }
  intros messages.
  apply (logs_bind well_answered well_answered_app).
  { intros w.
    destruct (stream_tools_answers env context (requested response) messages w)
      as (blocks & -> & Hblocks & _).
    now apply (well_answered_blocks (requested response)). }
  intros messages'. apply (logs_ret well_answered well_answered_nil).
Qed.

(** X1.  In every turn of [ChatService.chatStream], whatever the provider answers
    and whether the turn returns or throws, each [tool_call] chunk is
    followed at once (or right after its chart) by the push of the tool
    message with the id of that call, before any further provider call. *)
Lemma chat_service_stream_well_answered userMessage context history w :
  well_answered
    (events (ChatService.chatStream llm env getSystemPrompt
               userMessage context history w)).
Proof.
  revert w. change (logs well_answered
    (ChatService.chatStream llm env getSystemPrompt userMessage context history)).
  unfold ChatService.chatStream.
  apply (logs_bind well_answered well_answered_app).
  { intros w. apply well_answered_nil. }
  intros prompt.
  apply (logs_bind well_answered well_answered_app).
  { apply (logs_while well_answered well_answered_nil well_answered_app).
    intros s. apply stream_body_well_answered. }
  intros [[st | []] |]; [| apply (logs_ret well_answered well_answered_nil)].
  apply (logs_all well_answered plain_event _ well_answered_plain).
  apply all_bind; [apply all_emit; exact I | intros _; apply all_ret].
Qed.

End WellAnswered.

(* ===================================================================== *)
(** * The remaining entry points *)
(* ===================================================================== *)

Section OtherEntryPoints.
Context {W : Type}.
Variable llm : LLM.LLMProvider W.
Variable getSystemPrompt : ChatContext -> W -> string.

(** [ChatService.chat] never stops for lack of fuel. *)
Lemma chat_fuel_suffices (env : Tools.Env W) userMessage context history w :
  outcome (ChatService.chat llm env getSystemPrompt userMessage context history w)
  <> Returned None.
Proof.
  unfold ChatService.chat.
  rewrite (bind_returned _ _ w [] w (getSystemPrompt context w) eq_refl).
  set (tools := Tools.getToolsForRole env (userRole context)).
  destruct (call_chat llm (ChatService.initial_transcript (getSystemPrompt context w)
                             userMessage history) tools w)
    as [[ev1 w1] [response | e]] eqn:Hcall.
  2:{ rewrite (bind_threw _ _ _ _ _ _ Hcall). discriminate. }
  rewrite (bind_returned _ _ _ _ _ _ Hcall).
  set (st0 := {| ChatService.cl_response := response;
                 ChatService.cl_iterations := 0;
                 ChatService.cl_messages := _ |}).
  pose proof (while_enough_fuel
                (fun st => ChatService.MAX_TOOL_ITERATIONS - ChatService.cl_iterations st)
                ChatService.chat_cond (ChatService.chat_body llm env context tools)
                chat_cond_budget (chat_body_budget llm env context tools)
                ChatService.MAX_TOOL_ITERATIONS st0 w1) as Hfuel.
  destruct (while_ ChatService.MAX_TOOL_ITERATIONS ChatService.chat_cond
              (ChatService.chat_body llm env context tools) st0 w1)
    as [[evL wL] [[[st | []] |] | e]] eqn:Hloop.
  - rewrite (bind_returned _ _ _ _ _ _ Hloop). discriminate.
  - exfalso. apply Hfuel; [vm_compute; lia | reflexivity].
  - rewrite (bind_threw _ _ _ _ _ _ Hloop). discriminate.
Qed.

Variable remote : MCPManager.Remote W.
Variable mcp : MCPManager.Manager.

Lemma mcp_run_tools_no_call calls messages :
  all_events not_a_call (MCPChatService.run_tools remote mcp calls messages).
Proof.
  apply all_for_of. intros toolCall ms.
  apply all_bind; [apply executeToolCall_all | intros r; apply push_no_call].
Qed.

Lemma mcp_stream_tools_no_call calls messages :
  all_events not_a_call (MCPChatService.stream_tools remote mcp calls messages).
Proof.
  apply all_for_of. intros toolCall ms.
  apply all_bind; [apply executeToolCall_all | intros r].
  apply all_bind; [apply all_emit; reflexivity | intros _; apply push_no_call].
Qed.

Lemma mcp_chat_body_calls tools st :
  calls_at_most 1 (MCPChatService.chat_body llm remote mcp tools st).
Proof.
  unfold MCPChatService.chat_body.
  apply (calls_at_most_bind 1 0); [apply call_chat_once | intros response].
  apply calls_at_most_quiet.
  destruct (negb (requests_tools response)); [apply all_ret |].
  apply all_bind; [apply push_no_call | intros ms].
  apply all_bind; [apply mcp_run_tools_no_call | intros ms'; apply all_ret].
Qed.

Lemma mcp_stream_body_calls tools st :
  calls_at_most 1 (MCPChatService.stream_body llm remote mcp tools st).
Proof.
  unfold MCPChatService.stream_body.
  apply (calls_at_most_bind 1 0); [apply call_chatStream_once | intros [chunks response]].
  apply calls_at_most_quiet.
  apply all_bind.
  { apply all_for_of. intros chunk []. apply all_emit. reflexivity. }
  intros _. destruct (negb (requests_tools response)).
  - apply all_bind; [apply all_emit; reflexivity | intros _; apply all_ret].
  - apply all_bind; [apply push_no_call | intros ms].
    apply all_bind; [apply mcp_stream_tools_no_call | intros ms'; apply all_ret].
Qed.

Lemma mcp_chat_body_iterations tools st :
  returns (fun r => match r with
                    | inl st' =>
                        MCPChatService.iterations st' = S (MCPChatService.iterations st)
                    | inr _ => True
                    end)
          (MCPChatService.chat_body llm remote mcp tools st).
Proof.
  unfold MCPChatService.chat_body.
  apply returns_bind. intros response.
  destruct (negb (requests_tools response)); [now apply returns_ret |].
  apply returns_bind. intros ms. apply returns_bind. intros ms'.
  now apply returns_ret.
Qed.

Lemma mcp_chat_body_budget tools st w st' :
  MCPChatService.cond st = true ->
  outcome (MCPChatService.chat_body llm remote mcp tools st w) = Returned (inl st') ->
  MCPChatService.MAX_TOOL_ITERATIONS - MCPChatService.iterations st'
  < MCPChatService.MAX_TOOL_ITERATIONS - MCPChatService.iterations st.
Proof.
  intros Hc Hr. apply mcp_cond_budget in Hc.
  apply (mcp_chat_body_iterations tools st w) in Hr. cbn in Hr. lia.
Qed.

(** [MCPChatService.chat] never stops for lack of fuel. *)
Lemma mcp_chat_fuel_suffices userMessage context history w :
  outcome (MCPChatService.chat llm remote mcp getSystemPrompt
             userMessage context history w)
  <> Returned None.
Proof.
  unfold MCPChatService.chat.
  destruct (MCPManager.getAllTools (E := Event) remote mcp
              (is_admin (userRole context)) w)
    as [[ev0 w0] [tools | e]] eqn:Htools.
  2:{ rewrite (bind_threw _ _ _ _ _ _ Htools). discriminate. }
  rewrite (bind_returned _ _ _ _ _ _ Htools).
  rewrite (bind_returned _ _ w0 [] w0 (getSystemPrompt context w0) eq_refl).
  set (st0 := {| MCPChatService.iterations := 0;
                 MCPChatService.currentMessages := _ |}).
  pose proof (while_enough_fuel
                (fun st => MCPChatService.MAX_TOOL_ITERATIONS - MCPChatService.iterations st)
                MCPChatService.cond (MCPChatService.chat_body llm remote mcp tools)
                mcp_cond_budget (mcp_chat_body_budget tools)
                MCPChatService.MAX_TOOL_ITERATIONS st0 w0) as Hfuel.
  destruct (while_ MCPChatService.MAX_TOOL_ITERATIONS MCPChatService.cond
              (MCPChatService.chat_body llm remote mcp tools) st0 w0)
    as [[evL wL] [[[st | response] |] | e]] eqn:Hloop.
  - rewrite (bind_returned _ _ _ _ _ _ Hloop). discriminate.
  - rewrite (bind_returned _ _ _ _ _ _ Hloop). discriminate.
  - exfalso. apply Hfuel; [vm_compute; lia | reflexivity].
  - rewrite (bind_threw _ _ _ _ _ _ Hloop). discriminate.
Qed.

(** X2.  Both entry points of [MCPChatService] issue at most five provider
    calls in a turn, whatever the provider and the servers answer, and
    neither turn is cut by the fuel: the loops end by their own guard, by a
    [return] or by an exception. *)
Lemma mcp_call_bounds userMessage context history w :
  llm_calls (events (MCPChatService.chatStream llm remote mcp getSystemPrompt
                       userMessage context history w)) <= 5
  /\ outcome (MCPChatService.chatStream llm remote mcp getSystemPrompt
                userMessage context history w) <> Returned None
  /\ llm_calls (events (MCPChatService.chat llm remote mcp getSystemPrompt
                          userMessage context history w)) <= 5
  /\ outcome (MCPChatService.chat llm remote mcp getSystemPrompt
                userMessage context history w) <> Returned None.
Proof.
  split; [| split; [| split; [| apply mcp_chat_fuel_suffices]]].
  2:{ intros H.
      pose proof (mcp_stream_shape llm getSystemPrompt remote mcp
                    userMessage context history w) as Hshape.
      rewrite H in Hshape. exact Hshape. }
  - revert w. change (calls_at_most 5
      (MCPChatService.chatStream llm remote mcp getSystemPrompt userMessage context history)).
    unfold MCPChatService.chatStream.
    apply (calls_at_most_bind 0 5);
      [apply calls_at_most_quiet, getAllTools_all | intros tools].
    apply (calls_at_most_bind 0 5);
      [apply calls_at_most_quiet, all_observe | intros prompt].
    apply (calls_at_most_bind 5 0).
    + intros w.
      apply (while_count
               (fun st => MCPChatService.MAX_TOOL_ITERATIONS - MCPChatService.iterations st)
               MCPChatService.cond (MCPChatService.stream_body llm remote mcp tools)
               mcp_cond_budget (mcp_stream_body_budget llm remote mcp tools) is_LLMCall).
      intros s w' _. apply mcp_stream_body_calls.
    + intros [[st | []] |]; apply calls_at_most_quiet; try apply all_ret.
      apply all_bind; [apply all_emit; reflexivity | intros _; apply all_ret].
  - revert w. change (calls_at_most 5
      (MCPChatService.chat llm remote mcp getSystemPrompt userMessage context history)).
    unfold MCPChatService.chat.
    apply (calls_at_most_bind 0 5);
      [apply calls_at_most_quiet, getAllTools_all | intros tools].
    apply (calls_at_most_bind 0 5);
      [apply calls_at_most_quiet, all_observe | intros prompt].
    apply (calls_at_most_bind 5 0).
    + intros w.
      apply (while_count
               (fun st => MCPChatService.MAX_TOOL_ITERATIONS - MCPChatService.iterations st)
               MCPChatService.cond (MCPChatService.chat_body llm remote mcp tools)
               mcp_cond_budget (mcp_chat_body_budget tools) is_LLMCall).
      intros s w' _. apply mcp_chat_body_calls.
    + intros [[st | response] |]; apply calls_at_most_quiet, all_ret.
Qed.

End OtherEntryPoints.

(* ===================================================================== *)
(** * The bound on provider calls *)
(* ===================================================================== *)

(** C1.  [ChatService.chat] does not keep to five provider calls in a turn.
    Against a model that requests a tool in every response it issues six:
    the call before its loop and one at the end of each of the five passes
    its guard allows; it then returns the sixth response, whose tool request
    is still pending.  On the same input [ChatService.chatStream] issues
    five.  For every provider and every input, a turn of
    [ChatService.chatStream] issues at most five calls and a turn of
    [ChatService.chat] at most six, and neither turn is cut by the fuel:
    both loops end by their own guard or by an exception. *)
Theorem chat_issues_a_sixth_provider_call :
  llm_calls (events (ChatService.chat Scenario.eager Scenario.env Scenario.prompt
                       "hi"%string Scenario.customer_context [] 0)) = 6
  /\ outcome (ChatService.chat Scenario.eager Scenario.env Scenario.prompt
                "hi"%string Scenario.customer_context [] 0)
     = Returned (Some Scenario.asks_cart)
  /\ llm_calls (events (ChatService.chatStream Scenario.eager Scenario.env Scenario.prompt
                          "hi"%string Scenario.customer_context [] 0)) = 5
  /\ forall (W : Type) (llm : LLM.LLMProvider W) (env : Tools.Env W)
            (getSystemPrompt : ChatContext -> W -> string)
            (userMessage : string) (context : ChatContext)
            (history : list Message) (w : W),
       llm_calls (events (ChatService.chatStream llm env getSystemPrompt
                            userMessage context history w)) <= 5
       /\ outcome (ChatService.chatStream llm env getSystemPrompt
                     userMessage context history w) <> Returned None
       /\ llm_calls (events (ChatService.chat llm env getSystemPrompt
                               userMessage context history w)) <= 6
       /\ outcome (ChatService.chat llm env getSystemPrompt
                     userMessage context history w) <> Returned None.
Proof.
  split; [vm_compute; reflexivity |].
  split; [vm_compute; reflexivity |].
  split; [vm_compute; reflexivity |].
  intros W llm env getSystemPrompt userMessage context history w.
  split; [apply chatStream_calls |].
  split.
  { intros H.
    pose proof (chat_service_stream_shape llm getSystemPrompt env
                  userMessage context history w) as Hshape.
    rewrite H in Hshape. exact Hshape. }
  split; [apply chat_calls | apply chat_fuel_suffices].
Qed.

(* ===================================================================== *)
(** * The event stream of [POST /chat/message] *)
(* ===================================================================== *)

Section RouteFacts.
Context {W : Type}.
Variable llm : LLM.LLMProvider W.
Variable env : Tools.Env W.
Variable getSystemPrompt : ChatContext -> W -> string.



End RouteFacts.

(** The route over [MCPChatService.chatStream] and the Gemini adapter writes
    two [done] events for a turn that answers "Hello". *)
Lemma mcp_route_writes_done_twice :
  ChatRoute.respond ChatRoute.mcp_message_event
    (MCPChatService.chatStream Scenario.gemini_hello Scenario.remote
       Scenario.connected Scenario.prompt "hi" Scenario.customer_context [] 0)
  = [ChatRoute.sse_text "Hello"; ChatRoute.sse_done; ChatRoute.sse_done].
Proof. vm_compute. reflexivity. Qed.

(* ===================================================================== *)
(** * The retry policy, attempt by attempt *)
(* ===================================================================== *)

Section RetryRuns.
Context {W E A : Type}.
Variable backend : GeminiProvider.Backend W.

Lemma withRetry_returns (op : M W E A) w a :
  outcome (GeminiProvider.withRetry backend op w) = Returned a ->
  exists w', outcome (op w') = Returned a.
Proof.
  unfold GeminiProvider.withRetry, GeminiProvider.MAX_RETRIES.
  cbn [seq for_range].
  unfold bind, try_catch, perform, ret, throw.
  destruct (op w) as [[ev0 w0'] [a0 | e0]] eqn:Hop0.
  { cbn. intros [= <-]. exists w. now rewrite Hop0. }
  destruct (GeminiProvider.isRateLimited e0 && (0 <? 3 - 1)); [| cbn; discriminate].
  cbn [fst snd].
  match goal with |- context [op ?x] => destruct (op x) as [[ev1 w1'] [a1 | e1]] eqn:Hop1 end.
  { cbn. intros [= <-]. eexists. now rewrite Hop1. }
  destruct (GeminiProvider.isRateLimited e1 && (1 <? 3 - 1)); [| cbn; discriminate].
  cbn [fst snd].
  match goal with |- context [op ?x] => destruct (op x) as [[ev2 w2'] [a2 | e2]] eqn:Hop2 end.
  { cbn. intros [= <-]. eexists. now rewrite Hop2. }
  destruct (GeminiProvider.isRateLimited e2 && (2 <? 3 - 1)); cbn; discriminate.
Qed.

End RetryRuns.

(** X5.  When the first attempt of an operation returns, or fails with an
    error that is not classified as rate limited, [withRetry] is that
    attempt: same chunks, same world (no wait), same result or error. *)
Theorem retry_is_transparent_without_rate_limit :
  forall (W E A : Type) (backend : GeminiProvider.Backend W) (op : M W E A) (w : W),
    (forall e, outcome (op w) = Threw e -> GeminiProvider.isRateLimited e = false) ->
    GeminiProvider.withRetry backend op w = op w.
Proof.
  intros W E A backend op w H.
  unfold GeminiProvider.withRetry, GeminiProvider.MAX_RETRIES.
  cbn [seq for_range]. unfold bind at 1. unfold bind at 1. unfold try_catch at 1.
  unfold bind at 1.
  destruct (op w) as [[ev w'] [a | e]] eqn:Hop.
  - cbn. now rewrite !app_nil_r.
  - specialize (H e eq_refl). cbn in H. rewrite H. cbn. now rewrite !app_nil_r.
Qed.

Lemma retry_is_transparent_without_rate_limit_witness :
  GeminiProvider.withRetry (Scenario.scripted []) Fixtures.broken 0
  = ([], 1, Threw (Error "API key not valid")).
Proof.
  rewrite (retry_is_transparent_without_rate_limit nat Empty_set unit
             (Scenario.scripted []) Fixtures.broken 0).
  - reflexivity.
  - intros e H. cbn in H. injection H as <-. reflexivity.
Defined.

(** X6.  When the first two attempts fail with rate-limit errors,
    [withRetry] waits [retryDelay] of the first error at attempt 0, then of
    the second at attempt 1, and the third attempt is final: its result is
    returned or its error rethrown, with no further wait. *)
Theorem retry_gives_up_after_third_attempt :
  forall (W E A : Type) (backend : GeminiProvider.Backend W) (op : M W E A) (w : W)
         (e0 e1 : Thrown),
    let r0 := op w in
    let w1 := GeminiProvider.sleep backend (GeminiProvider.retryDelay e0 0) (world r0) in
    let r1 := op w1 in
    let w2 := GeminiProvider.sleep backend (GeminiProvider.retryDelay e1 1) (world r1) in
    let r2 := op w2 in
    outcome r0 = Threw e0 -> GeminiProvider.isRateLimited e0 = true ->
    outcome r1 = Threw e1 -> GeminiProvider.isRateLimited e1 = true ->
    GeminiProvider.withRetry backend op w
    = (events r0 ++ events r1 ++ events r2, world r2, outcome r2).
Proof.
  intros W E A backend op w e0 e1. cbv zeta. intros H0 L0 H1 L1.
  unfold GeminiProvider.withRetry, GeminiProvider.MAX_RETRIES.
  cbn [seq for_range].
  unfold bind, try_catch, perform, ret, throw.
  destruct (op w) as [[ev0 w0'] o0] eqn:Hop0. cbn in H0. subst o0.
  cbn [world fst snd events outcome] in *.
  rewrite L0. cbn [andb Nat.ltb Nat.leb Nat.sub].
  destruct (op (GeminiProvider.sleep backend (GeminiProvider.retryDelay e0 0) w0'))
    as [[ev1 w1'] o1] eqn:Hop1. cbn in H1. subst o1.
  cbn [world fst snd events outcome] in *.
  rewrite L1. cbn [andb Nat.ltb Nat.leb Nat.sub].
  destruct (op (GeminiProvider.sleep backend (GeminiProvider.retryDelay e1 1) w1'))
    as [[ev2 w2'] [a | e2]] eqn:Hop2; cbn [world fst snd events outcome].
  - cbn. now rewrite ?app_nil_r, <- ?app_assoc.
  - rewrite andb_false_r. cbn. now rewrite ?app_nil_r, <- ?app_assoc.
Qed.

Lemma retry_gives_up_after_third_attempt_witness :
  GeminiProvider.withRetry (Scenario.scripted []) Fixtures.throttled 0
  = ([], 3, Threw Fixtures.rate_limit_error).
Proof.
  apply (retry_gives_up_after_third_attempt nat Empty_set unit (Scenario.scripted [])
           Fixtures.throttled 0 Fixtures.rate_limit_error Fixtures.rate_limit_error);
    reflexivity.
Defined.

(* ===================================================================== *)
(** * The ids of the Gemini adapter *)
(* ===================================================================== *)

Section DecimalIds.

Local Open Scope string_scope.

Lemma digits_no_underscore d c :
  In c (list_ascii_of_string (NilEmpty.string_of_uint d)) -> c <> "_"%char.
Proof.
  induction d; cbn; intros H; try contradiction;
    (destruct H as [<- | H]; [discriminate | now apply IHd]).
Qed.

Lemma decimal_no_underscore d c :
  In c (list_ascii_of_string (NilZero.string_of_uint d)) -> c <> "_"%char.
Proof.
  destruct d; try apply digits_no_underscore.
  cbn. intros [<- | []]. discriminate.
Qed.

Lemma split_at_underscore d1 : forall d2 r1 r2,
  (forall c, In c (list_ascii_of_string d1) -> c <> "_"%char) ->
  (forall c, In c (list_ascii_of_string d2) -> c <> "_"%char) ->
  d1 ++ String "_" r1 = d2 ++ String "_" r2 ->
  d1 = d2 /\ r1 = r2.
Proof.
  induction d1 as [| c d1 IH]; intros [| c2 d2] r1 r2 H1 H2 H; cbn in H.
  - now injection H.
  - injection H as Hc _. exfalso. apply (H2 c2); [now left | now symmetry].
  - injection H as Hc _. exfalso. apply (H1 c); [now left | exact Hc].
  - injection H as Hc Hr. subst c2.
    destruct (IH d2 r1 r2) as [-> ->]; auto.
    + intros x Hx. apply H1. now right.
    + intros x Hx. apply H2. now right.
Qed.

Lemma nat_to_uint_nonnil n : Nat.to_uint n <> Decimal.Nil.
Proof.
  rewrite <- (DecimalNat.Unsigned.of_to n) at 1.
  rewrite DecimalNat.Unsigned.to_of. apply DecimalFacts.unorm_nonnil.
Qed.

Lemma N_to_uint_nonnil n : N.to_uint n <> Decimal.Nil.
Proof.
  rewrite <- (DecimalN.Unsigned.of_to n) at 1.
  rewrite DecimalN.Unsigned.to_of. apply DecimalFacts.unorm_nonnil.
Qed.

Lemma of_nat_inj i j : JSString.of_nat i = JSString.of_nat j -> i = j.
Proof.
  unfold JSString.of_nat. intros H.
  apply DecimalNat.Unsigned.to_uint_inj.
  pose proof (NilZero.usu _ (nat_to_uint_nonnil i)) as Hi.
  pose proof (NilZero.usu _ (nat_to_uint_nonnil j)) as Hj.
  rewrite H in Hi. congruence.
Qed.

Lemma of_N_inj i j : JSString.of_N i = JSString.of_N j -> i = j.
Proof.
  unfold JSString.of_N. intros H.
  apply DecimalN.Unsigned.to_uint_inj.
  pose proof (NilZero.usu _ (N_to_uint_nonnil i)) as Hi.
  pose proof (NilZero.usu _ (N_to_uint_nonnil j)) as Hj.
  rewrite H in Hi. congruence.
Qed.

(** The id of a call determines the time and the index it was made of. *)
Lemma gemini_id_inj t i t' i' :
  GeminiProvider.gemini_id t i = GeminiProvider.gemini_id t' i' -> t = t' /\ i = i'.
Proof.
  unfold GeminiProvider.gemini_id. cbn [append]. intros H.
  injection H as H.
  apply split_at_underscore in H.
  - destruct H as [Ht Hi]. split; [now apply of_N_inj | now apply of_nat_inj].
  - intros c. apply decimal_no_underscore.
  - intros c. apply decimal_no_underscore.
Qed.

End DecimalIds.

Section Numbering.

Lemma numbered_from_bound base calls x :
  numbered_from base calls -> In x (map tc_id calls) ->
  exists t i, base <= i /\ x = GeminiProvider.gemini_id t i.
Proof.
  unfold numbered_from. revert base.
  induction calls as [| tc calls IH]; intros base H Hin; [contradiction |].
  cbn in H. inversion H as [| ? ? ? ? [t Ht] Hrest]; subst.
  destruct Hin as [<- | Hin].
  - exists t, base. split; [lia | exact Ht].
  - destruct (IH (S base) Hrest Hin) as (t' & i & Hi & ->).
    exists t', i. split; [lia | reflexivity].
Qed.

Lemma numbered_from_NoDup base calls :
  numbered_from base calls -> NoDup (map tc_id calls).
Proof.
  revert base. induction calls as [| tc calls IH]; intros base H; [constructor |].
  unfold numbered_from in H. cbn in H.
  inversion H as [| ? ? ? ? [t Ht] Hrest]; subst.
  cbn. constructor; [| now apply (IH (S base))].
  intros Hin.
  destruct (numbered_from_bound (S base) calls _ Hrest Hin) as (t' & i & Hi & Heq).
  rewrite Ht in Heq. apply gemini_id_inj in Heq. lia.
Qed.

Lemma numbered_from_snoc calls tc t :
  numbered_from 0 calls ->
  tc_id tc = GeminiProvider.gemini_id t (List.length calls) ->
  numbered_from 0 (calls ++ [tc]).
Proof.
  unfold numbered_from. intros H Ht.
  rewrite length_app, seq_app. cbn.
  apply Forall2_app; [exact H |]. constructor; [| constructor]. now exists t.
Qed.

Lemma number_calls_numbered time fcs : forall base,
  numbered_from base (GeminiProvider.number_calls time base fcs).
Proof.
  induction fcs as [| fc fcs IH]; intros base; [constructor |].
  unfold numbered_from. cbn. constructor; [now exists time | apply IH].
Qed.

End Numbering.

Section ReturnFacts.
Context {W E : Type}.

Lemma returns_bind_post {A B} (P : A -> Prop) (Q : B -> Prop)
    (m : M W E A) (k : A -> M W E B) :
  returns P m -> (forall a, P a -> returns Q (k a)) -> returns Q (bind m k).
Proof.
  intros Hm Hk w b.
  destruct (m w) as [[ev w'] [a | e]] eqn:Hrun.
  - rewrite (bind_returned _ _ _ _ _ _ Hrun). cbn. apply Hk.
    apply (Hm w). now rewrite Hrun.
  - rewrite (bind_threw _ _ _ _ _ _ Hrun). discriminate.
Qed.

Lemma returns_for_of {A S} (I : S -> Prop) (body : A -> S -> M W E S) :
  (forall x s, I s -> returns I (body x s)) ->
  forall xs s, I s -> returns I (for_of xs body s).
Proof.
  intros Hb xs. induction xs as [| x xs IH]; intros s Hs; cbn.
  - now apply returns_ret.
  - apply (returns_bind_post I); [now apply Hb | exact IH].
Qed.

Lemma returns_any {A} (m : M W E A) : returns (fun _ => True) m.
Proof. intros w a _. exact I. Qed.

End ReturnFacts.

Section GeminiIds.
Context {W : Type}.
Variable backend : GeminiProvider.Backend W.
Variable model : string.

Lemma handle_chunk_numbered chunk fullContent calls :
  numbered_from 0 calls ->
  returns (fun acc => numbered_from 0 (snd acc))
          (GeminiProvider.handle_chunk (W := W) chunk (fullContent, calls)).
Proof.
  intros H. unfold GeminiProvider.handle_chunk.
  apply (returns_bind_post (fun _ => True)); [apply returns_any | intros fc _].
  apply (returns_bind_post (numbered_from 0)).
  - destruct (GeminiProvider.chunk_functionCalls chunk) as [fcs |];
      [| now apply returns_ret].
    apply (returns_for_of (numbered_from 0)); [| exact H].
    intros x s Hs. apply returns_bind; intros _. apply returns_ret.
    now apply (numbered_from_snoc s _ (GeminiProvider.chunk_time chunk)).
  - intros calls' Hc. now apply returns_ret.
Qed.

Lemma gemini_chat_numbered messages tools :
  returns (fun m => numbered_from 0 (requested m))
          (GeminiProvider.chat backend model messages tools).
Proof.
  intros w m Hm.
  apply withRetry_returns in Hm. destruct Hm as [w' Hm]. revert w' m Hm.
  change (returns (W := W) (E := Empty_set) (fun m => numbered_from 0 (requested m))
    (bind (GeminiProvider.build_request model messages tools) (fun request =>
     bind (perform (GeminiProvider.sendMessage backend request)) (fun response =>
     bind (observe (GeminiProvider.now backend)) (fun time =>
     ret {| role := assistant;
            content := GeminiProvider.response_text response;
            toolCallId := None;
            toolCalls :=
              match GeminiProvider.response_functionCalls response with
              | Some (fc :: fcs) => Some (GeminiProvider.number_calls time 0 (fc :: fcs))
              | _ => None
              end |}))))).
  apply returns_bind; intros request.
  apply returns_bind; intros response.
  apply returns_bind; intros time.
  apply returns_ret. unfold requested. cbn [toolCalls].
  destruct (GeminiProvider.response_functionCalls response) as [[| fc fcs] |];
    [constructor | | constructor].
  apply number_calls_numbered.
Qed.

Lemma gemini_chatStream_numbered messages tools :
  returns (fun m => numbered_from 0 (requested m))
          (GeminiProvider.chatStream backend model messages tools).
Proof.
  intros w m Hm.
  apply withRetry_returns in Hm. destruct Hm as [w' Hm]. revert w' m Hm.
  change (returns (W := W) (E := StreamChunk) (fun m => numbered_from 0 (requested m))
    (bind (GeminiProvider.build_request model messages tools) (fun request =>
     bind (perform (GeminiProvider.sendMessageStream backend request)) (fun stream =>
     bind (for_of (GeminiProvider.stream_chunks stream)
                  GeminiProvider.handle_chunk (EmptyString, [])) (fun acc =>
     match GeminiProvider.stream_failure stream with
     | Some e => throw e
     | None =>
         bind (emit done) (fun _ =>
         ret {| role := assistant;
                content := fst acc;
                toolCallId := None;
                toolCalls := match snd acc with [] => None | calls => Some calls end |})
     end))))).
  apply returns_bind; intros request.
  apply returns_bind; intros stream.
  apply (returns_bind_post (fun acc => numbered_from 0 (snd acc))).
  - apply (returns_for_of (fun acc => numbered_from 0 (snd acc))).
    + intros chunk [fc calls] Hs. now apply handle_chunk_numbered.
    + constructor.
  - intros [fc calls] Hacc. cbn [fst snd] in *.
    destruct (GeminiProvider.stream_failure stream); [apply returns_throw |].
    apply returns_bind; intros _. apply returns_ret.
    unfold requested. cbn [toolCalls].
    destruct calls; [constructor | exact Hacc].
Qed.

End GeminiIds.

(** X7.  The tool calls of one message returned by the Gemini adapter, by
    [chat] or by [chatStream], carry pairwise distinct ids. *)
Theorem gemini_tool_call_ids_are_distinct :
  forall (W : Type) (backend : GeminiProvider.Backend W) (model : string)
         (messages : list Message) (tools : option (list Tool)),
    returns (fun m => NoDup (map tc_id (requested m)))
            (GeminiProvider.chat backend model messages tools)
    /\ returns (fun m => NoDup (map tc_id (requested m)))
               (GeminiProvider.chatStream backend model messages tools).
Proof.
  intros W backend model messages tools. split; intros w m Hm.
  - apply (numbered_from_NoDup 0).
    exact (gemini_chat_numbered backend model messages tools w m Hm).
  - apply (numbered_from_NoDup 0).
    exact (gemini_chatStream_numbered backend model messages tools w m Hm).
Qed.

Lemma gemini_tool_call_ids_are_distinct_witness :
  exists m,
    outcome (GeminiProvider.chat Fixtures.two_calls "gemini-2.5-flash"
               Fixtures.greeting None 0) = Returned m
    /\ map tc_id (requested m) = ["gemini_1700000000000_0"; "gemini_1700000000000_1"]%string
    /\ NoDup (map tc_id (requested m)).
Proof.
  eexists. split; [reflexivity |]. split; [reflexivity |].
  apply (proj1 (gemini_tool_call_ids_are_distinct nat Fixtures.two_calls
                  "gemini-2.5-flash" Fixtures.greeting None) 0).
  reflexivity.
Defined.

(* ===================================================================== *)
(** * The registry and its dispatch *)
(* ===================================================================== *)

Lemma eqb_of_not_in (x : string) (l : list string) :
  ~ In x l -> Forall (fun y => String.eqb x y = false) l.
Proof.
  intros H. apply Forall_forall. intros y Hy.
  apply String.eqb_neq. intros ->. now apply H.
Qed.

(** X8.  For a tool name that is in neither list of the registry,
    [executeTool] returns the JSON text of [{ error: 'Unknown tool: <name>' }]
    with no chart, whatever the caller; no handler runs (the world is
    unchanged) and nothing is thrown. *)
Theorem unregistered_tool_is_reported :
  forall (W E : Type) (env : Tools.Env W) (toolName : string) (args : Json)
         (context : ChatContext) (w : W),
    ~ In toolName (Tools.customerToolNames ++ Tools.adminOnlyToolNames) ->
    Tools.executeTool (E := E) env toolName args context w
    = ([], w,
       Returned
         {| Tools.result_toolCallId := ("tool_" ++ JSString.of_N (Tools.now env w))%string;
            Tools.result_content :=
              Tools.stringify_error (Some ("Unknown tool: " ++ toolName)%string);
            Tools.result_chart := JUndefined |}).
Proof.
  intros W E env toolName args context w H. apply eqb_of_not_in in H.
  unfold Tools.customerToolNames, Tools.adminOnlyToolNames in H. cbn [app] in H.
  repeat match goal with
         | H : Forall _ (_ :: _) |- _ => inversion H; subst; clear H
         end.
  unfold Tools.executeTool, Tools.executeToolInternal.
  repeat match goal with
         | H : String.eqb _ _ = false |- _ => rewrite H; clear H
         end.
  reflexivity.
Qed.

Lemma unregistered_tool_is_reported_witness :
  Tools.result_content
    match outcome (Tools.executeTool (E := Empty_set) Scenario.env "drop_database"
                     (JObject []) Scenario.admin_context 0) with
    | Returned r => r
    | Threw _ => {| Tools.result_toolCallId := EmptyString;
                    Tools.result_content := EmptyString;
                    Tools.result_chart := JUndefined |}
    end
  = Tools.stringify_error (Some "Unknown tool: drop_database"%string).
Proof.
  rewrite (unregistered_tool_is_reported nat Empty_set Scenario.env "drop_database"
             (JObject []) Scenario.admin_context 0).
  - reflexivity.
  - cbn. intros H.
    repeat (destruct H as [H | H]; [discriminate H |]). exact H.
Defined.

(** X9.  The tools offered to customers are not gated: for each of their
    names, [executeTool] does the same for a caller whatever the role in the
    context. *)
Theorem customer_tools_ignore_the_role :
  forall (W E : Type) (env : Tools.Env W) (toolName : string) (args : Json)
         (context : ChatContext) (r : UserRole) (w : W),
    In toolName Tools.customerToolNames ->
    Tools.executeTool (E := E) env toolName args (with_role r context) w
    = Tools.executeTool (E := E) env toolName args context w.
Proof.
  intros W E env toolName args context r w H.
  unfold Tools.customerToolNames in H. cbn in H.
  repeat destruct H as [<- | H]; try contradiction; reflexivity.
Qed.

Lemma customer_tools_ignore_the_role_witness :
  Tools.executeTool (E := Empty_set) Scenario.env "get_my_cart" (JObject [])
    (with_role admin Scenario.customer_context) 0
  = Tools.executeTool (E := Empty_set) Scenario.env "get_my_cart" (JObject [])
      Scenario.customer_context 0.
Proof.
  apply (customer_tools_ignore_the_role nat Empty_set Scenario.env "get_my_cart"
           (JObject []) Scenario.customer_context admin 0).
  cbn. auto 10.
Defined.

(* ===================================================================== *)
(** * What the gateway shows and where it routes *)
(* ===================================================================== *)

Section LoopFacts.
Context {W E : Type}.

Lemma for_of_filter {A S} (keep : A -> bool) (body1 body2 : A -> S -> M W E S) xs :
  (forall x s w, keep x = false -> body1 x s w = ([], w, Returned s)) ->
  (forall x s w, keep x = true -> body1 x s w = body2 x s w) ->
  forall s w, for_of xs body1 s w = for_of (List.filter keep xs) body2 s w.
Proof.
  intros Hskip Hkeep. induction xs as [| x xs IH]; intros s w; [reflexivity |].
  cbn [for_of List.filter]. destruct (keep x) eqn:Hx.
  - cbn [for_of]. unfold bind. rewrite (Hkeep x s w Hx).
    destruct (body2 x s w) as [[ev w'] [a | e]]; [| reflexivity].
    now rewrite IH.
  - unfold bind. rewrite (Hskip x s w Hx), IH.
    destruct (for_of _ body2 s w) as [[ev w'] o]. reflexivity.
Qed.

End LoopFacts.

(** X10.  What [getAllTools] answers to a caller who is no admin is what it
    would answer to anyone if the admin-only servers were not connected: the
    same tools, the same requests to the servers, the same failure. *)
Theorem customers_never_reach_admin_servers :
  forall (W E : Type) (remote : MCPManager.Remote W) (mgr : MCPManager.Manager)
         (isAdmin : bool) (w : W),
    MCPManager.getAllTools (E := E) remote mgr false w
    = MCPManager.getAllTools (E := E) remote (without_admin_servers mgr) isAdmin w.
Proof.
  intros W E remote mgr isAdmin w.
  unfold MCPManager.getAllTools, without_admin_servers. cbn [MCPManager.connections].
  apply for_of_filter; intros entry allTools w0 H; unfold admin_only_connection in H;
    cbv zeta.
  - destruct (match MCPManager.config_adminOnly _ with Some b => b | None => false end);
      [reflexivity | discriminate].
  - destruct (match MCPManager.config_adminOnly _ with Some b => b | None => false end);
      [discriminate | reflexivity].
Qed.

Section JsMapFacts.
Context {V : Type}.

Lemma JsMap_get_set_same (m : JsMap.t V) k v : JsMap.get (JsMap.set m k v) k = Some v.
Proof.
  induction m as [| [k' v'] m IH]; cbn.
  - now rewrite String.eqb_refl.
  - destruct (String.eqb k' k) eqn:Hk; cbn; rewrite Hk; [reflexivity | exact IH].
Qed.

Lemma JsMap_get_set_other (m : JsMap.t V) k v k' :
  k <> k' -> JsMap.get (JsMap.set m k v) k' = JsMap.get m k'.
Proof.
  intros Hne. induction m as [| [k0 v0] m IH]; cbn.
  - apply String.eqb_neq in Hne. now rewrite Hne.
  - destruct (String.eqb k0 k) eqn:Hk; cbn.
    + apply String.eqb_eq in Hk. subst k0.
      apply String.eqb_neq in Hne. now rewrite Hne.
    + destruct (String.eqb k0 k'); [reflexivity | exact IH].
Qed.

End JsMapFacts.

(** The index after the tools a server lists are registered: a listed name
    goes to that server, any other name where it went before. *)
Lemma register_tools_routes (serverName : string) tools : forall index t,
  JsMap.get
    (fold_left (fun index t => JsMap.set index (MCPManager.rt_name t) serverName)
               tools index) t
  = if existsb (fun rt => String.eqb (MCPManager.rt_name rt) t) tools
    then Some serverName
    else JsMap.get index t.
Proof.
  induction tools as [| rt tools IH]; intros index t; [reflexivity |].
  cbn [fold_left existsb]. rewrite IH.
  destruct (existsb _ tools); [now rewrite orb_true_r |].
  rewrite orb_false_r.
  destruct (String.eqb (MCPManager.rt_name rt) t) eqn:Ht.
  - apply String.eqb_eq in Ht. subst t. apply JsMap_get_set_same.
  - apply String.eqb_neq in Ht. now apply JsMap_get_set_other.
Qed.

(** X11.  After a [connect] that succeeds for a server with a non-empty
    name, every tool the server listed is routed to it, whichever server had
    the name before, and [callTool] hands the call to the client of the new
    connection: it returns the first text block of the answer, or the JSON
    text of the answer when there is none, and throws what the client throws. *)
Theorem connected_tool_reaches_its_server :
  forall (W E : Type) (remote : MCPManager.Remote W)
         (config : MCPManager.MCPServerConfig) (mgr : MCPManager.Manager)
         (w w1 w2 w3 w4 : W) (proc client : N) (tools : list MCPManager.RemoteTool)
         (toolName : string) (args : Json),
    MCPManager.spawn remote config w = (w1, inr proc) ->
    MCPManager.client_connect remote config w1 = (w2, inr client) ->
    MCPManager.client_listTools remote client w2 = (w3, inr tools) ->
    In toolName (map MCPManager.rt_name tools) ->
    MCPManager.config_name config <> EmptyString ->
    let mgr' := snd (fst (MCPManager.connect remote config mgr w)) in
    MCPManager.getServerForTool mgr' toolName = Some (MCPManager.config_name config)
    /\ MCPManager.callTool (E := E) remote mgr' toolName args w4
       = match MCPManager.client_callTool remote client toolName args w4 with
         | (w5, inl e) => ([], w5, Threw e)
         | (w5, inr result) =>
             ([], w5,
              Returned
                match
                  match MCPManager.call_content result with
                  | Some blocks => MCPManager.first_text blocks
                  | None => None
                  end
                with
                | Some t => t
                | None => MCPManager.JSON_stringify remote result
                end)
         end.
Proof.
  intros W E remote config mgr w w1 w2 w3 w4 proc client tools toolName args
         Hs Hc Hl Hin Hne. cbv zeta.
  unfold MCPManager.connect. rewrite Hs, Hc, Hl. cbn [fst snd].
  assert (Hroute :
    JsMap.get
      (fold_left (fun index t =>
                    JsMap.set index (MCPManager.rt_name t) (MCPManager.config_name config))
                 tools (MCPManager.toolToServer mgr)) toolName
    = Some (MCPManager.config_name config)).
  { rewrite register_tools_routes.
    assert (He : existsb (fun rt => String.eqb (MCPManager.rt_name rt) toolName) tools = true).
    { apply existsb_exists. apply in_map_iff in Hin. destruct Hin as (rt & <- & Hrt).
      exists rt. split; [exact Hrt | apply String.eqb_refl]. }
    now rewrite He. }
  split; [exact Hroute |].
  unfold MCPManager.callTool. cbn [MCPManager.toolToServer MCPManager.connections].
  rewrite Hroute.
  destruct (MCPManager.config_name config) as [| c name] eqn:Hname; [contradiction |].
  cbn [MCPManager.falsy]. rewrite <- Hname, JsMap_get_set_same.
  cbn [MCPManager.conn_client]. unfold bind, perform.
  destruct (MCPManager.client_callTool remote client toolName args w4) as [w5 [e | result]];
    [reflexivity |].
  destruct (match MCPManager.call_content result with
            | Some blocks => MCPManager.first_text blocks
            | None => None
            end); reflexivity.
Qed.

Lemma connected_tool_reaches_its_server_witness :
  MCPManager.getServerForTool Scenario.connected "get_my_cart" = Some "products"%string
  /\ MCPManager.callTool (E := Empty_set) Scenario.remote Scenario.connected
       "get_my_cart" (JObject []) 0
     = ([], 0, Returned "[]"%string).
Proof.
  apply (connected_tool_reaches_its_server nat Empty_set Scenario.remote
           Scenario.products_config (MCPManager.new [Scenario.products_config])
           0 0 0 0 0 1%N 1%N
           [ {| MCPManager.rt_name := "search_products";
                MCPManager.rt_description := None;
                MCPManager.rt_inputSchema := JObject [] |};
             {| MCPManager.rt_name := "get_my_cart";
                MCPManager.rt_description := None;
                MCPManager.rt_inputSchema := JObject [] |} ]
           "get_my_cart" (JObject []));
    try reflexivity.
  - cbn. auto.
  - discriminate.
Defined.

(** X12.  [executeToolCall] for a tool name the index does not hold, with
    arguments that are no string, returns the JSON text of
    [{ error: 'Unknown tool: <name>' }]: nothing is thrown and no server is
    contacted. *)
Theorem unknown_remote_tool_is_reported :
  forall (W E : Type) (remote : MCPManager.Remote W) (mgr : MCPManager.Manager)
         (toolCall : ToolCall) (w : W),
    MCPManager.hasTool mgr (tc_name toolCall) = false ->
    (forall s, tc_arguments toolCall <> JString s) ->
    MCPManager.executeToolCall (E := E) remote mgr toolCall w
    = ([], w,
       Returned (Tools.stringify_error
                   (Some ("Unknown tool: " ++ tc_name toolCall)%string))).
Proof.
  intros W E remote mgr toolCall w Hhas Hargs.
  unfold MCPManager.hasTool, JsMap.has in Hhas.
  destruct (JsMap.get (MCPManager.toolToServer mgr) (tc_name toolCall)) eqn:Hget;
    [discriminate |].
  unfold MCPManager.executeToolCall, MCPManager.callTool, try_catch, bind.
  rewrite Hget. cbn [MCPManager.falsy].
  destruct (tc_arguments toolCall) eqn:Ha; try reflexivity.
  now destruct (Hargs s).
Qed.

Lemma unknown_remote_tool_is_reported_witness :
  MCPManager.executeToolCall (E := Empty_set) Scenario.remote Scenario.connected
    Fixtures.stray_call 0
  = ([], 0, Returned (Tools.stringify_error (Some "Unknown tool: drop_database"%string))).
Proof.
  apply (unknown_remote_tool_is_reported nat Empty_set Scenario.remote Scenario.connected
           Fixtures.stray_call 0).
  - reflexivity.
  - intros s. discriminate.
Defined.

(* ===================================================================== *)
(** * What a search returns *)
(* ===================================================================== *)

Section SortFacts.







End SortFacts.





(* ===================================================================== *)
(** * What the embedding service returns *)
(* ===================================================================== *)






